(** * Productboard connector: pagination walkers and argument normalizers

    A shallow embedding of the core of the connector (the [server/index.js]
    of the bundle): the limit normalizer, the two listing walkers, the
    status / parent / timeframe normalizers, the feature create and update
    handlers, and the error classification with its envelope.

    Tool arguments and API payloads are JSON documents, so the embedding
    works on a small model of JavaScript values; objects are finite maps
    from property names to values. *)

From Stdlib Require Import ZArith QArith Qround String List Bool Lia.
From stdpp Require Import base option gmap strings pretty sorting.
Import ListNotations.

#[local] Set Warnings "-register-all".
#[local] Open Scope string_scope.
#[local] Open Scope Z_scope.

(* ===================================================================== *)
(** * JavaScript values *)
(* ===================================================================== *)

(** A JavaScript number.  Every finite double is a rational; the connector
    only compares, floors and takes minima of numbers, all of which are
    exact on doubles, so finite numbers are carried as rationals. *)
Inductive number :=
| NaN
| PosInf
| NegInf
| Finite (q : Q).

Inductive value :=
| VUndef
| VNull
| VBool (b : bool)
| VNum (n : number)
| VStr (s : string)
| VArr (l : list value)
| VObj (m : gmap string value).

Definition VInt (z : Z) : value := VNum (Finite (inject_Z z)).

(** The empty object literal [{}]. *)
Definition emptyObj : gmap string value := ∅.

(** [Number.isFinite]. *)
Definition isFinite (n : number) : bool :=
  match n with Finite _ => true | _ => false end.

(** ToBoolean on numbers: NaN and (either) zero are falsy. *)
Definition number_truthy (n : number) : bool :=
  match n with
  | NaN => false
  | Finite q => negb (Qeq_bool q 0)
  | _ => true
  end.

(** ToBoolean: what [if (v)], [!v], [v ? a : b], [v && w] and [Boolean(v)]
    test. *)
Definition truthy (v : value) : bool :=
  match v with
  | VUndef | VNull => false
  | VBool b => b
  | VNum n => number_truthy n
  | VStr s => negb (String.eqb s "")
  | VArr _ | VObj _ => true
  end.

(** [v === undefined || v === null]. *)
Definition nullish (v : value) : bool :=
  match v with VUndef | VNull => true | _ => false end.

(** [a ?? b]. *)
Definition coalesce (a b : value) : value := if nullish a then b else a.

(** [v !== undefined]. *)
Definition defined (v : value) : bool :=
  match v with VUndef => false | _ => true end.

(** [typeof v === "string"]. *)
Definition is_string (v : value) : bool :=
  match v with VStr _ => true | _ => false end.

(** [typeof v === "object"]. *)
Definition is_object (v : value) : bool :=
  match v with VNull | VArr _ | VObj _ => true | _ => false end.

(** The string held by a value known to be a string. *)
Definition stringOf (v : value) : string :=
  match v with VStr s => s | _ => "" end.

(** Property read [o.k] on an object held as a map: a missing key reads as
    [undefined]. *)
Definition field (o : gmap string value) (k : string) : value :=
  default VUndef (o !! k).

(** Optional-chaining read [v?.k].  A nullish receiver gives [undefined];
    so does a primitive or an array, for every property name the connector
    reads (none of them is [length] or an index). *)
Definition prop (v : value) (k : string) : value :=
  match v with
  | VObj m => field m k
  | _ => VUndef
  end.

(** [Array.isArray(v) ? v : []]. *)
Definition arrayOrEmpty (v : value) : list value :=
  match v with VArr l => l | _ => [] end.

(** The spread [{...(c ? {k: v} : {}), ...}] building an object literal
    field by field: [k] is written when [c] holds. *)
Definition spreadIf (c : bool) (k : string) (v : value)
    (o : gmap string value) : gmap string value :=
  if c then <[k := v]> o else o.

Infix "??" := coalesce (at level 45, left associativity).

(** [function toObject(value)]: a non-array object is kept, anything else
    becomes [{}]. *)
Definition toObject (v : value) : gmap string value :=
  match v with
  | VObj m => m
  | _ => emptyObj
  end.

(* ===================================================================== *)
(** * Services of the JavaScript engine *)
(* ===================================================================== *)

(** What the connector takes from the engine and the platform rather than
    defining itself.  Nothing is assumed about these functions. *)
Class Engine := {
  (** [Number(s)] for a string that is not a short run of decimal digits
      (those are parsed by [decimalLiteral] below). *)
  StringToNumber_other : string -> number;
  (** [Number(o)] for an array or an object (ToPrimitive, then ToNumber). *)
  ObjectToNumber : value -> number;
  (** [String.prototype.trim]. *)
  String_trim : string -> string;
  (** [new URL(s, PRODUCTBOARD_BASE_URL).toString()]; [None] when the URL
      constructor throws. *)
  URL_resolve : string -> option string;
  (** [encodeURIComponent(v)], including the conversion of [v] to a
      string. *)
  encodeURIComponent : value -> string;
  (** [JSON.parse(text)]; [None] when it throws. *)
  JSON_parse : string -> option value
}.

(** Value of a string of decimal digits, most significant first. *)
Fixpoint digitsValue (acc : Z) (s : string) : option Z :=
  match s with
  | EmptyString => Some acc
  | String c rest =>
      let n := Z.of_nat (Ascii.nat_of_ascii c) in
      if (48 <=? n) && (n <=? 57) then digitsValue (10 * acc + (n - 48)) rest
      else None
  end.

(** A non-empty string of at most fifteen decimal digits denotes an integer
    below 2^53, which [Number] returns exactly. *)
Definition decimalLiteral (s : string) : option Z :=
  if String.eqb s "" then None
  else if (15 <? String.length s)%nat then None
  else digitsValue 0 s.

Section Coercions.
Context `{Engine}.

(** ToNumber on a string. *)
Definition StringToNumber (s : string) : number :=
  match decimalLiteral s with
  | Some z => Finite (inject_Z z)
  | None => StringToNumber_other s
  end.

(** [Number(v)]. *)
Definition ToNumber (v : value) : number :=
  match v with
  | VUndef => NaN
  | VNull => Finite 0
  | VBool b => Finite (if b then 1 else 0)
  | VNum n => n
  | VStr s => StringToNumber s
  | VArr _ | VObj _ => ObjectToNumber v
  end.
End Coercions.

(* ===================================================================== *)
(** * Constants *)
(* ===================================================================== *)

Definition PRODUCTBOARD_BASE_URL : string := "https://api.productboard.com".
Definition DEFAULT_LIMIT : Z := 100.
Definition MAX_PAGE_SIZE : Z := 100.

(* ===================================================================== *)
(** * Limit normalization *)
(* ===================================================================== *)

Section Limit.
Context `{Engine}.

(** [function normalizeLimit(inputLimit, fallback = DEFAULT_LIMIT)].
    Every call site leaves [fallback] at its default. *)
Definition normalizeLimit (inputLimit : value) : Z :=
  let fallback := DEFAULT_LIMIT in
  let limit := ToNumber (inputLimit ?? VInt fallback) in
  match limit with
  | Finite q =>
      (* Number.isFinite(limit) holds; test limit <= 0 *)
      if Qle_bool q 0 then fallback
      else Z.min (Qfloor q) 1000
  | _ => fallback
  end.
End Limit.

(* ===================================================================== *)
(** * Errors, requests and replies *)
(* ===================================================================== *)

(** [class ProductboardApiError extends Error]: the message and the three
    optional fields set by the constructor. *)
Module Err.
Record ProductboardApiError := {
  message : string;
  status : option Z;
  details : value;
  retryAfter : option number
}.
End Err.
Abbreviation ProductboardApiError := Err.ProductboardApiError.

(** What a handler can throw: the connector's own error, or a [TypeError]
    raised by the engine. *)
Inductive exn :=
| ApiError (e : ProductboardApiError)
| TypeError (msg : string).

(** [new ProductboardApiError(msg, { status: 400 })]. *)
Definition validationError (msg : string) : exn :=
  ApiError {| Err.message := msg; Err.status := Some 400;
              Err.details := VUndef; Err.retryAfter := None |}.

(** A call [apiRequest(method, path, { query, body, absoluteUrl })];
    [None] stands for an argument that is [null] or left out. *)
Module Req.
Record request := {
  method : string;
  path : option string;
  query : option (gmap string value);
  body : option value;
  absoluteUrl : option string
}.
End Req.
Abbreviation request := Req.request.

(** [apiRequest("GET", path, { query })]. *)
Definition GET_query (path : string) (query : gmap string value) : request :=
  {| Req.method := "GET"; Req.path := Some path; Req.query := Some query;
     Req.body := None; Req.absoluteUrl := None |}.

(** [apiRequest("GET", null, { absoluteUrl })]. *)
Definition GET_absolute (absoluteUrl : string) : request :=
  {| Req.method := "GET"; Req.path := None; Req.query := None;
     Req.body := None; Req.absoluteUrl := Some absoluteUrl |}.

(** How one [await apiRequest(...)] ends: with the decoded payload
    ([payload ?? {}], never nullish), or by throwing. *)
Inductive reply :=
| Returned (payload : value)
| Threw (e : exn).

(** How a handler run against a finite script of replies ends.
    [Awaiting]: the last request listed was issued and the script holds no
    reply for it. *)
Inductive outcome (A : Type) :=
| Done (a : A)
| Thrown (e : exn)
| Awaiting.
Arguments Done {A} a.
Arguments Thrown {A} e.
Arguments Awaiting {A}.

(** A handler run: the requests issued, in order, and how the run ends. *)
Definition run (A : Type) : Type := list request * outcome A.

(** Put request [r] in front of the requests of the rest of the run. *)
Definition issued {A : Type} (r : request) (k : run A) : run A :=
  (r :: fst k, snd k).

(* ===================================================================== *)
(** * Pagination walkers *)
(* ===================================================================== *)

Module WithLinks.
Record result := {
  items : list value;
  count : Z;
  has_more : bool;
  next : value
}.
End WithLinks.

Module Notes.
Record result := {
  items : list value;
  count : Z;
  has_more : bool;
  next_cursor : value
}.
End Notes.

(** [items.length]. *)
Definition len (items : list value) : Z := Z.of_nat (length items).

(** [pageItems.slice(0, remaining)] for an integer [remaining]. *)
Definition slice0 (pageItems : list value) (remaining : Z) : list value :=
  if remaining <? 0
  then firstn (Z.to_nat (Z.max 0 (len pageItems + remaining))) pageItems
  else firstn (Z.to_nat remaining) pageItems.

Section Walkers.
Context `{Engine}.

(** The [while (items.length < maxItems)] loop of [listWithLinks], run
    against the replies still to come. *)
Fixpoint listWithLinks_loop (path : string) (maxItems : Z)
    (replies : list reply) (items : list value) (nextUrl : option string)
    (firstQuery : gmap string value) : run WithLinks.result :=
  if len items <? maxItems then
    let req :=
      match nextUrl with
      | Some u =>
          (* nextUrl ? ... : ... tests the string for emptiness *)
          if String.eqb u "" then GET_query path firstQuery
          else GET_absolute u
      | None => GET_query path firstQuery
      end in
    match replies with
    | [] => ([req], Awaiting)
    | Threw e :: _ => ([req], Thrown e)
    | Returned payload :: rest =>
        let pageItems := arrayOrEmpty (prop payload "data") in
        let remaining := maxItems - len items in
        let items := (items ++ slice0 pageItems remaining)%list in
        let candidateNext := prop (prop payload "links") "next" in
        if negb (truthy candidateNext) || (maxItems <=? len items) then
          ([req],
           Done {| WithLinks.items := items;
                   WithLinks.count := len items;
                   WithLinks.has_more :=
                     truthy candidateNext && (maxItems <=? len items);
                   WithLinks.next := candidateNext ?? VNull |})
        else
          match candidateNext with
          | VStr s =>
              if String.prefix "http" s
              then issued req
                     (listWithLinks_loop path maxItems rest items
                        (Some s) emptyObj)
              else match URL_resolve s with
                   | Some u =>
                       issued req
                         (listWithLinks_loop path maxItems rest items
                            (Some u) emptyObj)
                   | None => ([req], Thrown (TypeError "Invalid URL"))
                   end
          | _ =>
              ([req],
               Thrown (TypeError "candidateNext.startsWith is not a function"))
          end
    end
  else
    ([], Done {| WithLinks.items := items;
                 WithLinks.count := len items;
                 WithLinks.has_more := false;
                 WithLinks.next := VNull |}).

(** [async function listWithLinks(path, { query = {}, limit =
    DEFAULT_LIMIT, pageSizeParam } = {})].  [query] and [limit] are
    [undefined] when the caller leaves them out. *)
Definition listWithLinks (path : string) (query : option (gmap string value))
    (limit : value) (pageSizeParam : option string)
    (replies : list reply) : run WithLinks.result :=
  let query := default emptyObj query in
  let limit := if defined limit then limit else VInt DEFAULT_LIMIT in
  let maxItems := normalizeLimit limit in
  let firstQuery := query in
  let firstQuery :=
    match pageSizeParam with
    | Some p =>
        if negb (String.eqb p "") && nullish (field firstQuery p)
        then <[p := VInt (Z.min MAX_PAGE_SIZE maxItems)]> firstQuery
        else firstQuery
    | None => firstQuery
    end in
  listWithLinks_loop path maxItems replies [] None firstQuery.

(** The [while (items.length < maxItems)] loop of [listNotes]. *)
Fixpoint listNotes_loop (query : gmap string value) (maxItems : Z)
    (replies : list reply) (items : list value) (cursor : value)
    : run Notes.result :=
  if len items <? maxItems then
    let remaining := maxItems - len items in
    let pageLimit := Z.min MAX_PAGE_SIZE remaining in
    let pageQuery := <["pageLimit" := VInt pageLimit]> query in
    let pageQuery :=
      if truthy cursor then <["pageCursor" := cursor]> pageQuery
      else delete "pageCursor" pageQuery in
    let req := GET_query "/notes" pageQuery in
    match replies with
    | [] => ([req], Awaiting)
    | Threw e :: _ => ([req], Thrown e)
    | Returned payload :: rest =>
        let pageItems := arrayOrEmpty (prop payload "data") in
        let items := (items ++ slice0 pageItems remaining)%list in
        let cursor := prop payload "pageCursor" in
        if negb (truthy cursor) || (maxItems <=? len items) then
          ([req],
           Done {| Notes.items := items;
                   Notes.count := len items;
                   Notes.has_more := truthy cursor && (maxItems <=? len items);
                   Notes.next_cursor := cursor ?? VNull |})
        else issued req (listNotes_loop query maxItems rest items cursor)
    end
  else
    ([], Done {| Notes.items := items;
                 Notes.count := len items;
                 Notes.has_more := false;
                 Notes.next_cursor := VNull |}).

(** [async function listNotes({ query = {}, limit = DEFAULT_LIMIT } =
    {})]. *)
Definition listNotes (query : option (gmap string value)) (limit : value)
    (replies : list reply) : run Notes.result :=
  let query := default emptyObj query in
  let limit := if defined limit then limit else VInt DEFAULT_LIMIT in
  let maxItems := normalizeLimit limit in
  let cursor := field query "pageCursor" in
  listNotes_loop query maxItems replies [] cursor.
End Walkers.

(* ===================================================================== *)
(** * Argument normalizers *)
(* ===================================================================== *)

(** Result of a function that may throw. *)
Inductive except (A : Type) :=
| Ok (a : A)
| Raise (e : exn).
Arguments Ok {A} a.
Arguments Raise {A} e.

#[export] Instance except_bind : MBind except :=
  fun A B (k : A -> except B) (m : except A) =>
    match m with
    | Ok a => k a
    | Raise e => Raise e
    end.

(** Truthiness of a result that is [undefined] or an object. *)
Definition isObj (o : option (gmap string value)) : bool :=
  match o with Some _ => true | None => false end.

(** An optional object ([undefined] or an object) as a value. *)
Definition optObj (o : option (gmap string value)) : value :=
  match o with Some m => VObj m | None => VUndef end.

(** [function normalizeStatusInput(rawStatus)]. *)
Definition normalizeStatusInput (rawStatus : value)
    : except (option (gmap string value)) :=
  if nullish rawStatus then Ok None
  else if is_string rawStatus then Ok (Some {[ "name" := rawStatus ]})
  else
    let status := toObject rawStatus in
    let id := field status "id" in
    let name := field status "name" in
    if truthy id && truthy name then
      Raise (validationError
               "Provide either status.id or status.name, not both.")
    else if truthy id || truthy name then
      Ok (Some (spreadIf (truthy name) "name" name
                  (spreadIf (truthy id) "id" id emptyObj)))
    else Ok None.

(** [function resolveStatusFromArgs(rawArgs)]. *)
Definition resolveStatusFromArgs (rawArgs : value)
    : except (option (gmap string value)) :=
  let args := toObject rawArgs in
  inlineStatus ← normalizeStatusInput (field args "status");
  let status_id := field args "status_id" in
  let status_name := field args "status_name" in
  if isObj inlineStatus && (truthy status_id || truthy status_name) then
    Raise (validationError
      "Provide status either as status object/string OR as status_id/status_name fields.")
  else if truthy status_id && truthy status_name then
    Raise (validationError
             "Provide either status_id or status_name, not both.")
  else if isObj inlineStatus then Ok inlineStatus
  else if truthy status_id then Ok (Some {[ "id" := status_id ]})
  else if truthy status_name then Ok (Some {[ "name" := status_name ]})
  else Ok None.

(** The three parent kinds of [normalizeParentInput]. *)
Inductive parentKind := Product | Component | Feature.

(** Name of the nested object of a kind, and of its dotted key. *)
Definition kindKey (k : parentKind) : string :=
  match k with
  | Product => "product"
  | Component => "component"
  | Feature => "feature"
  end.

(** The flat alias of a kind. *)
Definition kindAlias (k : parentKind) : string :=
  match k with
  | Product => "product_id"
  | Component => "component_id"
  | Feature => "parent_feature_id"
  end.

(** The id of one kind as [normalizeParentInput] reads it:
    [explicitParent.K?.id ?? input.K?.id ?? input["K.id"] ?? input.alias]. *)
Definition parentId (input explicitParent : gmap string value)
    (k : parentKind) : value :=
  prop (field explicitParent (kindKey k)) "id"
  ?? prop (field input (kindKey k)) "id"
  ?? field input (kindKey k +:+ ".id")
  ?? field input (kindAlias k).

(** [id ? { K: { id } } : null]. *)
Definition parentCandidate (k : parentKind) (id : value)
    : option (gmap string value) :=
  if truthy id then Some {[ kindKey k := VObj {[ "id" := id ]} ]}
  else None.

(** [function normalizeParentInput(args, { required = false } = {})]. *)
Definition normalizeParentInput (args : value) (required : bool)
    : except (option (gmap string value)) :=
  let input := toObject args in
  let explicitParent := toObject (field input "parent") in
  let productId := parentId input explicitParent Product in
  let componentId := parentId input explicitParent Component in
  let featureId := parentId input explicitParent Feature in
  let candidates :=
    omap id [ parentCandidate Product productId;
              parentCandidate Component componentId;
              parentCandidate Feature featureId ] in
  if (1 <? length candidates)%nat then
    Raise (validationError
             "Provide only one parent type: product, component, or feature.")
  else
    match candidates with
    | [c] => Ok (Some c)
    | _ =>
        if required then
          Raise (validationError
            "Missing feature parent. Provide product.id, component.id, or parent_feature_id.")
        else Ok None
    end.

(** [function buildTimeframeInput(input)].  [typeof input === "object"]
    also holds of an array, whose [start] and [end] read as [undefined]. *)
Definition buildTimeframeInput (input : value)
    : option (gmap string value) :=
  match input with
  | VObj m =>
      let value :=
        spreadIf (defined (field m "end")) "end" (field m "end")
          (spreadIf (defined (field m "start")) "start" (field m "start")
             emptyObj) in
      if (0 <? size value)%nat then Some value else None
  | _ => None
  end.

(** [v !== undefined && v !== null && v !== ""]. *)
Definition provided (v : value) : bool :=
  match v with
  | VUndef | VNull => false
  | VStr s => negb (String.eqb s "")
  | _ => true
  end.

(** [function applyQueryParams(url, query = {})]: the entries of [query]
    that are set on [url.searchParams] (before their conversion to
    strings); [apiRequest] applies it to the query of a request that has
    no absolute URL. *)
Definition applyQueryParams (query : gmap string value)
    : gmap string value :=
  filter (fun entry => provided (snd entry) = true) query.

(** [function buildDateTimeframeInput(input, overrides = {})]. *)
Definition buildDateTimeframeInput (input : value)
    (overrides : gmap string value) : except (option (gmap string value)) :=
  let value := toObject input in
  let startDate :=
    field overrides "startDate" ?? field value "startDate"
    ?? field value "start" in
  let endDate :=
    field overrides "endDate" ?? field value "endDate"
    ?? field value "end" in
  let granularity :=
    field overrides "granularity" ?? field value "granularity" in
  let hasStartDate := provided startDate in
  let hasEndDate := provided endDate in
  let hasGranularity := provided granularity in
  if negb hasStartDate && negb hasEndDate && negb hasGranularity then Ok None
  else if negb (Bool.eqb hasStartDate hasEndDate) then
    Raise (validationError
             "Timeframe requires both startDate and endDate when provided.")
  else
    Ok (Some (spreadIf hasGranularity "granularity" granularity
                (spreadIf hasEndDate "endDate" endDate
                   (spreadIf hasStartDate "startDate" startDate emptyObj)))).

(** The timeframe of an objective, key result, initiative or release: the
    call every such create and update handler makes,
    [buildDateTimeframeInput(args.timeframe, { startDate: args.start_date
    ?? args.startDate, endDate: args.end_date ?? args.endDate,
    granularity: args.granularity })]. *)
Definition dateTimeframeOfArgs (args : gmap string value)
    : except (option (gmap string value)) :=
  buildDateTimeframeInput (field args "timeframe")
    (<["granularity" := field args "granularity"]>
       (<["endDate" := field args "end_date" ?? field args "endDate"]>
          (<["startDate" := field args "start_date" ?? field args "startDate"]>
             emptyObj))).

(* ===================================================================== *)
(** * Error classification *)
(* ===================================================================== *)

(** The parts of a fetch [Response] the connector reads: the status and
    the headers, keyed by lower-case name. *)
Module Resp.
Record response := {
  status : Z;
  headers : gmap string string
}.
(** [response.ok]. *)
Definition ok (r : response) : bool :=
  (200 <=? status r) && (status r <=? 299).
End Resp.

Definition RATE_LIMIT_MESSAGE : string :=
  "Productboard API rate limit reached. Please retry shortly.".

Section Classification.
Context `{Engine}.

(** [function extractErrorMessage(payload, fallbackMessage)]. *)
Definition extractErrorMessage (payload : value) (fallbackMessage : string)
    : string :=
  if negb (truthy payload) || negb (is_object payload) then fallbackMessage
  else
    let message := prop payload "message" in
    if is_string message && truthy (VStr (String_trim (stringOf message)))
    then stringOf message
    else
      let error := prop payload "error" in
      if truthy error && is_string (prop error "message")
      then stringOf (prop error "message")
      else
        match prop payload "errors" with
        | VArr (first :: _) =>
            if is_string first then stringOf first
            else if truthy first && is_string (prop first "message")
            then stringOf (prop first "message")
            else if truthy first && is_string (prop first "detail")
            then stringOf (prop first "detail")
            else fallbackMessage
        | _ => fallbackMessage
        end.

(** [function buildApiError(response, payload, fallbackText)]. *)
Definition buildApiError (response : Resp.response) (payload : value)
    (fallbackText : option string) : ProductboardApiError :=
  let status := Resp.status response in
  let retryAfterHeader := Resp.headers response !! "retry-after" in
  let retryAfter :=
    match retryAfterHeader with
    | Some h => if String.eqb h "" then None else Some (StringToNumber h)
    | None => None
    end in
  let generic := "Productboard API returned HTTP " +:+ pretty status +:+ "." in
  let message :=
    extractErrorMessage payload
      match fallbackText with
      | Some t => if String.eqb t "" then generic else t
      | None => generic
      end in
  let message :=
    if status =? 401 then
      "Authentication failed. Check your Productboard API token."
    else if status =? 403 then
      "Access denied by Productboard API. Verify token permissions."
    else if status =? 404 then
      "Requested Productboard resource was not found."
    else if status =? 429 then RATE_LIMIT_MESSAGE
    else message in
  {| Err.message := message;
     Err.status := Some status;
     Err.details :=
       payload ?? match fallbackText with Some t => VStr t | None => VUndef end;
     Err.retryAfter :=
       match retryAfter with
       | Some n => if isFinite n then Some n else None
       | None => None
       end |}.

(** The end of [apiRequest], from the response on: decode the body, throw
    the classified error unless [response.ok], return [payload ?? {}]. *)
Definition apiRequest_receive (response : Resp.response) (rawText : string)
    : reply :=
  let payload :=
    if String.eqb rawText "" then VUndef
    else match JSON_parse rawText with
         | Some v => v
         | None => VUndef
         end in
  if negb (Resp.ok response) then
    Threw (ApiError (buildApiError response payload
                       (if String.eqb rawText "" then None else Some rawText)))
  else Returned (payload ?? VObj emptyObj).
End Classification.

(* ===================================================================== *)
(** * Envelope *)
(* ===================================================================== *)

(** A tool result.  [payload] is the document whose
    [JSON.stringify(payload, null, 2)] fills the text block. *)
Record toolResult := {
  isError : bool;
  payload : value
}.

(** [function asJsonResult(data)]. *)
Definition asJsonResult (data : value) : toolResult :=
  {| isError := false; payload := data |}.

(** [function asErrorResult(error)]. *)
Definition asErrorResult (error : exn) : toolResult :=
  let body :=
    match error with
    | ApiError e =>
        let status := Err.status e in
        spreadIf (truthy (Err.details e)) "details" (Err.details e)
          (spreadIf
             (match Err.retryAfter e with
              | Some n => number_truthy n
              | None => false
              end)
             "retry_after_seconds"
             (match Err.retryAfter e with
              | Some n => VNum n
              | None => VUndef
              end)
             (spreadIf
                (match status with
                 | Some z => negb (z =? 0)
                 | None => false
                 end)
                "status"
                (match status with Some z => VInt z | None => VUndef end)
                {[ "message" := VStr (Err.message e) ]}))
    | TypeError msg => {[ "message" := VStr msg ]}
    end in
  {| isError := true; payload := VObj {[ "error" := VObj body ]} |}.

(* ===================================================================== *)
(** * Feature handlers *)
(* ===================================================================== *)

(** One [await apiRequest(...)] against the replies still to come, and
    what the handler makes of the payload. *)
Definition apiRequest {A : Type} (req : request) (replies : list reply)
    (k : value -> A) : run A :=
  match replies with
  | [] => ([req], Awaiting)
  | Threw e :: _ => ([req], Thrown e)
  | Returned payload :: _ => ([req], Done (k payload))
  end.

(** A handler that throws before any request. *)
Definition throwNow {A : Type} (e : exn) : run A := ([], Thrown e).

Section Handlers.
Context `{Engine}.

(** [async function pbFeatureCreate(rawArgs)]. *)
Definition pbFeatureCreate (rawArgs : value) (replies : list reply)
    : run value :=
  let args := toObject rawArgs in
  if negb (truthy (field args "name"))
     || negb (truthy (field args "description")) then
    throwNow (validationError
                "Missing required parameters: name and description.")
  else
    match resolveStatusFromArgs (VObj args) with
    | Raise e => throwNow e
    | Ok None =>
        throwNow (validationError
          "Missing required status. Provide status.name, status.id, status_name, or status_id.")
    | Ok (Some status) =>
        match normalizeParentInput (VObj args) true with
        | Raise e => throwNow e
        | Ok None =>
            (* unreachable: a required parent is returned or the call
               throws; reading [parent.feature] of [undefined] throws *)
            throwNow (TypeError "Cannot read properties of undefined")
        | Ok (Some parent) =>
            let timeframe := buildTimeframeInput (field args "timeframe") in
            let data :=
              spreadIf (isObj timeframe) "timeframe" (optObj timeframe)
                (spreadIf (truthy (field args "owner_email")) "owner"
                   (VObj {[ "email" := field args "owner_email" ]})
                   (spreadIf (defined (field args "archived")) "archived"
                      (VBool (truthy (field args "archived")))
                      (<["parent" := VObj parent]>
                         (<["status" := VObj status]>
                            (<["type" :=
                                 field args "type"
                                 ?? (if truthy (field parent "feature")
                                     then VStr "subfeature"
                                     else VStr "feature")]>
                               (<["description" := field args "description"]>
                                  (<["name" := field args "name"]>
                                     emptyObj))))))) in
            let body := VObj {[ "data" := VObj data ]} in
            apiRequest
              {| Req.method := "POST"; Req.path := Some "/features";
                 Req.query := None; Req.body := Some body;
                 Req.absoluteUrl := None |}
              replies
              (fun payload => prop payload "data" ?? VNull)
        end
    end.

(** [async function pbFeatureUpdate(rawArgs)]. *)
Definition pbFeatureUpdate (rawArgs : value) (replies : list reply)
    : run value :=
  let args := toObject rawArgs in
  if negb (truthy (field args "id")) then
    throwNow (validationError "Missing required parameter: id")
  else
    match resolveStatusFromArgs (VObj args) with
    | Raise e => throwNow e
    | Ok status =>
        match normalizeParentInput (VObj args) false with
        | Raise e => throwNow e
        | Ok parent =>
            let timeframe := buildTimeframeInput (field args "timeframe") in
            let owner_email := field args "owner_email" in
            let data :=
              spreadIf (isObj timeframe) "timeframe" (optObj timeframe)
                (spreadIf (defined owner_email) "owner"
                   (if truthy owner_email
                    then VObj {[ "email" := owner_email ]}
                    else VNull)
                   (spreadIf (isObj parent) "parent" (optObj parent)
                      (spreadIf (isObj status) "status" (optObj status)
                         (spreadIf (defined (field args "archived"))
                            "archived"
                            (VBool (truthy (field args "archived")))
                            (spreadIf (defined (field args "description"))
                               "description" (field args "description")
                               (spreadIf (defined (field args "name"))
                                  "name" (field args "name")
                                  emptyObj)))))) in
            if (size data =? 0)%nat then
              throwNow (validationError "No update fields provided.")
            else
              apiRequest
                {| Req.method := "PATCH";
                   Req.path :=
                     Some ("/features/"
                           +:+ encodeURIComponent (field args "id"));
                   Req.query := None;
                   Req.body := Some (VObj {[ "data" := VObj data ]});
                   Req.absoluteUrl := None |}
                replies
                (fun payload => prop payload "data" ?? VNull)
        end
    end.
End Handlers.

(* ===================================================================== *)
(** * Vocabulary of the properties *)
(* ===================================================================== *)

(** The continuation token of a link-paginated payload,
    [payload?.links?.next]. *)
Definition linksNext (payload : value) : value :=
  prop (prop payload "links") "next".

(** The continuation token of a notes payload, [payload?.pageCursor]. *)
Definition pageCursor (payload : value) : value :=
  prop payload "pageCursor".

(** The items of the page a reply carries. *)
Definition pageItemsOf (r : reply) : list value :=
  match r with
  | Returned payload => arrayOrEmpty (prop payload "data")
  | Threw _ => []
  end.

(** The last reply the walker received: reply number [length reqs - 1] of
    the script, [reqs] being the requests it issued. *)
Definition lastReceived (replies : list reply) (reqs : list request)
    : option reply :=
  match reqs with
  | [] => None
  | _ :: reqs' => nth_error replies (length reqs')
  end.

(** The items of the first [i] pages of a script. *)
Definition received (replies : list reply) (i : nat) : list value :=
  concat (map pageItemsOf (firstn i replies)).

(** The cursor the notes walker holds when it issues request [i]: the
    caller's [query.pageCursor] at first, then the [pageCursor] of the
    reply before. *)
Definition cursorHeld (initial : value) (replies : list reply) (i : nat)
    : value :=
  match i with
  | O => initial
  | S j =>
      match nth_error replies j with
      | Some (Returned payload) => pageCursor payload
      | _ => VUndef
      end
  end.

(** The query of a notes request: [{ ...query, pageLimit }] with
    [pageCursor] set to the cursor held, or deleted when none is held. *)
Definition notesPageQuery (query : gmap string value) (pageLimit : Z)
    (cursor : value) : gmap string value :=
  if truthy cursor
  then <["pageCursor" := cursor]> (<["pageLimit" := VInt pageLimit]> query)
  else delete "pageCursor" (<["pageLimit" := VInt pageLimit]> query).

(** The call threw a validation error: a [ProductboardApiError] of status
    400. *)
Definition isValidationError {A : Type} (r : except A) : Prop :=
  exists msg : string, r = Raise (validationError msg).

(** A status is supplied inline: [status] is a string, or an object with
    an [id] or a [name]. *)
Definition suppliedInline (status : value) : bool :=
  is_string status
  || truthy (prop status "id") || truthy (prop status "name").

(** The four spellings of the id of a parent kind, in the order in which
    [normalizeParentInput] consults them: nested under [parent], nested at
    top level, dotted key, flat alias. *)
Definition parentSpellings (args : value) (k : parentKind) : list value :=
  let input := toObject args in
  [ prop (prop (field input "parent") (kindKey k)) "id";
    prop (field input (kindKey k)) "id";
    field input (kindKey k +:+ ".id");
    field input (kindAlias k) ].

(** The id a parent kind resolves to: the first spelling that is neither
    [undefined] nor [null]. *)
Definition resolvedParentId (args : value) (k : parentKind) : value :=
  parentId (toObject args) (toObject (field (toObject args) "parent")) k.

(** A parent kind resolves to a value. *)
Definition resolvesParent (args : value) (k : parentKind) : bool :=
  truthy (resolvedParentId args k).

(** The start date, end date and granularity of a date-range timeframe as
    the handlers resolve them: flat aliases first, then the nested
    [timeframe] object. *)
Definition startDateOf (args : gmap string value) : value :=
  (field args "start_date" ?? field args "startDate")
  ?? prop (field args "timeframe") "startDate"
  ?? prop (field args "timeframe") "start".

Definition endDateOf (args : gmap string value) : value :=
  (field args "end_date" ?? field args "endDate")
  ?? prop (field args "timeframe") "endDate"
  ?? prop (field args "timeframe") "end".

Definition granularityOf (args : gmap string value) : value :=
  field args "granularity" ?? prop (field args "timeframe") "granularity".

(** The [data] object of the body of a request. *)
Definition requestData (req : request) : option (gmap string value) :=
  match Req.body req with
  | Some (VObj body) =>
      match body !! "data" with
      | Some (VObj data) => Some data
      | _ => None
      end
  | _ => None
  end.


(** The [data] object [pbFeatureUpdate] builds from the arguments and the
    normalized status and parent. *)
Definition updateData (args : gmap string value)
    (status parent : option (gmap string value)) : gmap string value :=
  let timeframe := buildTimeframeInput (field args "timeframe") in
  let owner_email := field args "owner_email" in
  spreadIf (isObj timeframe) "timeframe" (optObj timeframe)
    (spreadIf (defined owner_email) "owner"
       (if truthy owner_email then VObj {[ "email" := owner_email ]}
        else VNull)
       (spreadIf (isObj parent) "parent" (optObj parent)
          (spreadIf (isObj status) "status" (optObj status)
             (spreadIf (defined (field args "archived")) "archived"
                (VBool (truthy (field args "archived")))
                (spreadIf (defined (field args "description"))
                   "description" (field args "description")
                   (spreadIf (defined (field args "name"))
                      "name" (field args "name") emptyObj)))))).

(** The [data] object [pbFeatureCreate] builds. *)
Definition createData (args status parent : gmap string value)
    : gmap string value :=
  let timeframe := buildTimeframeInput (field args "timeframe") in
  spreadIf (isObj timeframe) "timeframe" (optObj timeframe)
    (spreadIf (truthy (field args "owner_email")) "owner"
       (VObj {[ "email" := field args "owner_email" ]})
       (spreadIf (defined (field args "archived")) "archived"
          (VBool (truthy (field args "archived")))
          (<["parent" := VObj parent]>
             (<["status" := VObj status]>
                (<["type" :=
                     field args "type"
                     ?? (if truthy (field parent "feature")
                         then VStr "subfeature" else VStr "feature")]>
                   (<["description" := field args "description"]>
                      (<["name" := field args "name"]> emptyObj))))))).

(** The [error] object of an error envelope. *)
Definition errorBody (r : toolResult) : gmap string value :=
  toObject (prop (payload r) "error").

(** A response of the given status with a [retry-after] header. *)
Definition retryResponse (status : Z) (retryAfter : string) : Resp.response :=
  {| Resp.status := status;
     Resp.headers := {[ "retry-after" := retryAfter ]} |}.

Section Vocabulary.
Context `{Engine}.

(** A reply carrying a page of [n] items and a link to the next page. *)
Definition fullPageWithNext (n : nat) (r : reply) : Prop :=
  exists (payload : value) (next : string),
    r = Returned payload
    /\ length (arrayOrEmpty (prop payload "data")) = n
    /\ linksNext payload = VStr next
    /\ next <> ""
    /\ (String.prefix "http" next = true \/ is_Some (URL_resolve next)).

(** A reply that lets the link walker go on: a page that is not empty,
    whose next link, if any, is a string the walker can follow. *)
Definition productiveLinkReply (r : reply) : Prop :=
  exists payload : value,
    r = Returned payload
    /\ arrayOrEmpty (prop payload "data") <> []
    /\ (truthy (linksNext payload) = true ->
        exists s : string,
          linksNext payload = VStr s
          /\ (String.prefix "http" s = true \/ is_Some (URL_resolve s))).

(** A reply that lets the notes walker go on: a page that is not empty. *)
Definition productiveNotesReply (r : reply) : Prop :=
  exists payload : value,
    r = Returned payload /\ arrayOrEmpty (prop payload "data") <> [].

(** The PATCH request of [pbFeatureUpdate]. *)
Definition updateRequest (args data : gmap string value) : request :=
  {| Req.method := "PATCH";
     Req.path := Some ("/features/" +:+ encodeURIComponent (field args "id"));
     Req.query := None;
     Req.body := Some (VObj {[ "data" := VObj data ]});
     Req.absoluteUrl := None |}.

(** The POST request of [pbFeatureCreate]. *)
Definition createRequest (data : gmap string value) : request :=
  {| Req.method := "POST"; Req.path := Some "/features";
     Req.query := None;
     Req.body := Some (VObj {[ "data" := VObj data ]});
     Req.absoluteUrl := None |}.
End Vocabulary.

(* ===================================================================== *)
(** * Sample data *)
(* ===================================================================== *)

(** An engine for running the definitions on concrete inputs.  Relative
    links resolve by concatenation with the base URL, which is what the
    URL constructor does for the absolute paths the API returns. *)
Definition sampleEngine : Engine :=
  {| StringToNumber_other := fun _ => NaN;
     ObjectToNumber := fun _ => NaN;
     String_trim := fun s => s;
     URL_resolve := fun s => Some (PRODUCTBOARD_BASE_URL +:+ s);
     encodeURIComponent := stringOf;
     JSON_parse := fun _ => None |}.

(** A page of [n] items carrying a [links.next] token. *)
Definition pageWithNext (n : nat) (next : value) : value :=
  VObj (<["links" := VObj {[ "next" := next ]}]>
          {[ "data" := VArr (repeat (VObj emptyObj) n) ]}).

(** A notes page of [n] items carrying a [pageCursor] token. *)
Definition notesPage (n : nat) (cursor : value) : value :=
  VObj (<["pageCursor" := cursor]>
          {[ "data" := VArr (repeat (VObj emptyObj) n) ]}).

(** One page of three features with a link to the next page. *)
Definition sampleLinkScript : list reply :=
  [ Returned (pageWithNext 3 (VStr "/features?pageOffset=3")) ].

(** One page of three notes with a cursor. *)
Definition sampleNotesScript : list reply :=
  [ Returned (notesPage 3 (VStr "c1")) ].

(** Three pages of a hundred features, each with a next link. *)
Definition hundredsScript : list reply :=
  repeat (Returned (pageWithNext 100 (VStr "/features?pageOffset=100"))) 3.

(** Two pages of a hundred notes; the second ends the listing. *)
Definition twoNotesPages : list reply :=
  [ Returned (notesPage 100 (VStr "c1")); Returned (notesPage 100 VNull) ].

(** Listing 150 notes matching a term against [twoNotesPages]. *)
Definition sampleNotesQuery : gmap string value :=
  {[ "term" := VStr "login" ]}.

Definition sampleNotesRun : run Notes.result :=
  @listNotes sampleEngine (Some sampleNotesQuery) (VInt 150) twoNotesPages.

(** The notes request that follows the first of [twoNotesPages] when 150
    notes are asked for. *)
Definition secondNotesRequest : request :=
  GET_query "/notes"
    (<["pageCursor" := VStr "c1"]>
       (<["pageLimit" := VInt 50]> sampleNotesQuery)).

(** Argument bags. *)
Definition bothStatusFields : value :=
  VObj (<["status_name" := VStr "Done"]> {[ "status_id" := VStr "s1" ]}).

Definition statusAndStatusId : value :=
  VObj (<["status" := VStr "Done"]> {[ "status_id" := VStr "s1" ]}).

Definition statusWithIdAndName : value :=
  VObj {[ "status" :=
            VObj (<["name" := VStr "Done"]> {[ "id" := VStr "s1" ]}) ]}.

Definition productAndComponent : value :=
  VObj (<["component_id" := VStr "c1"]> {[ "product_id" := VStr "p1" ]}).

Definition onlyProduct : value :=
  VObj {[ "product" := VObj {[ "id" := VStr "p1" ]} ]}.

Definition startWithoutEnd : gmap string value :=
  {[ "start_date" := VStr "2024-01-01" ]}.

Definition onlyGranularity : gmap string value :=
  {[ "timeframe" := VObj {[ "granularity" := VStr "month" ]} ]}.






Definition archivedAsText : value :=
  VObj (<["archived" := VStr "false"]> {[ "id" := VStr "f1" ]}).

Definition createArchivedAsText : value :=
  VObj (<["archived" := VStr "0"]>
          (<["product_id" := VStr "p1"]>
             (<["status_name" := VStr "New"]>
                (<["description" := VStr "d"]> {[ "name" := VStr "n" ]})))).

(** The request [pbFeatureUpdate] issues for [archivedAsText]. *)
Definition archivedUpdateRequest : request :=
  @updateRequest sampleEngine (toObject archivedAsText)
    {[ "archived" := VBool true ]}.

(* ===================================================================== *)
(** * Conversion to strings *)
(* ===================================================================== *)

(** The type of values, for functions whose parameter is called [value]. *)
Abbreviation jsvalue := value.

(** [String(v)] for the values the connector does not print itself here:
    fractions, numbers from 2^53 on, arrays and objects. *)
Class Printer := {
  ToString_other : value -> string
}.

(** The integer a finite number is, if it is one. *)
Definition integerOf (q : Q) : option Z :=
  if (Qden (Qred q) =? 1)%positive then Some (Qnum (Qred q)) else None.

Section Printing.
Context `{Printer}.

(** [String(v)].  An integer of absolute value below 2^53 is a double
    and prints as its decimal digits; a larger number prints with the
    shortest digits that read back as the same double, which is left to
    [ToString_other]. *)
Definition ToString (v : value) : string :=
  match v with
  | VUndef => "undefined"
  | VNull => "null"
  | VBool b => if b then "true" else "false"
  | VStr s => s
  | VNum (Finite q) =>
      match integerOf q with
      | Some z =>
          if Z.abs z <? 2 ^ 53 then pretty z else ToString_other v
      | None => ToString_other v
      end
  | _ => ToString_other v
  end.

(** [array.join(separator)]: [undefined] and [null] elements print as the
    empty string. *)
Definition Array_join (separator : string) (l : list value) : string :=
  String.concat separator
    (map (fun item => if nullish item then "" else ToString item) l).
End Printing.

(** [s.split(",")]. *)
Fixpoint split_comma (s : string) : list string :=
  match s with
  | EmptyString => [""]
  | String c rest =>
      if String.eqb (String c "") "," then "" :: split_comma rest
      else match split_comma rest with
           | piece :: pieces => String c piece :: pieces
           | [] => [String c ""]
           end
  end.

(** [strings.filter(Boolean)]: the non-empty strings. *)
Definition nonEmptyStrings (l : list string) : list string :=
  List.filter (fun s => negb (String.eqb s "")) l.

(* ===================================================================== *)
(** * Filters and scalar inputs *)
(* ===================================================================== *)

(** The order in which the runtime lists the own keys of an object:
    [Object_rank path key] is the place of [key] among the keys of the
    object found at [path] inside the value that is flattened, as
    [Object.entries] lists them (integer-like keys in ascending order,
    then the other keys in the order in which they were written). *)
Class KeyOrder := {
  Object_rank : list string -> string -> nat
}.

(** [out[key] = v] for a primitive [v] and an [out] whose prototype is
    [Object.prototype]: the own properties the assignment writes.
    Assigning to [__proto__] calls the setter of [Object.prototype],
    which ignores a primitive and writes nothing. *)
Definition assigned (key : string) (v : jsvalue) : gmap string jsvalue :=
  if String.eqb key "__proto__" then ∅ else {[ key := v ]}.

Section Inputs.
Context `{Engine} `{Printer} `{KeyOrder}.

(** [Object.keys(input)] for the object at [path]: the keys of the map in
    the order of their ranks. *)
Definition Object_keys (path : list string) (input : gmap string jsvalue)
    : list string :=
  @merge_sort string
    (fun a b => (Object_rank path a <= Object_rank path b)%nat)
    (fun a b => decide (Object_rank path a <= Object_rank path b)%nat)
    (map fst (map_to_list input)).

(** [function flattenFilters(value, prefix = "")], for the object at
    [path].  The loop [for (const [key, raw] of Object.entries(input))] is
    written in two passes, so that the recursive call sits under the fold
    of the map: [turns] holds, for every entry, the properties its turn
    of the loop writes to [out]; the turns are then taken in the order of
    [Object.entries], each laid over [out], so that a later turn
    overwrites what an earlier one wrote under the same key.
    [Object.assign(out, nested)] writes the properties of a flattened
    object, none of which is called [__proto__]. *)
Fixpoint flattenFilters_at (path : list string) (value : jsvalue)
    (prefix : string) {struct value} : gmap string jsvalue :=
  match value with
  | VObj input =>
      let turns :=
        map_fold
          (fun key raw turns =>
             let nextKey :=
               if String.eqb prefix "" then key else prefix +:+ "." +:+ key in
             <[key :=
                 match raw with
                 | VUndef | VNull => ∅
                 | VArr l => assigned nextKey (VStr (Array_join "," l))
                 | VObj _ => flattenFilters_at (path ++ [key]) raw nextKey
                 | _ => assigned nextKey raw
                 end]> turns)
          (∅ : gmap string (gmap string jsvalue)) input in
      foldl (fun out key => default ∅ (turns !! key) ∪ out) emptyObj
        (Object_keys path input)
  | _ => emptyObj
  end.

(** [flattenFilters(value, prefix)] as the handlers call it, on the value
    itself. *)
Definition flattenFilters (value : jsvalue) (prefix : string)
    : gmap string jsvalue :=
  flattenFilters_at [] value prefix.

(** [function normalizeStringArray(value)]. *)
Definition normalizeStringArray (value : jsvalue) : option (list string) :=
  match value with
  | VArr l =>
      Some (nonEmptyStrings (map (fun item => String_trim (ToString item)) l))
  | VStr s => Some (nonEmptyStrings (map String_trim (split_comma s)))
  | _ => None
  end.

End Inputs.

(** [v === n] for an integer literal [n]. *)
Definition isNumber (v : jsvalue) (n : Z) : bool :=
  match v with
  | VNum (Finite q) => Qeq_bool q (inject_Z n)
  | _ => false
  end.

(** [v === s] for a string literal [s]. *)
Definition isString (v : jsvalue) (s : string) : bool :=
  match v with
  | VStr t => String.eqb t s
  | _ => false
  end.

(** [typeof v === "boolean"]. *)
Definition is_boolean (v : jsvalue) : bool :=
  match v with VBool _ => true | _ => false end.


(** [function toBooleanInput(value, fieldName)]. *)
Definition toBooleanInput (value : jsvalue) (fieldName : string)
    : except bool :=
  if is_boolean value then Ok (truthy value)
  else if isNumber value 1 || isString value "1" || isString value "true"
  then Ok true
  else if isNumber value 0 || isString value "0" || isString value "false"
  then Ok false
  else
    Raise (validationError ("Invalid boolean for " +:+ fieldName +:+ ".")).



Section Progress.
Context `{Engine}.

End Progress.

(* ===================================================================== *)
(** * More handlers *)
(* ===================================================================== *)




(** A request with everything but the method and the path left out:
    [apiRequest(method, path)]. *)
Definition bareRequest (method path : string) : request :=
  {| Req.method := method; Req.path := Some path; Req.query := None;
     Req.body := None; Req.absoluteUrl := None |}.

(** [error instanceof ProductboardApiError && error.status === 404]. *)
Definition isNotFound (e : exn) : bool :=
  match e with
  | ApiError err =>
      match Err.status err with
      | Some z => z =? 404
      | None => false
      end
  | TypeError _ => false
  end.

(** [async function pbUserCurrent()]. *)
Definition pbUserCurrent (replies : list reply) : run jsvalue :=
  let first := bareRequest "GET" "/user" in
  match replies with
  | [] => ([first], Awaiting)
  | Returned payload :: _ => ([first], Done (prop payload "data" ?? payload))
  | Threw error :: rest =>
      if isNotFound error then
        issued first
          (apiRequest (bareRequest "GET" "/users") rest
             (fun usersPayload =>
                let users := arrayOrEmpty (prop usersPayload "data") in
                VObj (<["first_user" := hd VUndef users ?? VNull]>
                        (<["users_count" := VInt (len users)]>
                           {[ "warning" :=
                                VStr "GET /user is unavailable in this Productboard API version; using GET /users for connectivity check." ]}))))
      else ([first], Thrown error)
  end.



Section MoreHandlers.
Context `{Engine} `{Printer} `{KeyOrder}.

(** [async function pbFeatureReleaseAssign(rawArgs)]. *)
Definition pbFeatureReleaseAssign (rawArgs : jsvalue) (replies : list reply)
    : run jsvalue :=
  let args := toObject rawArgs in
  let featureId :=
    field args "feature_id" ?? prop (field args "feature") "id"
    ?? field args "feature.id" in
  let releaseId :=
    field args "release_id" ?? prop (field args "release") "id"
    ?? field args "release.id" in
  if negb (truthy featureId) then
    throwNow (validationError "Missing required parameter: feature_id")
  else if negb (truthy releaseId) then
    throwNow (validationError "Missing required parameter: release_id")
  else if negb (defined (field args "assigned")) then
    throwNow (validationError "Missing required parameter: assigned")
  else
    match toBooleanInput (field args "assigned") "assigned" with
    | Raise e => throwNow e
    | Ok assigned =>
        apiRequest
          {| Req.method := "PUT";
             Req.path := Some "/feature-release-assignments/assignment";
             Req.query :=
               Some (<["release.id" := releaseId]>
                       {[ "feature.id" := featureId ]});
             Req.body :=
               Some (VObj {[ "data" :=
                               VObj {[ "assigned" := VBool assigned ]} ]});
             Req.absoluteUrl := None |}
          replies
          (fun payload =>
             prop payload "data"
             ?? VObj (<["assigned" := VBool assigned]>
                        (<["release" := VObj {[ "id" := releaseId ]}]>
                           {[ "feature" := VObj {[ "id" := featureId ]} ]})))
    end.

(** [async function pbNoteCreate(rawArgs)]. *)
Definition pbNoteCreate (rawArgs : jsvalue) (replies : list reply)
    : run jsvalue :=
  let args := toObject rawArgs in
  if negb (truthy (field args "title"))
     || negb (truthy (field args "content")) then
    throwNow (validationError
                "Missing required parameters: title and content.")
  else
    let tags :=
      match field args "tags" with
      | VArr l => VArr l
      | VStr s =>
          VArr (map VStr (nonEmptyStrings (map String_trim (split_comma s))))
      | _ => VUndef
      end in
    let body :=
      spreadIf (truthy (field args "user_email")) "user"
        (VObj {[ "email" := field args "user_email" ]})
        (spreadIf (truthy tags) "tags" tags
           (<["content" := field args "content"]>
              {[ "title" := field args "title" ]})) in
    apiRequest
      {| Req.method := "POST"; Req.path := Some "/notes";
         Req.query := None; Req.body := Some (VObj body);
         Req.absoluteUrl := None |}
      replies
      (fun payload =>
         VObj (<["links" := prop payload "links" ?? VNull]>
                 {[ "id" := prop (prop payload "data") "id" ?? VNull ]})).








(** [async function pbObjectiveUpdate(rawArgs)]. *)
Definition pbObjectiveUpdate (rawArgs : jsvalue) (replies : list reply)
    : run jsvalue :=
  let args := toObject rawArgs in
  if negb (truthy (field args "id")) then
    throwNow (validationError "Missing required parameter: id")
  else
    match resolveStatusFromArgs (VObj args) with
    | Raise e => throwNow e
    | Ok status =>
        let parentId :=
          prop (field args "parent") "id" ?? field args "parent.id"
          ?? field args "parent_id" in
        match dateTimeframeOfArgs args with
        | Raise e => throwNow e
        | Ok timeframe =>
            let owner_email := field args "owner_email" in
            let data :=
              spreadIf (defined (field args "archived")) "archived"
                (VBool (truthy (field args "archived")))
                (spreadIf (isObj timeframe) "timeframe" (optObj timeframe)
                   (spreadIf (defined owner_email) "owner"
                      (if truthy owner_email
                       then VObj {[ "email" := owner_email ]}
                       else VNull)
                      (spreadIf (truthy parentId) "parent"
                         (VObj {[ "id" := parentId ]})
                         (spreadIf (isObj status) "status" (optObj status)
                            (spreadIf (defined (field args "description"))
                               "description" (field args "description")
                               (spreadIf (defined (field args "name"))
                                  "name" (field args "name")
                                  emptyObj)))))) in
            if (size data =? 0)%nat then
              throwNow (validationError "No update fields provided.")
            else
              apiRequest
                {| Req.method := "PATCH";
                   Req.path :=
                     Some ("/objectives/"
                           +:+ encodeURIComponent (field args "id"));
                   Req.query := None;
                   Req.body := Some (VObj {[ "data" := VObj data ]});
                   Req.absoluteUrl := None |}
                replies
                (fun payload => prop payload "data" ?? payload ?? VNull)
        end
    end.

End MoreHandlers.

(* ===================================================================== *)
(** * More vocabulary *)
(* ===================================================================== *)

(** A boolean, a number or a string. *)
Definition isScalar (v : jsvalue) : bool :=
  match v with
  | VBool _ | VNum _ | VStr _ => true
  | _ => false
  end.

(** The number of objects nested in a value, itself included. *)
Fixpoint objectCount (v : jsvalue) : nat :=
  match v with
  | VObj m => S (map_fold (fun _ x acc => objectCount x + acc)%nat O m)
  | _ => O
  end.

(** A string without a comma. *)
Fixpoint commaFree (s : string) : bool :=
  match s with
  | EmptyString => true
  | String c rest => negb (String.eqb (String c "") ",") && commaFree rest
  end.

(** A string with a dot in it. *)
Fixpoint hasDot (s : string) : bool :=
  match s with
  | EmptyString => false
  | String c rest => String.eqb (String c "") "." || hasDot rest
  end.

(** The dotted key of [key] under [prefix]. *)
Definition dotted (prefix key : string) : string :=
  prefix +:+ "." +:+ key.

Section FilterVocabulary.
Context `{Printer} `{KeyOrder}.

(** What the turn of the loop of [flattenFilters] for the entry [key] of
    the object at [path] writes to [out]. *)
Definition flattenTurn (path : list string) (prefix : string)
    (key : string) (raw : value) : gmap string value :=
  let nextKey :=
    if String.eqb prefix "" then key else prefix +:+ "." +:+ key in
  match raw with
  | VUndef | VNull => ∅
  | VArr l => assigned nextKey (VStr (Array_join "," l))
  | VObj _ => flattenFilters_at (path ++ [key]) raw nextKey
  | _ => assigned nextKey raw
  end.

(** The turns of the loop in the order given, each laid over [out]. *)
Definition takeTurns (turn : string -> gmap string value)
    (out : gmap string value) (keys : list string) : gmap string value :=
  foldl (fun out key => turn key ∪ out) out keys.
End FilterVocabulary.

(** The body of a request, when it is an object. *)
Definition requestBody (req : request) : option (gmap string jsvalue) :=
  match Req.body req with
  | Some (VObj body) => Some body
  | _ => None
  end.


(* ===================================================================== *)
(** * More sample data *)
(* ===================================================================== *)

(** A printer for running the definitions on concrete inputs; the samples
    hold no value it is asked about. *)
Definition samplePrinter : Printer :=
  {| ToString_other := fun _ => "" |}.

(** A runtime that lists the keys of every object in the order of the
    map. *)
Definition sampleOrder : KeyOrder :=
  {| Object_rank := fun _ _ => O |}.

(** Filters in which a dotted key and a nested object meet under
    ["a.b"], and the two orders in which they can have been written. *)
Definition collidingFilters : value :=
  VObj (<["a.b" := VInt 1]> {[ "a" := VObj {[ "b" := VInt 2 ]} ]}).

Definition dottedKeyFirst : KeyOrder :=
  {| Object_rank :=
       fun _ key => if String.eqb key "a.b" then 0%nat else 1%nat |}.

Definition dottedKeyLast : KeyOrder :=
  {| Object_rank :=
       fun _ key => if String.eqb key "a.b" then 1%nat else 0%nat |}.

(** Filters with an array, a nested object, an empty string and a
    [null]. *)
Definition sampleMixedFilters : value :=
  VObj (<["tags" := VArr [VStr "a"; VStr "b"]]>
          (<["status" := VObj {[ "name" := VStr "" ]}]>
             (<["owner" := VNull]> {[ "archived" := VBool true ]}))).

(** Filters that are flat already, one of them called [__proto__]. *)
Definition sampleFlatFilters : gmap string value :=
  <["__proto__" := VInt 1]>
    (<["archived" := VBool false]>
       (<["owner.email" := VStr "a@b.c"]> {[ "note" := VNull ]})).

(** The inside of the filter [{status: {name: "Done", id: null}}]. *)
Definition sampleStatusFilter : gmap string value :=
  <["name" := VStr "Done"]> {[ "id" := VNull ]}.


(** Assigning a feature to a release with [assigned] written as text. *)
Definition sampleAssign : value :=
  VObj (<["assigned" := VStr "false"]>
          (<["release_id" := VStr "r1"]> {[ "feature_id" := VStr "f1" ]})).

Definition sampleAssignRequest : request :=
  {| Req.method := "PUT";
     Req.path := Some "/feature-release-assignments/assignment";
     Req.query :=
       Some (<["release.id" := VStr "r1"]> {[ "feature.id" := VStr "f1" ]});
     Req.body :=
       Some (VObj {[ "data" := VObj {[ "assigned" := VBool false ]} ]});
     Req.absoluteUrl := None |}.

(** The error of a 404 and a script in which [/user] is missing. *)
Definition notFound : exn :=
  ApiError {| Err.message := "Requested Productboard resource was not found.";
              Err.status := Some 404;
              Err.details := VUndef;
              Err.retryAfter := None |}.

Definition userFallbackScript : list reply :=
  [ Threw notFound;
    Returned (VObj {[ "data" := VArr [VObj {[ "id" := VStr "u1" ]}] ]}) ].


(** Creating a note with tags that are not trimmed. *)
Definition untrimmedTags : value :=
  VObj (<["tags" := VArr [VStr " a "; VStr ""]]>
          (<["content" := VStr "c"]> {[ "title" := VStr "t" ]})).

(** Listing five features by status against [sampleLinkScript]. *)
Definition sampleFilteredRun : run WithLinks.result :=
  @listWithLinks sampleEngine "/features"
    (Some {[ "status.name" := VStr "Done" ]}) (VInt 5) None sampleLinkScript.





Definition oneSidedDates : value :=
  VObj (<["start_date" := VStr "2024-01-01"]>
          (<["name" := VStr "Q1"]> {[ "id" := VStr "o1" ]})).

(** A gateway error whose body is not JSON. *)
Definition badGateway : Resp.response :=
  {| Resp.status := 502; Resp.headers := ∅ |}.

Definition badGatewayText : string := "<html>Bad Gateway</html>".

(** A first page of three items followed by an error. *)
Definition failingScript : list reply :=
  [ Returned (pageWithNext 3 (VStr "/features?pageOffset=3"));
    Threw notFound ].

Definition failingRun : run WithLinks.result :=
  @listWithLinks sampleEngine "/features" None (VInt 5) None failingScript.


(* ===================================================================== *)
(** * Properties of the limit *)
(* ===================================================================== *)

Section LimitFacts.
Context `{Engine}.

Lemma normalizeLimit_nonneg (v : value) : 0 <= normalizeLimit v <= 1000.
Proof.
  unfold normalizeLimit. cbv zeta.
  destruct (ToNumber _) as [| | |q]; try (unfold DEFAULT_LIMIT; lia).
  destruct (Qle_bool q 0) eqn:Hq; [unfold DEFAULT_LIMIT; lia|].
  assert (0 <= Qfloor q).
  { change 0 with (Qfloor 0). apply Qfloor_resp_le.
    apply Qlt_le_weak, Qnot_le_lt. intros Hle.
    apply Qle_bool_iff in Hle. congruence. }
  lia.
Qed.

(** The limit of a number that is finite and at least one is its floor,
    capped at 1000. *)
Lemma normalizeLimit_finite (q : Q) :
  (1 <= q)%Q ->
  normalizeLimit (VNum (Finite q)) = Z.min (Qfloor q) 1000
  /\ 1 <= normalizeLimit (VNum (Finite q)) <= 1000.
Proof.
  intros Hq. unfold normalizeLimit. cbn.
  destruct (Qle_bool q 0) eqn:Hle.
  - apply Qle_bool_iff in Hle.
    exfalso. apply (Qle_not_lt _ _ (Qle_trans _ _ _ Hq Hle)). reflexivity.
  - assert (1 <= Qfloor q).
    { change 1 with (Qfloor 1). now apply Qfloor_resp_le. }
    lia.
Qed.

(** Whatever does not coerce to a finite number, and whatever coerces to a
    number that is not positive, falls back to 100; so does a limit left
    out. *)
Lemma normalizeLimit_fallback (v : value) :
  match ToNumber (v ?? VInt DEFAULT_LIMIT) with
  | Finite q => (q <= 0)%Q
  | _ => True
  end ->
  normalizeLimit v = 100.
Proof.
  unfold normalizeLimit. cbv zeta.
  destruct (ToNumber _) as [| | |q]; try reflexivity.
  intros Hq. apply Qle_bool_iff in Hq. now rewrite Hq.
Qed.

Lemma normalizeLimit_nullish (v : value) :
  nullish v = true -> normalizeLimit v = 100.
Proof. destruct v; try discriminate; reflexivity. Qed.


(** C3.  [normalizeLimit] does not keep its result inside [1, 1000] for
    every input: the guard [limit <= 0] runs before [Math.floor], so a
    limit strictly between 0 and 1, here 0.5, passes the guard and is
    floored to 0. *)
Theorem normalizeLimit_half_is_zero :
  normalizeLimit (VNum (Finite (1 # 2))) = 0
  /\ ~ (1 <= normalizeLimit (VNum (Finite (1 # 2))) <= 1000).
Proof.
  split; [reflexivity|].
  change (normalizeLimit (VNum (Finite (1 # 2)))) with 0. lia.
Qed.

(** Every limit strictly between 0 and 1 behaves like 0.5. *)
Lemma normalizeLimit_fraction (q : Q) :
  (0 < q)%Q -> (q < 1)%Q -> normalizeLimit (VNum (Finite q)) = 0.
Proof.
  intros Hpos Hlt. unfold normalizeLimit. cbn.
  destruct (Qle_bool q 0) eqn:Hle.
  - apply Qle_bool_iff in Hle. exfalso. exact (Qlt_not_le _ _ Hpos Hle).
  - assert (Hlo : 0 <= Qfloor q).
    { change 0 with (Qfloor 0). apply Qfloor_resp_le.
      now apply Qlt_le_weak. }
    assert (Hhi : Qfloor q < 1).
    { rewrite Zlt_Qlt. eapply Qle_lt_trans; [apply Qfloor_le|exact Hlt]. }
    lia.
Qed.

End LimitFacts.

(* ===================================================================== *)
(** * Properties of the walkers *)
(* ===================================================================== *)

Lemma truthy_provided (v : value) : truthy v = true -> provided v = true.
Proof. destruct v; cbn; congruence. Qed.

Lemma len_app (l k : list value) : len (l ++ k) = len l + len k.
Proof. unfold len. rewrite length_app. lia. Qed.

Lemma len_nonneg (l : list value) : 0 <= len l.
Proof. unfold len. lia. Qed.

Lemma len_slice0 (l : list value) (n : Z) :
  0 <= n -> len (slice0 l n) = Z.min n (len l).
Proof.
  intros Hn. unfold slice0.
  destruct (n <? 0) eqn:Hneg; [lia|].
  unfold len. rewrite length_firstn. lia.
Qed.

Lemma slice0_all (l : list value) (n : Z) :
  len l <= n -> slice0 l n = l.
Proof.
  intros Hn. unfold slice0. pose proof (len_nonneg l).
  destruct (n <? 0) eqn:Hneg; [lia|].
  apply firstn_all2. unfold len in *. lia.
Qed.

Lemma lastReceived_cons (r : reply) (rest : list reply) (q : request)
    (reqs : list request) :
  reqs <> [] ->
  lastReceived (r :: rest) (q :: reqs) = lastReceived rest reqs.
Proof. destruct reqs; [congruence|reflexivity]. Qed.

Section WalkerFacts.
Context `{Engine}.

(** What holds of every run of the link walker's loop that returns. *)
Lemma listWithLinks_loop_done (path : string) (maxItems : Z) :
  forall (replies : list reply) (items : list value)
         (nextUrl : option string) (firstQuery : gmap string value)
         (reqs : list request) (r : WithLinks.result),
    len items <= maxItems ->
    listWithLinks_loop path maxItems replies items nextUrl firstQuery
      = (reqs, Done r) ->
    len (WithLinks.items r) <= maxItems
    /\ WithLinks.count r = len (WithLinks.items r)
    /\ (len items < maxItems ->
        exists payload,
          lastReceived replies reqs = Some (Returned payload)
          /\ WithLinks.next r = linksNext payload ?? VNull
          /\ WithLinks.has_more r
             = truthy (linksNext payload)
               && (maxItems <=? len (WithLinks.items r)))
    /\ (maxItems <= len items ->
        reqs = [] /\ WithLinks.has_more r = false).
Proof.
  induction replies as [|reply rest IH];
    intros items nextUrl firstQuery reqs r Hle Hrun.
  - cbn in Hrun. destruct (len items <? maxItems) eqn:Hlt.
    + discriminate.
    + injection Hrun as <- <-. cbn. repeat split; try lia.
  - cbn in Hrun. destruct (len items <? maxItems) eqn:Hlt.
    2:{ injection Hrun as <- <-. cbn. repeat split; try lia. }
    apply Z.ltb_lt in Hlt.
    destruct reply as [payload|e]; [|discriminate].
    fold (linksNext payload) in Hrun.
    set (items' := (items ++ slice0 (arrayOrEmpty (prop payload "data"))
                              (maxItems - len items))%list) in *.
    assert (Hlen' : len items' <= maxItems).
    { unfold items'. rewrite len_app, len_slice0 by lia. lia. }
    destruct (negb (truthy (linksNext payload)) || (maxItems <=? len items'))
      eqn:Hstop.
    + injection Hrun as <- <-. cbn.
      split; [exact Hlen'|]. split; [reflexivity|]. split; [|lia].
      intros _. exists payload. repeat split.
    + apply orb_false_iff in Hstop as [Htok Hquota].
      apply Z.leb_gt in Hquota.
      assert (Hrec : forall u,
        issued
          match nextUrl with
          | Some u0 =>
              if (u0 =? "")%string then GET_query path firstQuery
              else GET_absolute u0
          | None => GET_query path firstQuery
          end
          (listWithLinks_loop path maxItems rest items' (Some u) emptyObj)
          = (reqs, Done r) ->
        len (WithLinks.items r) <= maxItems
        /\ WithLinks.count r = len (WithLinks.items r)
        /\ (len items < maxItems ->
            exists payload0,
              lastReceived (Returned payload :: rest) reqs
                = Some (Returned payload0)
              /\ WithLinks.next r = linksNext payload0 ?? VNull
              /\ WithLinks.has_more r
                 = truthy (linksNext payload0)
                   && (maxItems <=? len (WithLinks.items r)))
        /\ (maxItems <= len items ->
            reqs = [] /\ WithLinks.has_more r = false)).
      { intros u Hu.
        destruct (listWithLinks_loop path maxItems rest items' (Some u)
                    emptyObj) as [reqs' out] eqn:Hloop.
        unfold issued in Hu. cbn in Hu. injection Hu as <- ->.
        destruct (IH _ _ _ _ _ Hlen' Hloop) as (Hb & Hc & Hlast & _).
        split; [exact Hb|]. split; [exact Hc|]. split; [|lia].
        intros _. destruct (Hlast Hquota) as (p0 & Hp0 & Hnext & Hmore).
        exists p0. split; [|split; assumption].
        rewrite lastReceived_cons; [exact Hp0|].
        intros ->. discriminate. }
      destruct (linksNext payload) as [| | | |s| |] eqn:Hnext;
        try discriminate.
      destruct (String.prefix "http" s).
      * exact (Hrec _ Hrun).
      * destruct (URL_resolve s); [exact (Hrec _ Hrun)|discriminate].
Qed.
(** What holds of every run of the notes walker's loop that returns. *)
Lemma listNotes_loop_done (query : gmap string value) (maxItems : Z) :
  forall (replies : list reply) (items : list value) (cursor : value)
         (reqs : list request) (r : Notes.result),
    len items <= maxItems ->
    listNotes_loop query maxItems replies items cursor = (reqs, Done r) ->
    len (Notes.items r) <= maxItems
    /\ Notes.count r = len (Notes.items r)
    /\ (len items < maxItems ->
        exists payload,
          lastReceived replies reqs = Some (Returned payload)
          /\ Notes.next_cursor r = pageCursor payload ?? VNull
          /\ Notes.has_more r
             = truthy (pageCursor payload)
               && (maxItems <=? len (Notes.items r)))
    /\ (maxItems <= len items -> reqs = [] /\ Notes.has_more r = false).
Proof.
  induction replies as [|reply rest IH]; intros items cursor reqs r Hle Hrun.
  - cbn in Hrun. destruct (len items <? maxItems) eqn:Hlt.
    + discriminate.
    + injection Hrun as <- <-. cbn. repeat split; try lia.
  - cbn in Hrun. destruct (len items <? maxItems) eqn:Hlt.
    2:{ injection Hrun as <- <-. cbn. repeat split; try lia. }
    apply Z.ltb_lt in Hlt.
    destruct reply as [payload|e]; [|discriminate].
    fold (pageCursor payload) in Hrun.
    set (items' := (items ++ slice0 (arrayOrEmpty (prop payload "data"))
                              (maxItems - len items))%list) in *.
    assert (Hlen' : len items' <= maxItems).
    { unfold items'. rewrite len_app, len_slice0 by lia. lia. }
    destruct (negb (truthy (pageCursor payload)) || (maxItems <=? len items'))
      eqn:Hstop.
    + injection Hrun as <- <-. cbn.
      split; [exact Hlen'|]. split; [reflexivity|]. split; [|lia].
      intros _. exists payload. repeat split.
    + apply orb_false_iff in Hstop as [_ Hquota].
      apply Z.leb_gt in Hquota.
      destruct (listNotes_loop query maxItems rest items'
                  (pageCursor payload)) as [reqs' out] eqn:Hloop.
      unfold issued in Hrun. cbn in Hrun. injection Hrun as <- ->.
      destruct (IH _ _ _ _ Hlen' Hloop) as (Hb & Hc & Hlast & _).
      split; [exact Hb|]. split; [exact Hc|]. split; [|lia].
      intros _. destruct (Hlast Hquota) as (p0 & Hp0 & Hnext & Hmore).
      exists p0. split; [|split; assumption].
      rewrite lastReceived_cons; [exact Hp0|].
      intros ->. discriminate.
Qed.

(** The effective maximum of a requested maximum in [1, 1000]. *)
Lemma normalizeLimit_requested (q : Q) :
  (1 <= q)%Q -> (q <= 1000)%Q ->
  normalizeLimit (VNum (Finite q)) = Qfloor q
  /\ 1 <= Qfloor q
  /\ (inject_Z (Qfloor q) <= q)%Q.
Proof.
  intros Hlo Hhi. destruct (normalizeLimit_finite q Hlo) as [Heq Hrange].
  assert (Qfloor q <= 1000).
  { change 1000 with (Qfloor 1000). now apply Qfloor_resp_le. }
  rewrite Heq in *. split; [lia|]. split; [lia|]. apply Qfloor_le.
Qed.

(** Against pages that are not empty the link walker returns, after at
    most [maxItems] requests' worth of replies. *)
Lemma listWithLinks_loop_returns (path : string) (maxItems : Z) :
  forall (replies : list reply) (items : list value)
         (nextUrl : option string) (firstQuery : gmap string value),
    Forall productiveLinkReply replies ->
    maxItems - len items <= Z.of_nat (length replies) ->
    exists reqs r,
      listWithLinks_loop path maxItems replies items nextUrl firstQuery
      = (reqs, Done r).
Proof.
  induction replies as [|reply rest IH];
    intros items nextUrl firstQuery Hall Hfuel.
  - cbn in *. destruct (len items <? maxItems) eqn:Hlt.
    + apply Z.ltb_lt in Hlt. lia.
    + eexists _, _. reflexivity.
  - cbn [listWithLinks_loop].
    destruct (len items <? maxItems) eqn:Hlt; [|eexists _, _; reflexivity].
    apply Z.ltb_lt in Hlt.
    apply Forall_cons_iff in Hall as [(payload & -> & Hpage & Hnext) Hall].
    fold (linksNext payload).
    set (page := arrayOrEmpty (prop payload "data")) in *.
    set (items' := (items ++ slice0 page (maxItems - len items))%list).
    destruct (negb (truthy (linksNext payload)) || (maxItems <=? len items'))
      eqn:Hstop; [eexists _, _; reflexivity|].
    apply orb_false_iff in Hstop as [Htok _].
    apply negb_false_iff in Htok.
    assert (Hgrow : len items + 1 <= len items').
    { unfold items'. rewrite len_app, len_slice0 by lia.
      assert (1 <= len page); [|lia].
      unfold len. destruct page; [congruence|cbn; lia]. }
    assert (Hfuel' : maxItems - len items' <= Z.of_nat (length rest)).
    { cbn [length] in Hfuel. lia. }
    destruct (Hnext Htok) as (s & -> & Hres).
    destruct (String.prefix "http" s).
    + destruct (IH items' (Some s) emptyObj Hall Hfuel') as (reqs & r & ->).
      eexists _, _. reflexivity.
    + destruct Hres as [?|[u ->]]; [discriminate|].
      destruct (IH items' (Some u) emptyObj Hall Hfuel') as (reqs & r & ->).
      eexists _, _. reflexivity.
Qed.

(** Against pages that are not empty the notes walker returns. *)
Lemma listNotes_loop_returns (query : gmap string value) (maxItems : Z) :
  forall (replies : list reply) (items : list value) (cursor : value),
    Forall productiveNotesReply replies ->
    maxItems - len items <= Z.of_nat (length replies) ->
    exists reqs r,
      listNotes_loop query maxItems replies items cursor = (reqs, Done r).
Proof.
  induction replies as [|reply rest IH]; intros items cursor Hall Hfuel.
  - cbn in *. destruct (len items <? maxItems) eqn:Hlt.
    + apply Z.ltb_lt in Hlt. lia.
    + eexists _, _. reflexivity.
  - cbn [listNotes_loop].
    destruct (len items <? maxItems) eqn:Hlt; [|eexists _, _; reflexivity].
    apply Z.ltb_lt in Hlt.
    apply Forall_cons_iff in Hall as [(payload & -> & Hpage) Hall].
    fold (pageCursor payload).
    set (page := arrayOrEmpty (prop payload "data")) in *.
    set (items' := (items ++ slice0 page (maxItems - len items))%list).
    destruct (negb (truthy (pageCursor payload)) || (maxItems <=? len items'))
      eqn:Hstop; [eexists _, _; reflexivity|].
    assert (Hgrow : len items + 1 <= len items').
    { unfold items'. rewrite len_app, len_slice0 by lia.
      assert (1 <= len page); [|lia].
      unfold len. destruct page; [congruence|cbn; lia]. }
    assert (Hfuel' : maxItems - len items' <= Z.of_nat (length rest)).
    { cbn [length] in Hfuel. lia. }
    destruct (IH items' (pageCursor payload) Hall Hfuel') as (reqs & r & ->).
    eexists _, _. reflexivity.
Qed.

(** C1.  For a requested maximum N in [1, 1000] and any script of replies,
    a walker that returns has collected at most N items, and its
    [has_more] is true exactly when the collected items fill the quota and
    the last reply received carried a continuation token ([links.next] for
    [listWithLinks], [pageCursor] for [listNotes]). *)
Theorem walkers_quota_and_has_more (N : Q) :
  (1 <= N)%Q -> (N <= 1000)%Q ->
  (forall path query pageSizeParam replies reqs r,
      listWithLinks path query (VNum (Finite N)) pageSizeParam replies
        = (reqs, Done r) ->
      (inject_Z (len (WithLinks.items r)) <= N)%Q
      /\ exists payload,
           lastReceived replies reqs = Some (Returned payload)
           /\ (WithLinks.has_more r = true <->
               len (WithLinks.items r) = Qfloor N
               /\ truthy (linksNext payload) = true))
  /\ (forall query replies reqs r,
        listNotes query (VNum (Finite N)) replies = (reqs, Done r) ->
        (inject_Z (len (Notes.items r)) <= N)%Q
        /\ exists payload,
             lastReceived replies reqs = Some (Returned payload)
             /\ (Notes.has_more r = true <->
                 len (Notes.items r) = Qfloor N
                 /\ truthy (pageCursor payload) = true)).
Proof.
  intros Hlo Hhi.
  destruct (normalizeLimit_requested N Hlo Hhi) as (Hmax & Hpos & Hfloor).
  split.
  - intros path query pageSizeParam replies reqs r Hrun.
    unfold listWithLinks in Hrun. cbn [defined] in Hrun. cbv zeta in Hrun.
    rewrite Hmax in Hrun.
    apply listWithLinks_loop_done in Hrun; [|change (len []) with 0; lia].
    destruct Hrun as (Hb & _ & Hlast & _).
    split.
    { eapply Qle_trans; [|exact Hfloor]. rewrite <- Zle_Qle. exact Hb. }
    destruct Hlast as (payload & Hp & _ & Hmore); [change (len []) with 0; lia|].
    exists payload. split; [exact Hp|]. rewrite Hmore.
    rewrite andb_true_iff, Z.leb_le. intuition lia.
  - intros query replies reqs r Hrun.
    unfold listNotes in Hrun. cbn [defined] in Hrun. cbv zeta in Hrun.
    rewrite Hmax in Hrun.
    apply listNotes_loop_done in Hrun; [|change (len []) with 0; lia].
    destruct Hrun as (Hb & _ & Hlast & _).
    split.
    { eapply Qle_trans; [|exact Hfloor]. rewrite <- Zle_Qle. exact Hb. }
    destruct Hlast as (payload & Hp & _ & Hmore); [change (len []) with 0; lia|].
    exists payload. split; [exact Hp|]. rewrite Hmore.
    rewrite andb_true_iff, Z.leb_le. intuition lia.
Qed.

(** The loop is entered with fewer than [maxItems] items each time it
    issues a request, and every page before the last one was kept whole. *)
Lemma listWithLinks_loop_requests (path : string) (maxItems : Z) :
  forall (replies : list reply) (items : list value)
         (nextUrl : option string) (firstQuery : gmap string value)
         (reqs : list request) (out : outcome WithLinks.result),
    listWithLinks_loop path maxItems replies items nextUrl firstQuery
      = (reqs, out) ->
    forall i : nat, (i < length reqs)%nat ->
      len items + len (received replies i) < maxItems.
Proof.
  induction replies as [|reply rest IH];
    intros items nextUrl firstQuery reqs out Hrun i Hi.
  - cbn in Hrun. destruct (len items <? maxItems) eqn:Hlt;
      injection Hrun as <- <-; cbn in Hi; [|lia].
    apply Z.ltb_lt in Hlt.
    unfold received. rewrite firstn_nil. cbn. change (len []) with 0. lia.
  - cbn in Hrun. destruct (len items <? maxItems) eqn:Hlt.
    2:{ injection Hrun as <- <-. cbn in Hi. lia. }
    apply Z.ltb_lt in Hlt.
    destruct i as [|i].
    { unfold received. cbn. change (len []) with 0. lia. }
    destruct reply as [payload|e].
    2:{ injection Hrun as <- <-. cbn in Hi. lia. }
    fold (linksNext payload) in Hrun.
    set (page := arrayOrEmpty (prop payload "data")) in *.
    set (items' := (items ++ slice0 page (maxItems - len items))%list) in *.
    destruct (negb (truthy (linksNext payload)) || (maxItems <=? len items'))
      eqn:Hstop.
    { injection Hrun as <- <-. cbn in Hi. lia. }
    apply orb_false_iff in Hstop as [_ Hquota]. apply Z.leb_gt in Hquota.
    assert (Hwhole : items' = (items ++ page)%list).
    { unfold items'. f_equal. apply slice0_all.
      unfold items' in Hquota. rewrite len_app, len_slice0 in Hquota; lia. }
    assert (Hrec : forall u (q : request),
      issued q (listWithLinks_loop path maxItems rest items' (Some u)
                  emptyObj) = (reqs, out) ->
      len items + len (received (Returned payload :: rest) (S i)) < maxItems).
    { intros u q Hu.
      destruct (listWithLinks_loop path maxItems rest items' (Some u)
                  emptyObj) as [reqs' out'] eqn:Hloop.
      unfold issued in Hu. cbn in Hu. injection Hu as <- ->.
      cbn in Hi. specialize (IH _ _ _ _ _ Hloop i ltac:(lia)).
      rewrite Hwhole, len_app in IH.
      unfold received in *. cbn. fold page. rewrite len_app. lia. }
    destruct (linksNext payload) as [| | | |s| |];
      try (injection Hrun as <- <-; cbn in Hi; lia).
    destruct (String.prefix "http" s).
    + exact (Hrec _ _ Hrun).
    + destruct (URL_resolve s); [exact (Hrec _ _ Hrun)|].
      injection Hrun as <- <-. cbn in Hi. lia.
Qed.

Lemma normalizeLimit_default (limit : value) :
  normalizeLimit (if defined limit then limit else VInt DEFAULT_LIMIT)
  = normalizeLimit limit.
Proof. destruct limit; reflexivity. Qed.

(** One turn of the link walker's loop that keeps the whole page and goes
    on to the next link. *)
Lemma listWithLinks_loop_continue (path : string) (maxItems : Z)
    (payload : value) (rest : list reply) (items : list value)
    (nextUrl : option string) (firstQuery : gmap string value)
    (next : string) :
  linksNext payload = VStr next ->
  next <> "" ->
  String.prefix "http" next = true \/ is_Some (URL_resolve next) ->
  len items + len (arrayOrEmpty (prop payload "data")) < maxItems ->
  exists (q : request) (u : string),
    listWithLinks_loop path maxItems (Returned payload :: rest) items
      nextUrl firstQuery
    = issued q
        (listWithLinks_loop path maxItems rest
           (items ++ arrayOrEmpty (prop payload "data")) (Some u) emptyObj).
Proof.
  intros Hnext Hne Hres Hroom. pose proof (len_nonneg items).
  pose proof (len_nonneg (arrayOrEmpty (prop payload "data"))).
  cbn. fold (linksNext payload). rewrite Hnext.
  destruct (len items <? maxItems) eqn:Hlt; [|apply Z.ltb_ge in Hlt; lia].
  rewrite slice0_all by lia.
  assert (Htr : truthy (VStr next) = true).
  { cbn. destruct (String.eqb_spec next ""); [contradiction|reflexivity]. }
  rewrite Htr. cbn [negb orb].
  destruct (maxItems <=? _) eqn:Hq;
    [apply Z.leb_le in Hq; rewrite len_app in Hq; lia|].
  destruct (String.prefix "http" next) eqn:Hpre.
  - eexists _, _. reflexivity.
  - destruct Hres as [?|[u Hu]]; [discriminate|]. rewrite Hu.
    eexists _, _. reflexivity.
Qed.

(** One turn of the link walker's loop that fills the quota. *)
Lemma listWithLinks_loop_fill (path : string) (maxItems : Z)
    (payload : value) (rest : list reply) (items : list value)
    (nextUrl : option string) (firstQuery : gmap string value) :
  len items < maxItems ->
  maxItems <= len items + len (arrayOrEmpty (prop payload "data")) ->
  exists (q : request) (r : WithLinks.result),
    listWithLinks_loop path maxItems (Returned payload :: rest) items
      nextUrl firstQuery = ([q], Done r)
    /\ len (WithLinks.items r) = maxItems
    /\ WithLinks.has_more r = truthy (linksNext payload).
Proof.
  intros Hlt Hfill. cbn. fold (linksNext payload).
  destruct (len items <? maxItems) eqn:Hlt'; [|apply Z.ltb_ge in Hlt'; lia].
  assert (Hlen : len (items ++ slice0 (arrayOrEmpty (prop payload "data"))
                                (maxItems - len items)) = maxItems).
  { rewrite len_app, len_slice0 by lia. lia. }
  rewrite Hlen, Z.leb_refl, orb_true_r.
  eexists _, _. split; [reflexivity|]. cbn. rewrite Hlen.
  split; [reflexivity|apply andb_true_r].
Qed.
Lemma firstn_quota (maxItems : Z) (items page : list value) :
  len items <= maxItems ->
  firstn (Z.to_nat maxItems) (items ++ page)
  = (items ++ slice0 page (maxItems - len items))%list.
Proof.
  intros Hle. pose proof (len_nonneg items). unfold slice0.
  destruct (maxItems - len items <? 0) eqn:Hneg; [lia|].
  rewrite firstn_app. unfold len in *.
  rewrite firstn_all2 by lia. do 2 f_equal. lia.
Qed.

(** A run that returns hands back the first [maxItems] items of the pages
    it received, in order. *)
Lemma listWithLinks_loop_items (path : string) (maxItems : Z) :
  forall (replies : list reply) (items : list value)
         (nextUrl : option string) (firstQuery : gmap string value)
         (reqs : list request) (r : WithLinks.result),
    len items <= maxItems ->
    listWithLinks_loop path maxItems replies items nextUrl firstQuery
      = (reqs, Done r) ->
    WithLinks.items r
    = firstn (Z.to_nat maxItems) (items ++ received replies (length reqs)).
Proof.
  induction replies as [|reply rest IH];
    intros items nextUrl firstQuery reqs r Hle Hrun.
  - cbn in Hrun. destruct (len items <? maxItems) eqn:Hlt; [discriminate|].
    injection Hrun as <- <-. cbn. apply Z.ltb_ge in Hlt.
    rewrite app_nil_r, firstn_all2; [reflexivity|unfold len in *; lia].
  - cbn in Hrun. destruct (len items <? maxItems) eqn:Hlt.
    2:{ injection Hrun as <- <-. cbn. apply Z.ltb_ge in Hlt.
        rewrite app_nil_r, firstn_all2; [reflexivity|unfold len in *; lia]. }
    apply Z.ltb_lt in Hlt.
    destruct reply as [payload|e]; [|discriminate].
    fold (linksNext payload) in Hrun.
    set (page := arrayOrEmpty (prop payload "data")) in *.
    set (items' := (items ++ slice0 page (maxItems - len items))%list) in *.
    assert (Hlen' : len items' <= maxItems).
    { unfold items'. rewrite len_app, len_slice0 by lia. lia. }
    destruct (negb (truthy (linksNext payload)) || (maxItems <=? len items'))
      eqn:Hstop.
    { injection Hrun as <- <-. unfold received. cbn. fold page.
      rewrite app_nil_r. symmetry. now apply firstn_quota. }
    apply orb_false_iff in Hstop as [_ Hquota]. apply Z.leb_gt in Hquota.
    assert (Hwhole : items' = (items ++ page)%list).
    { unfold items'. f_equal. apply slice0_all.
      unfold items' in Hquota. rewrite len_app, len_slice0 in Hquota; lia. }
    assert (Hrec : forall u (q : request),
      issued q (listWithLinks_loop path maxItems rest items' (Some u)
                  emptyObj) = (reqs, Done r) ->
      WithLinks.items r
      = firstn (Z.to_nat maxItems)
          (items ++ received (Returned payload :: rest) (length reqs))).
    { intros u q Hu.
      destruct (listWithLinks_loop path maxItems rest items' (Some u)
                  emptyObj) as [reqs' out'] eqn:Hloop.
      unfold issued in Hu. cbn in Hu. injection Hu as <- ->.
      rewrite (IH _ _ _ _ _ Hlen' Hloop), Hwhole.
      unfold received. cbn. fold page. now rewrite <- app_assoc. }
    destruct (linksNext payload) as [| | | |s| |]; try discriminate.
    destruct (String.prefix "http" s).
    + exact (Hrec _ _ Hrun).
    + destruct (URL_resolve s); [exact (Hrec _ _ Hrun)|discriminate].
Qed.

(** C2.  Whenever [listWithLinks] issues a request, the pages received so
    far hold fewer items than the effective maximum, and the items it
    returns are the first ones of the pages received, up to that maximum:
    no request is issued once the maximum is reached, and a requested page
    that is not empty contributes an item.  Against an endpoint whose
    every page holds 100 items and a next link, a maximum of 250 takes
    exactly 3 requests and returns 250 items with [has_more] true. *)
Theorem listWithLinks_requests_only_needed_pages :
  (forall path query limit pageSizeParam replies reqs out,
      listWithLinks path query limit pageSizeParam replies = (reqs, out) ->
      (forall i : nat, (i < length reqs)%nat ->
         len (received replies i) < normalizeLimit limit)
      /\ (forall r, out = Done r ->
            WithLinks.items r
            = firstn (Z.to_nat (normalizeLimit limit))
                (received replies (length reqs))))
  /\ (forall path query pageSizeParam replies,
        (3 <= length replies)%nat ->
        Forall (fullPageWithNext 100) replies ->
        exists reqs r,
          listWithLinks path query (VInt 250) pageSizeParam replies
            = (reqs, Done r)
          /\ length reqs = 3%nat
          /\ length (WithLinks.items r) = 250%nat
          /\ WithLinks.has_more r = true).
Proof.
  split.
  - intros path query limit pageSizeParam replies reqs out Hrun.
    unfold listWithLinks in Hrun. cbv zeta in Hrun.
    rewrite normalizeLimit_default in Hrun.
    split.
    + intros i Hi.
      pose proof (listWithLinks_loop_requests _ _ _ _ _ _ _ _ Hrun i Hi) as Hr.
      change (len []) with 0 in Hr. lia.
    + intros r ->.
      apply listWithLinks_loop_items in Hrun; [exact Hrun|].
      change (len []) with 0. apply normalizeLimit_nonneg.
  - intros path query pageSizeParam replies Hlen Hall.
    destruct replies as [|r1 [|r2 [|r3 rest]]]; cbn in Hlen; try lia.
    apply Forall_cons_iff in Hall as [H1 Hall].
    apply Forall_cons_iff in Hall as [H2 Hall].
    apply Forall_cons_iff in Hall as [H3 _].
    destruct H1 as (p1 & n1 & -> & Hl1 & Hn1 & Hne1 & Hr1).
    destruct H2 as (p2 & n2 & -> & Hl2 & Hn2 & Hne2 & Hr2).
    destruct H3 as (p3 & n3 & -> & Hl3 & Hn3 & Hne3 & Hr3).
    unfold listWithLinks. cbv zeta. cbn [defined VInt].
    change (normalizeLimit (VNum (Finite (inject_Z 250)))) with 250.
    change (normalizeLimit (VInt 250)) with 250.
    set (firstQuery := match pageSizeParam with
                       | Some p => _
                       | None => _
                       end).
    destruct (listWithLinks_loop_continue path 250 p1
                (Returned p2 :: Returned p3 :: rest)
                [] None firstQuery n1 Hn1 Hne1 Hr1) as (q1 & u1 & E1).
    { unfold len. rewrite Hl1. cbn. lia. }
    destruct (listWithLinks_loop_continue path 250 p2 (Returned p3 :: rest)
                ([] ++ arrayOrEmpty (prop p1 "data")) (Some u1) emptyObj
                n2 Hn2 Hne2 Hr2) as (q2 & u2 & E2).
    { rewrite len_app. unfold len. rewrite Hl1, Hl2. cbn. lia. }
    destruct (listWithLinks_loop_fill path 250 p3 rest
                (([] ++ arrayOrEmpty (prop p1 "data"))
                 ++ arrayOrEmpty (prop p2 "data")) (Some u2) emptyObj)
      as (q3 & r & E3 & Hitems & Hmore).
    { rewrite !len_app. unfold len. rewrite Hl1, Hl2. cbn. lia. }
    { rewrite !len_app. unfold len. rewrite Hl1, Hl2, Hl3. cbn. lia. }
    exists [q1; q2; q3], r.
    rewrite E1, E2, E3. split; [reflexivity|]. split; [reflexivity|].
    split.
    + unfold len in Hitems. lia.
    + rewrite Hmore, Hn3. cbn.
      destruct (String.eqb_spec n3 ""); [contradiction|reflexivity].
Qed.

Lemma listNotes_loop_requests (query : gmap string value) (maxItems : Z) :
  forall (replies : list reply) (items : list value) (cursor : value)
         (reqs : list request) (out : outcome Notes.result),
    listNotes_loop query maxItems replies items cursor = (reqs, out) ->
    forall (i : nat) (req : request),
      nth_error reqs i = Some req ->
      req = GET_query "/notes"
              (notesPageQuery query
                 (Z.min MAX_PAGE_SIZE
                    (maxItems - (len items + len (received replies i))))
                 (cursorHeld cursor replies i))
      /\ ((0 < i)%nat -> truthy (cursorHeld cursor replies i) = true).
Proof.
  assert (Hfirst : forall replies items cursor,
    GET_query "/notes"
      (if truthy cursor
       then <["pageCursor" := cursor]>
              (<["pageLimit" := VInt (Z.min MAX_PAGE_SIZE
                                        (maxItems - len items))]> query)
       else delete "pageCursor"
              (<["pageLimit" := VInt (Z.min MAX_PAGE_SIZE
                                        (maxItems - len items))]> query))
    = GET_query "/notes"
        (notesPageQuery query
           (Z.min MAX_PAGE_SIZE
              (maxItems - (len items + len (received replies 0))))
           (cursorHeld cursor replies 0))).
  { intros replies items cursor. unfold received, notesPageQuery. cbn.
    change (len []) with 0. now rewrite Z.add_0_r. }
  induction replies as [|reply rest IH];
    intros items cursor reqs out Hrun i req Hi.
  - cbn in Hrun. destruct (len items <? maxItems);
      injection Hrun as <- <-; [|destruct i; discriminate].
    destruct i as [|i]; [|destruct i; discriminate].
    injection Hi as <-. split; [apply Hfirst|lia].
  - cbn in Hrun. destruct (len items <? maxItems) eqn:Hlt.
    2:{ injection Hrun as <- <-. destruct i; discriminate. }
    apply Z.ltb_lt in Hlt.
    destruct reply as [payload|e].
    2:{ injection Hrun as <- <-.
        destruct i as [|i]; [|destruct i; discriminate].
        injection Hi as <-. split; [apply Hfirst|lia]. }
    fold (pageCursor payload) in Hrun.
    set (page := arrayOrEmpty (prop payload "data")) in *.
    set (items' := (items ++ slice0 page (maxItems - len items))%list) in *.
    destruct (negb (truthy (pageCursor payload)) || (maxItems <=? len items'))
      eqn:Hstop.
    { injection Hrun as <- <-.
      destruct i as [|i]; [|destruct i; discriminate].
      injection Hi as <-. split; [apply Hfirst|lia]. }
    apply orb_false_iff in Hstop as [Htok Hquota].
    apply negb_false_iff in Htok. apply Z.leb_gt in Hquota.
    assert (Hwhole : items' = (items ++ page)%list).
    { unfold items'. f_equal. apply slice0_all.
      unfold items' in Hquota. rewrite len_app, len_slice0 in Hquota; lia. }
    destruct (listNotes_loop query maxItems rest items'
                (pageCursor payload)) as [reqs' out'] eqn:Hloop.
    unfold issued in Hrun. cbn in Hrun. injection Hrun as <- ->.
    destruct i as [|i].
    { injection Hi as <-. split; [apply Hfirst|lia]. }
    cbn in Hi. destruct (IH _ _ _ _ Hloop i req Hi) as [Hreq Hcur].
    assert (Hheld : cursorHeld cursor (Returned payload :: rest) (S i)
                    = cursorHeld (pageCursor payload) rest i).
    { destruct i; reflexivity. }
    rewrite Hheld. split.
    + rewrite Hreq, Hwhole. unfold received. cbn. fold page.
      rewrite !len_app. do 3 f_equal. lia.
    + intros _. destruct i as [|i]; [exact Htok|apply Hcur; lia].
Qed.

(** C4.  Every request of a notes listing is a GET of [/notes] whose
    [pageLimit] is [min(100, remaining)], [remaining] being the effective
    maximum less the items received so far.  Its [pageCursor] is the cursor
    held: the caller's on the first request, the one of the reply before
    on every later request, which is only issued when that reply carried
    one.  When no cursor is held the request has no [pageCursor] key at
    all.  Every other key is the caller's, and [pageLimit] and
    [pageCursor] reach the URL as they stand in the query. *)
Theorem listNotes_page_size_and_cursor :
  forall query limit replies reqs out,
    listNotes query limit replies = (reqs, out) ->
    forall (i : nat) (req : request),
      nth_error reqs i = Some req ->
      let remaining := normalizeLimit limit - len (received replies i) in
      let cursor :=
        cursorHeld (field (default emptyObj query) "pageCursor") replies i in
      exists pageQuery : gmap string value,
        req = GET_query "/notes" pageQuery
        /\ pageQuery !! "pageLimit"
           = Some (VInt (Z.min 100 remaining))
        /\ (truthy cursor = true -> pageQuery !! "pageCursor" = Some cursor)
        /\ (truthy cursor = false -> pageQuery !! "pageCursor" = None)
        /\ ((0 < i)%nat -> truthy cursor = true)
        /\ (forall k : string,
              k <> "pageLimit" -> k <> "pageCursor" ->
              pageQuery !! k = default emptyObj query !! k)
        /\ applyQueryParams pageQuery !! "pageLimit"
           = Some (VInt (Z.min 100 remaining))
        /\ applyQueryParams pageQuery !! "pageCursor"
           = (if truthy cursor then Some cursor else None).
Proof.
  intros query limit replies reqs out Hrun i req Hi remaining cursor.
  unfold listNotes in Hrun. cbv zeta in Hrun.
  rewrite normalizeLimit_default in Hrun.
  destruct (listNotes_loop_requests _ _ _ _ _ _ _ Hrun i req Hi)
    as [Hreq Hcur].
  change (len []) with 0 in Hreq. rewrite Z.add_0_l in Hreq.
  fold remaining cursor in Hreq, Hcur.
  eexists. split; [exact Hreq|].
  assert (Hlimit : notesPageQuery (default emptyObj query)
                     (Z.min MAX_PAGE_SIZE remaining) cursor !! "pageLimit"
                   = Some (VInt (Z.min 100 remaining))).
  { unfold notesPageQuery. destruct (truthy cursor).
    - rewrite lookup_insert_ne by discriminate.
      now rewrite lookup_insert_eq.
    - rewrite lookup_delete_ne by discriminate.
      now rewrite lookup_insert_eq. }
  assert (Hheld : truthy cursor = true ->
                  notesPageQuery (default emptyObj query)
                    (Z.min MAX_PAGE_SIZE remaining) cursor !! "pageCursor"
                  = Some cursor).
  { unfold notesPageQuery. intros ->. now rewrite lookup_insert_eq. }
  assert (Hnone : truthy cursor = false ->
                  notesPageQuery (default emptyObj query)
                    (Z.min MAX_PAGE_SIZE remaining) cursor !! "pageCursor"
                  = None).
  { unfold notesPageQuery. intros ->. now rewrite lookup_delete_eq. }
  split; [exact Hlimit|]. split; [exact Hheld|]. split; [exact Hnone|].
  split; [exact Hcur|]. split; [|split].
  - intros k Hk1 Hk2. unfold notesPageQuery. destruct (truthy cursor).
    + rewrite !lookup_insert_ne by congruence. reflexivity.
    + rewrite lookup_delete_ne, lookup_insert_ne by congruence. reflexivity.
  - unfold applyQueryParams. apply map_lookup_filter_Some.
    split; [exact Hlimit|reflexivity].
  - unfold applyQueryParams. destruct (truthy cursor) eqn:Htruthy.
    + apply map_lookup_filter_Some. split; [now apply Hheld|].
      cbn. now apply truthy_provided.
    + apply map_lookup_filter_None. left. now apply Hnone.
Qed.
End WalkerFacts.

(* ===================================================================== *)
(** * Properties of the normalizers *)
(* ===================================================================== *)

Lemma coalesce_kept (a b : value) : nullish a = false -> a ?? b = a.
Proof. unfold coalesce. now intros ->. Qed.

Lemma coalesce_skipped (a b : value) : nullish a = true -> a ?? b = b.
Proof. unfold coalesce. now intros ->. Qed.

Lemma field_insert_eq (o : gmap string value) (k : string) (v : value) :
  field (<[k := v]> o) k = v.
Proof. unfold field. now rewrite lookup_insert_eq. Qed.

Lemma field_insert_ne (o : gmap string value) (k k' : string) (v : value) :
  k <> k' -> field (<[k := v]> o) k' = field o k'.
Proof. intros Hne. unfold field. now rewrite lookup_insert_ne. Qed.

Lemma prop_toObject (v : value) (k : string) :
  field (toObject v) k = prop v k.
Proof. destruct v; reflexivity. Qed.

Lemma normalizeStatusInput_supplied (status : value) :
  suppliedInline status = true ->
  isValidationError (normalizeStatusInput status)
  \/ exists o, normalizeStatusInput status = Ok (Some o).
Proof.
  unfold suppliedInline, normalizeStatusInput. intros Hs.
  destruct status as [| | | |s| |m]; try discriminate.
  - right. eexists. reflexivity.
  - cbn in *.
    destruct (truthy (field m "id")), (truthy (field m "name"));
      try discriminate; cbn.
    + left. eexists. reflexivity.
    + right. eexists. reflexivity.
    + right. eexists. reflexivity.
Qed.

Lemma normalizeStatusInput_not_supplied (status : value) :
  suppliedInline status = false -> normalizeStatusInput status = Ok None.
Proof.
  unfold suppliedInline, normalizeStatusInput. intros Hs.
  destruct status as [| | | |s| |m]; try discriminate; try reflexivity.
  cbn in *.
  destruct (truthy (field m "id")), (truthy (field m "name"));
    try discriminate; reflexivity.
Qed.

(** C5.  Status resolution throws a validation error (status 400) when a
    status is supplied inline together with [status_id] or [status_name],
    when [status_id] and [status_name] are both supplied, and when the
    status object has both an [id] and a [name];  [status_name] alone
    gives [{name}], a bare string [{name: string}], [status_id] alone
    [{id}].  A field is supplied when its value is truthy. *)
Theorem resolveStatusFromArgs_one_representation (rawArgs : value) :
  let args := toObject rawArgs in
  let status := field args "status" in
  let status_id := field args "status_id" in
  let status_name := field args "status_name" in
  (suppliedInline status = true ->
   truthy status_id || truthy status_name = true ->
   isValidationError (resolveStatusFromArgs rawArgs))
  /\ (truthy status_id = true -> truthy status_name = true ->
      isValidationError (resolveStatusFromArgs rawArgs))
  /\ (truthy (prop status "id") = true ->
      truthy (prop status "name") = true ->
      isValidationError (resolveStatusFromArgs rawArgs))
  /\ (suppliedInline status = false ->
      truthy status_id = false -> truthy status_name = true ->
      resolveStatusFromArgs rawArgs = Ok (Some {[ "name" := status_name ]}))
  /\ (is_string status = true ->
      truthy status_id = false -> truthy status_name = false ->
      resolveStatusFromArgs rawArgs = Ok (Some {[ "name" := status ]}))
  /\ (suppliedInline status = false ->
      truthy status_id = true -> truthy status_name = false ->
      resolveStatusFromArgs rawArgs = Ok (Some {[ "id" := status_id ]}))
  /\ resolveStatusFromArgs (VObj {[ "status_name" := VStr "Done" ]})
     = Ok (Some {[ "name" := VStr "Done" ]}).
Proof.
  intros args status status_id status_name.
  unfold resolveStatusFromArgs. fold args. fold status status_id status_name.
  repeat split.
  - intros Hin Hsep.
    destruct (normalizeStatusInput_supplied status Hin) as [[msg ->]|[o ->]].
    + exists msg. reflexivity.
    + cbn. rewrite Hsep. cbn. eexists. reflexivity.
  - intros Hid Hname.
    destruct (normalizeStatusInput status) as [inline|e] eqn:Hn; cbn.
    + rewrite Hid, Hname. cbn. destruct (isObj inline); eexists; reflexivity.
    + destruct (suppliedInline status) eqn:Hs.
      * destruct (normalizeStatusInput_supplied status Hs)
          as [[msg Hmsg]|[o Ho]]; [|congruence].
        exists msg. congruence.
      * rewrite normalizeStatusInput_not_supplied in Hn by assumption.
        discriminate.
  - intros Hid Hname.
    destruct status as [| | | |s| |m]; try discriminate.
    unfold normalizeStatusInput. cbn in *. rewrite Hid, Hname. cbn.
    eexists. reflexivity.
  - intros Hin Hid Hname.
    rewrite normalizeStatusInput_not_supplied by assumption. cbn.
    now rewrite Hid, Hname.
  - intros Hstr Hid Hname.
    destruct status as [| | | |s| |m]; try discriminate.
    cbn. now rewrite Hid, Hname.
  - intros Hin Hid Hname.
    rewrite normalizeStatusInput_not_supplied by assumption. cbn.
    now rewrite Hid, Hname.
Qed.

(** When no spelling holds a falsy value other than [undefined] and
    [null], a kind resolves exactly when one of its spellings is
    supplied. *)
Lemma resolvesParent_any_spelling (args : value) (k : parentKind) :
  Forall (fun v => nullish v = true \/ truthy v = true)
    (parentSpellings args k) ->
  resolvesParent args k = true
  <-> Exists (fun v => truthy v = true) (parentSpellings args k).
Proof.
  unfold resolvesParent, resolvedParentId, parentId, parentSpellings.
  cbv zeta. rewrite !prop_toObject.
  set (a := prop (prop (prop _ _) _) "id"). set (b := prop (prop _ _) "id").
  set (c := prop _ (_ +:+ ".id")). set (d := prop _ (kindAlias k)).
  intros Hall.
  apply Forall_cons_iff in Hall as [Ha Hall].
  apply Forall_cons_iff in Hall as [Hb Hall].
  apply Forall_cons_iff in Hall as [Hc Hall].
  apply Forall_cons_iff in Hall as [Hd _].
  rewrite !Exists_cons, Exists_nil.
  assert (forall v, nullish v = true -> truthy v = false) as Hnt
    by (intros []; cbn; congruence).
  destruct (nullish a) eqn:Na.
  2:{ rewrite !(coalesce_kept a) by assumption.
      destruct Ha as [Ha|Ha]; [congruence|]. tauto. }
  rewrite (coalesce_skipped a) by assumption. apply Hnt in Na.
  destruct (nullish b) eqn:Nb.
  2:{ rewrite !(coalesce_kept b) by assumption.
      destruct Hb as [Hb|Hb]; [congruence|]. tauto. }
  rewrite (coalesce_skipped b) by assumption. apply Hnt in Nb.
  destruct (nullish c) eqn:Nc.
  2:{ rewrite !(coalesce_kept c) by assumption.
      destruct Hc as [Hc|Hc]; [congruence|]. tauto. }
  rewrite (coalesce_skipped c) by assumption. apply Hnt in Nc.
  split; [tauto|]. intros [?|[?|[?|[?|[]]]]]; congruence.
Qed.

Lemma parentCandidates_length (p c f : value) :
  length (omap id [ parentCandidate Product p;
                    parentCandidate Component c;
                    parentCandidate Feature f ])
  = ((if truthy p then 1 else 0) + (if truthy c then 1 else 0)
     + (if truthy f then 1 else 0))%nat.
Proof.
  unfold parentCandidate.
  destruct (truthy p), (truthy c), (truthy f); reflexivity.
Qed.

Lemma normalizeParentInput_two_kinds (args : value) (required : bool)
    (k1 k2 : parentKind) :
  k1 <> k2 ->
  resolvesParent args k1 = true -> resolvesParent args k2 = true ->
  normalizeParentInput args required
  = Raise (validationError
      "Provide only one parent type: product, component, or feature.").
Proof.
  unfold resolvesParent, resolvedParentId, normalizeParentInput.
  cbv zeta. intros Hne H1 H2.
  rewrite parentCandidates_length.
  destruct k1, k2; try congruence; rewrite H1, H2;
    repeat match goal with
           | |- context [truthy ?v] => destruct (truthy v)
           end; reflexivity.
Qed.

(** C6.  Parent normalization throws a validation error when more than
    one of the kinds product, component and feature resolves to a value,
    and when a parent is required and no kind resolves;  a single kind
    that resolves gives [{kind: {id}}], and [parent_feature_id: "f1"]
    alone gives [{feature: {id: "f1"}}].  A kind resolves to the first of
    its spellings that is neither [undefined] nor [null], if that is
    truthy;  in a bag without falsy ids, that is: when any of its
    spellings is supplied. *)
Theorem normalizeParentInput_one_kind (args : value) (required : bool) :
  (forall k1 k2 : parentKind,
      k1 <> k2 ->
      resolvesParent args k1 = true -> resolvesParent args k2 = true ->
      normalizeParentInput args required
      = Raise (validationError
          "Provide only one parent type: product, component, or feature."))
  /\ ((forall k, resolvesParent args k = false) ->
      normalizeParentInput args required
      = if required
        then Raise (validationError
          "Missing feature parent. Provide product.id, component.id, or parent_feature_id.")
        else Ok None)
  /\ (forall k : parentKind,
        resolvesParent args k = true ->
        (forall k', k' <> k -> resolvesParent args k' = false) ->
        normalizeParentInput args required
        = Ok (Some {[ kindKey k := VObj {[ "id" := resolvedParentId args k ]} ]}))
  /\ normalizeParentInput (VObj {[ "parent_feature_id" := VStr "f1" ]})
       required
     = Ok (Some {[ "feature" := VObj {[ "id" := VStr "f1" ]} ]})
  /\ (forall k1 k2 : parentKind,
        k1 <> k2 ->
        (forall k, Forall (fun v => nullish v = true \/ truthy v = true)
                     (parentSpellings args k)) ->
        Exists (fun v => truthy v = true) (parentSpellings args k1) ->
        Exists (fun v => truthy v = true) (parentSpellings args k2) ->
        normalizeParentInput args required
        = Raise (validationError
            "Provide only one parent type: product, component, or feature.")).
Proof.
  split; [|split; [|split; [|split]]].
  - intros k1 k2. apply normalizeParentInput_two_kinds.
  - unfold resolvesParent, resolvedParentId, normalizeParentInput.
    cbv zeta. intros Hnone. unfold parentCandidate.
    rewrite (Hnone Product), (Hnone Component), (Hnone Feature).
    reflexivity.
  - unfold resolvesParent, resolvedParentId, normalizeParentInput.
    cbv zeta. intros k Hk Hothers. unfold parentCandidate.
    destruct k.
    + rewrite Hk, (Hothers Component), (Hothers Feature) by discriminate.
      reflexivity.
    + rewrite Hk, (Hothers Product), (Hothers Feature) by discriminate.
      reflexivity.
    + rewrite Hk, (Hothers Product), (Hothers Component) by discriminate.
      reflexivity.
  - reflexivity.
  - intros k1 k2 Hne Hclean H1 H2.
    apply (normalizeParentInput_two_kinds args required k1 k2 Hne).
    + now apply resolvesParent_any_spelling.
    + now apply resolvesParent_any_spelling.
Qed.

Lemma dateTimeframeOfArgs_unfold (args : gmap string value) :
  dateTimeframeOfArgs args
  = let hasStartDate := provided (startDateOf args) in
    let hasEndDate := provided (endDateOf args) in
    let hasGranularity := provided (granularityOf args) in
    if negb hasStartDate && negb hasEndDate && negb hasGranularity
    then Ok None
    else if negb (Bool.eqb hasStartDate hasEndDate) then
      Raise (validationError
               "Timeframe requires both startDate and endDate when provided.")
    else
      Ok (Some (spreadIf hasGranularity "granularity" (granularityOf args)
                  (spreadIf hasEndDate "endDate" (endDateOf args)
                     (spreadIf hasStartDate "startDate" (startDateOf args)
                        emptyObj)))).
Proof.
  unfold dateTimeframeOfArgs, buildDateTimeframeInput, startDateOf,
    endDateOf, granularityOf.
  rewrite !prop_toObject.
  rewrite !field_insert_eq.
  rewrite !(field_insert_ne _ "granularity") by discriminate.
  rewrite !field_insert_eq.
  rewrite !(field_insert_ne _ "endDate") by discriminate.
  rewrite !field_insert_eq. reflexivity.
Qed.

(** C7.  For a date-range timeframe read from the flat aliases and the
    nested [timeframe] object: a start date without an end date, or an end
    date without a start date, is a validation error;  a granularity with
    neither date gives [{granularity}];  with none of the three the
    timeframe is left out ([undefined]).  A value is present when it is
    not [undefined], [null] or the empty string. *)
Theorem dateTimeframe_symmetric_dates (args : gmap string value) :
  (provided (startDateOf args) <> provided (endDateOf args) ->
   dateTimeframeOfArgs args
   = Raise (validationError
       "Timeframe requires both startDate and endDate when provided."))
  /\ (provided (startDateOf args) = false ->
      provided (endDateOf args) = false ->
      provided (granularityOf args) = true ->
      dateTimeframeOfArgs args
      = Ok (Some {[ "granularity" := granularityOf args ]}))
  /\ (provided (startDateOf args) = false ->
      provided (endDateOf args) = false ->
      provided (granularityOf args) = false ->
      dateTimeframeOfArgs args = Ok None)
  /\ isValidationError
       (dateTimeframeOfArgs {[ "start_date" := VStr "2024-01-01" ]})
  /\ dateTimeframeOfArgs {[ "granularity" := VStr "month" ]}
     = Ok (Some {[ "granularity" := VStr "month" ]}).
Proof.
  rewrite dateTimeframeOfArgs_unfold. cbv zeta.
  split; [|split; [|split; [|split]]].
  - intros Hne.
    destruct (provided (startDateOf args)), (provided (endDateOf args));
      try congruence; reflexivity.
  - intros -> -> ->. reflexivity.
  - intros -> -> ->. reflexivity.
  - eexists. vm_compute. reflexivity.
  - vm_compute. reflexivity.
Qed.

(* ===================================================================== *)
(** * Properties of the feature handlers *)
(* ===================================================================== *)

Lemma lookup_spreadIf_eq (c : bool) (k : string) (v : value)
    (o : gmap string value) :
  spreadIf c k v o !! k = if c then Some v else o !! k.
Proof. unfold spreadIf. destruct c; [apply lookup_insert_eq|reflexivity]. Qed.

Lemma lookup_spreadIf_ne (c : bool) (k k' : string) (v : value)
    (o : gmap string value) :
  k <> k' -> spreadIf c k v o !! k' = o !! k'.
Proof.
  intros Hne. unfold spreadIf. destruct c; [|reflexivity].
  now apply lookup_insert_ne.
Qed.

Lemma size_with_key (o : gmap string value) (k : string) (v : value) :
  o !! k = Some v -> (size o =? 0)%nat = false.
Proof.
  intros Hk. apply Nat.eqb_neq. intros Hsize.
  apply map_size_empty_iff in Hsize. subst o.
  rewrite lookup_empty in Hk. discriminate.
Qed.

Lemma fst_apiRequest {A : Type} (req : request) (replies : list reply)
    (k : value -> A) :
  fst (apiRequest req replies k) = [req].
Proof. destruct replies as [|[p|e] rest]; reflexivity. Qed.



Lemma resolveStatusFromArgs_ext (a b : gmap string value) :
  field a "status" = field b "status" ->
  field a "status_id" = field b "status_id" ->
  field a "status_name" = field b "status_name" ->
  resolveStatusFromArgs (VObj a) = resolveStatusFromArgs (VObj b).
Proof.
  intros Hs Hid Hname. unfold resolveStatusFromArgs. cbn [toObject].
  now rewrite Hs, Hid, Hname.
Qed.

Lemma normalizeParentInput_ext (a b : gmap string value) (required : bool) :
  field a "parent" = field b "parent" ->
  (forall k, field a (kindKey k) = field b (kindKey k)) ->
  (forall k, field a (kindKey k +:+ ".id") = field b (kindKey k +:+ ".id")) ->
  (forall k, field a (kindAlias k) = field b (kindAlias k)) ->
  normalizeParentInput (VObj a) required
  = normalizeParentInput (VObj b) required.
Proof.
  intros Hp Hn Hd Ha.
  assert (Hid : forall k, parentId a (toObject (field a "parent")) k
                          = parentId b (toObject (field b "parent")) k).
  { intros k. unfold parentId. now rewrite Hp, Hn, Hd, Ha. }
  unfold normalizeParentInput. cbn [toObject]. now rewrite !Hid.
Qed.

Lemma snd_apiRequest {A : Type} (req req' : request) (replies : list reply)
    (k : value -> A) :
  snd (apiRequest req replies k) = snd (apiRequest req' replies k).
Proof. destruct replies as [|[p|e] rest]; reflexivity. Qed.

Lemma updateData_fields (args : gmap string value)
    (status parent : option (gmap string value)) :
  let data := updateData args status parent in
  data !! "name"
  = (if defined (field args "name") then Some (field args "name") else None)
  /\ data !! "description"
     = (if defined (field args "description")
        then Some (field args "description") else None)
  /\ data !! "archived"
     = (if defined (field args "archived")
        then Some (VBool (truthy (field args "archived"))) else None)
  /\ data !! "owner"
     = (if defined (field args "owner_email")
        then Some (if truthy (field args "owner_email")
                   then VObj {[ "email" := field args "owner_email" ]}
                   else VNull)
        else None)
  /\ data !! "status" = VObj <$> status
  /\ data !! "parent" = VObj <$> parent
  /\ data !! "timeframe"
     = VObj <$> buildTimeframeInput (field args "timeframe")
  /\ (forall k, data !! k <> None ->
        In k [ "name"; "description"; "archived"; "owner"; "status";
               "parent"; "timeframe" ]).
Proof.
  cbv zeta. unfold updateData. cbv zeta.
  repeat split;
    repeat first
      [ rewrite lookup_spreadIf_eq
      | rewrite lookup_spreadIf_ne by discriminate ];
    try reflexivity.
  - destruct status; reflexivity.
  - destruct parent; reflexivity.
  - destruct (buildTimeframeInput _); reflexivity.
  - intros k Hk. cbn.
    destruct (String.eqb_spec "name" k); [tauto|].
    destruct (String.eqb_spec "description" k); [tauto|].
    destruct (String.eqb_spec "archived" k); [tauto|].
    destruct (String.eqb_spec "owner" k); [tauto|].
    destruct (String.eqb_spec "status" k); [tauto|].
    destruct (String.eqb_spec "parent" k); [tauto|].
    destruct (String.eqb_spec "timeframe" k); [tauto|].
    exfalso. apply Hk.
    rewrite !lookup_spreadIf_ne by assumption. apply lookup_empty.
Qed.

Lemma createData_archived (args status parent : gmap string value) :
  createData args status parent !! "archived"
  = (if defined (field args "archived")
     then Some (VBool (truthy (field args "archived"))) else None).
Proof.
  unfold createData. cbv zeta.
  rewrite !lookup_spreadIf_ne by discriminate.
  rewrite lookup_spreadIf_eq.
  rewrite !lookup_insert_ne by discriminate. reflexivity.
Qed.

Section HandlerFacts.
Context `{Engine}.

Lemma requestData_updateRequest (args data : gmap string value) :
  requestData (updateRequest args data) = Some data.
Proof. unfold requestData. cbn. now rewrite lookup_singleton_eq. Qed.

Lemma requestData_createRequest (data : gmap string value) :
  requestData (createRequest data) = Some data.
Proof. unfold requestData. cbn. now rewrite lookup_singleton_eq. Qed.


(** Every request [pbFeatureUpdate] issues is its PATCH request. *)
Lemma pbFeatureUpdate_requests (rawArgs : value) (replies : list reply)
    (req : request) :
  let args := toObject rawArgs in
  In req (fst (pbFeatureUpdate rawArgs replies)) ->
  exists status parent,
    resolveStatusFromArgs (VObj args) = Ok status
    /\ normalizeParentInput (VObj args) false = Ok parent
    /\ req = updateRequest args (updateData args status parent)
    /\ fst (pbFeatureUpdate rawArgs replies) = [req].
Proof.
  intros args. unfold pbFeatureUpdate. fold args.
  destruct (truthy (field args "id")); cbn [negb]; [|intros []].
  destruct (resolveStatusFromArgs (VObj args)) as [status|e]; [|intros []].
  destruct (normalizeParentInput (VObj args) false) as [parent|e];
    [|intros []].
  fold (updateData args status parent).
  fold (updateRequest args (updateData args status parent)).
  destruct (size _ =? 0)%nat; [intros []|].
  rewrite fst_apiRequest. intros [<-|[]].
  exists status, parent. auto.
Qed.

(** Every request [pbFeatureCreate] issues is its POST request. *)
Lemma pbFeatureCreate_requests (rawArgs : value) (replies : list reply)
    (req : request) :
  let args := toObject rawArgs in
  In req (fst (pbFeatureCreate rawArgs replies)) ->
  exists status parent,
    req = createRequest (createData args status parent)
    /\ fst (pbFeatureCreate rawArgs replies) = [req].
Proof.
  intros args. unfold pbFeatureCreate. fold args.
  destruct (negb (truthy (field args "name")) || _); [intros []|].
  destruct (resolveStatusFromArgs (VObj args)) as [[status|]|e];
    try (intros []).
  destruct (normalizeParentInput (VObj args) true) as [[parent|]|e];
    try (intros []).
  fold (createData args status parent).
  fold (createRequest (createData args status parent)).
  rewrite fst_apiRequest. intros [<-|[]].
  exists status, parent. auto.
Qed.



Lemma status_ignores_archived (args : gmap string value) (v w : value) :
  resolveStatusFromArgs (VObj (<["archived" := v]> args))
  = resolveStatusFromArgs (VObj (<["archived" := w]> args)).
Proof.
  apply resolveStatusFromArgs_ext;
    rewrite !field_insert_ne by discriminate; reflexivity.
Qed.

Lemma parent_ignores_archived (args : gmap string value) (v w : value)
    (required : bool) :
  normalizeParentInput (VObj (<["archived" := v]> args)) required
  = normalizeParentInput (VObj (<["archived" := w]> args)) required.
Proof.
  apply normalizeParentInput_ext; try intros [];
    rewrite !field_insert_ne by discriminate; reflexivity.
Qed.

(** The value of a present [archived] decides neither how a feature
    handler ends nor how many requests it issues. *)
Lemma pbFeatureCreate_archived_value (args : gmap string value)
    (v w : value) (replies : list reply) :
  snd (pbFeatureCreate (VObj (<["archived" := v]> args)) replies)
  = snd (pbFeatureCreate (VObj (<["archived" := w]> args)) replies)
  /\ length (fst (pbFeatureCreate (VObj (<["archived" := v]> args)) replies))
     = length (fst (pbFeatureCreate (VObj (<["archived" := w]> args))
                      replies)).
Proof.
  unfold pbFeatureCreate. cbn [toObject].
  rewrite !(field_insert_ne _ "archived" "name") by discriminate.
  rewrite !(field_insert_ne _ "archived" "description") by discriminate.
  destruct (negb (truthy (field args "name")) || _); [split; reflexivity|].
  rewrite (status_ignores_archived args v w).
  destruct (resolveStatusFromArgs _) as [[status|]|e];
    try (split; reflexivity).
  rewrite (parent_ignores_archived args v w).
  destruct (normalizeParentInput _ true) as [[parent|]|e];
    try (split; reflexivity).
  split; [apply snd_apiRequest|]. now rewrite !fst_apiRequest.
Qed.

Lemma pbFeatureUpdate_archived_value (args : gmap string value)
    (v w : value) (replies : list reply) :
  defined v = true -> defined w = true ->
  snd (pbFeatureUpdate (VObj (<["archived" := v]> args)) replies)
  = snd (pbFeatureUpdate (VObj (<["archived" := w]> args)) replies)
  /\ length (fst (pbFeatureUpdate (VObj (<["archived" := v]> args)) replies))
     = length (fst (pbFeatureUpdate (VObj (<["archived" := w]> args))
                      replies)).
Proof.
  intros Hv Hw. unfold pbFeatureUpdate. cbn [toObject].
  rewrite !(field_insert_ne _ "archived" "id") by discriminate.
  destruct (negb (truthy (field args "id"))); [split; reflexivity|].
  rewrite (status_ignores_archived args v w).
  destruct (resolveStatusFromArgs _) as [status|e];
    [|split; reflexivity].
  rewrite (parent_ignores_archived args v w).
  destruct (normalizeParentInput _ false) as [parent|e];
    [|split; reflexivity].
  fold (updateData (<["archived" := v]> args) status parent).
  fold (updateData (<["archived" := w]> args) status parent).
  assert (Hsize : forall u, defined u = true ->
    (size (updateData (<["archived" := u]> args) status parent) =? 0)%nat
    = false).
  { intros u Hu.
    pose proof (updateData_fields (<["archived" := u]> args) status parent)
      as Hf. cbv zeta in Hf. destruct Hf as (_ & _ & Ha & _).
    rewrite field_insert_eq, Hu in Ha. exact (size_with_key _ _ _ Ha). }
  rewrite (Hsize v Hv), (Hsize w Hw).
  split; [apply snd_apiRequest|]. now rewrite !fst_apiRequest.
Qed.

(** C10.  [pbFeatureCreate] and [pbFeatureUpdate] do not validate a
    present [archived]: every request they issue carries
    [archived: Boolean(value)], so a truthy value, the strings "false" and
    "0" among them, is sent as [true] and a falsy one as [false];  and
    whether and how the handler throws is the same for every present
    value, a boolean or not. *)
Theorem archived_is_coerced_not_validated (rawArgs : value)
    (replies : list reply) :
  let args := toObject rawArgs in
  let archived := field args "archived" in
  (forall req,
      In req (fst (pbFeatureCreate rawArgs replies)) ->
      exists data,
        requestData req = Some data
        /\ data !! "archived"
           = (if defined archived then Some (VBool (truthy archived))
              else None))
  /\ (forall req,
        In req (fst (pbFeatureUpdate rawArgs replies)) ->
        exists data,
          requestData req = Some data
          /\ data !! "archived"
             = (if defined archived then Some (VBool (truthy archived))
                else None))
  /\ (forall v b,
        defined v = true ->
        snd (pbFeatureCreate (VObj (<["archived" := v]> args)) replies)
        = snd (pbFeatureCreate (VObj (<["archived" := VBool b]> args))
                 replies)
        /\ snd (pbFeatureUpdate (VObj (<["archived" := v]> args)) replies)
           = snd (pbFeatureUpdate (VObj (<["archived" := VBool b]> args))
                    replies))
  /\ truthy (VStr "false") = true
  /\ truthy (VStr "0") = true.
Proof.
  intros args archived. split; [|split; [|split; [|split]]].
  - intros req Hreq.
    destruct (pbFeatureCreate_requests rawArgs replies req Hreq)
      as (status & parent & -> & _).
    fold args. eexists. split; [apply requestData_createRequest|].
    apply createData_archived.
  - intros req Hreq.
    destruct (pbFeatureUpdate_requests rawArgs replies req Hreq)
      as (status & parent & _ & _ & -> & _).
    fold args. eexists. split; [apply requestData_updateRequest|].
    pose proof (updateData_fields args status parent) as Hf. cbv zeta in Hf.
    tauto.
  - intros v b Hv. split.
    + apply pbFeatureCreate_archived_value.
    + now apply pbFeatureUpdate_archived_value.
  - reflexivity.
  - reflexivity.
Qed.
End HandlerFacts.

(* ===================================================================== *)
(** * Properties of the error classification *)
(* ===================================================================== *)

Lemma errorBody_asErrorResult (e : ProductboardApiError) :
  errorBody (asErrorResult (ApiError e)) !! "message"
  = Some (VStr (Err.message e))
  /\ errorBody (asErrorResult (ApiError e)) !! "retry_after_seconds"
     = match Err.retryAfter e with
       | Some n => if number_truthy n then Some (VNum n) else None
       | None => None
       end.
Proof.
  unfold errorBody, asErrorResult. cbv zeta. cbn [payload prop].
  unfold field. rewrite !lookup_singleton_eq.
  cbn [default from_option]. unfold id. cbn [toObject].
  split.
  - rewrite !lookup_spreadIf_ne by discriminate.
    apply lookup_singleton_eq.
  - rewrite lookup_spreadIf_ne by discriminate.
    rewrite lookup_spreadIf_eq.
    rewrite lookup_spreadIf_ne by discriminate.
    rewrite lookup_singleton_ne by discriminate.
    destruct (Err.retryAfter e) as [n|]; [|reflexivity].
    destruct (number_truthy n); reflexivity.
Qed.

Section ClassificationFacts.
Context `{Engine}.

(** A 429 carries the rate-limit message, whatever the payload says. *)
Lemma buildApiError_rate_limit (response : Resp.response) (payload : value)
    (fallbackText : option string) :
  Resp.status response = 429 ->
  Err.message (buildApiError response payload fallbackText)
  = RATE_LIMIT_MESSAGE
  /\ Err.status (buildApiError response payload fallbackText) = Some 429.
Proof. intros Hs. unfold buildApiError. rewrite Hs. split; reflexivity. Qed.

(** A response that is not [ok], a 429 among them, makes [apiRequest]
    throw the error [buildApiError] classifies. *)
Lemma apiRequest_receive_not_ok (response : Resp.response)
    (rawText : string) :
  Resp.ok response = false ->
  exists payload fallbackText,
    apiRequest_receive response rawText
    = Threw (ApiError (buildApiError response payload fallbackText)).
Proof.
  intros Hok. unfold apiRequest_receive. rewrite Hok. cbn [negb].
  eexists _, _. reflexivity.
Qed.

(** A [retry-after] header that reads as a finite number is attached to
    the error. *)
Lemma buildApiError_retryAfter (response : Resp.response) (payload : value)
    (fallbackText : option string) (h : string) (q : Q) :
  Resp.headers response !! "retry-after" = Some h ->
  h <> "" ->
  StringToNumber h = Finite q ->
  Err.retryAfter (buildApiError response payload fallbackText)
  = Some (Finite q).
Proof.
  intros Hh Hne Hq. unfold buildApiError. cbn [Err.retryAfter].
  rewrite Hh. destruct (String.eqb_spec h ""); [contradiction|].
  now rewrite Hq.
Qed.

(** The envelope shows the delay attached to a 429 unless it is zero. *)
Lemma retry_after_surfaced (response : Resp.response) (payload : value)
    (fallbackText : option string) (h : string) (q : Q) :
  Resp.headers response !! "retry-after" = Some h ->
  h <> "" ->
  StringToNumber h = Finite q ->
  errorBody (asErrorResult
               (ApiError (buildApiError response payload fallbackText)))
    !! "retry_after_seconds"
  = if Qeq_bool q 0 then None else Some (VNum (Finite q)).
Proof.
  intros Hh Hne Hq.
  rewrite (proj2 (errorBody_asErrorResult _)).
  rewrite (buildApiError_retryAfter _ _ _ h q Hh Hne Hq). cbn.
  destruct (Qeq_bool q 0); reflexivity.
Qed.

(** C9.  A 429 whose header is [retry-after: 3] gives the rate-limit
    message and [retry_after_seconds: 3] in the envelope.  With
    [retry-after: 0] the header still reads as a finite number and the
    error still carries it, but [asErrorResult] tests the delay for
    truthiness and leaves [retry_after_seconds] out of the envelope. *)
Theorem retry_after_zero_is_dropped (payload : value)
    (fallbackText : option string) :
  let three := buildApiError (retryResponse 429 "3") payload fallbackText in
  let zero := buildApiError (retryResponse 429 "0") payload fallbackText in
  Err.message three = RATE_LIMIT_MESSAGE
  /\ Err.retryAfter three = Some (Finite (inject_Z 3))
  /\ errorBody (asErrorResult (ApiError three)) !! "retry_after_seconds"
     = Some (VInt 3)
  /\ Err.message zero = RATE_LIMIT_MESSAGE
  /\ Err.retryAfter zero = Some (Finite (inject_Z 0))
  /\ errorBody (asErrorResult (ApiError zero)) !! "retry_after_seconds"
     = None.
Proof.
  cbv zeta.
  assert (H3 : Resp.headers (retryResponse 429 "3") !! "retry-after"
               = Some "3") by apply lookup_singleton_eq.
  assert (H0 : Resp.headers (retryResponse 429 "0") !! "retry-after"
               = Some "0") by apply lookup_singleton_eq.
  split; [apply buildApiError_rate_limit; reflexivity|].
  split; [apply (buildApiError_retryAfter _ _ _ "3");
          [exact H3|discriminate|reflexivity]|].
  split; [rewrite (retry_after_surfaced _ _ _ "3" (inject_Z 3));
          [reflexivity|exact H3|discriminate|reflexivity]|].
  split; [apply buildApiError_rate_limit; reflexivity|].
  split; [apply (buildApiError_retryAfter _ _ _ "0");
          [exact H0|discriminate|reflexivity]|].
  rewrite (retry_after_surfaced _ _ _ "0" (inject_Z 0));
    [reflexivity|exact H0|discriminate|reflexivity].
Qed.
End ClassificationFacts.

(* ===================================================================== *)
(** * Properties of the filters *)
(* ===================================================================== *)

Lemma objectCount_lookup (m : gmap string value) (k : string) (x : value) :
  m !! k = Some x -> (objectCount x < objectCount (VObj m))%nat.
Proof.
  intros Hk. cbn [objectCount].
  rewrite (map_fold_delete_L _ _ k x m); [lia| |exact Hk].
  intros. lia.
Qed.

(** Induction on the nesting of objects: to prove [P] of a value, assume
    it of every entry when the value is an object. *)
Lemma value_nesting_ind (P : value -> Prop) :
  (forall v,
      (forall m k x, v = VObj m -> m !! k = Some x -> P x) -> P v) ->
  forall v, P v.
Proof.
  intros Hstep v. remember (objectCount v) as n eqn:Hn.
  revert v Hn. induction n as [n IH] using lt_wf_ind. intros v ->.
  apply Hstep. intros m k x -> Hk.
  apply (IH (objectCount x)); [|reflexivity].
  now apply (objectCount_lookup m k).
Qed.

Lemma append_cancel (a b c : string) : a +:+ b = a +:+ c -> b = c.
Proof.
  induction a as [|x a IH]; [auto|].
  intros Heq. apply IH.
  change (String x (a +:+ b) = String x (a +:+ c)) in Heq. congruence.
Qed.

Lemma dotted_inj (prefix i j : string) :
  dotted prefix i = dotted prefix j -> i = j.
Proof.
  unfold dotted. intros Heq. apply append_cancel in Heq.
  apply (append_cancel "." i j Heq).
Qed.

Lemma hasDot_dotted (prefix key : string) : hasDot (dotted prefix key) = true.
Proof.
  unfold dotted. induction prefix as [|c prefix IH]; [reflexivity|].
  change (hasDot (String c (prefix +:+ "." +:+ key)) = true).
  cbn [hasDot]. rewrite IH. apply orb_true_r.
Qed.

(** A dotted key is never the name [__proto__]. *)
Lemma dotted_not_proto (prefix key : string) :
  String.eqb (dotted prefix key) "__proto__" = false.
Proof.
  destruct (String.eqb_spec (dotted prefix key) "__proto__") as [Heq|];
    [|reflexivity].
  pose proof (hasDot_dotted prefix key) as Hdot. rewrite Heq in Hdot.
  discriminate.
Qed.

Lemma scalar_not_nullish (v : value) : isScalar v = true -> nullish v = false.
Proof. destruct v; try discriminate; reflexivity. Qed.

(** An assignment writes at most the key it names. *)
Lemma assigned_lookup_Some (key q : string) (v x : value) :
  assigned key v !! q = Some x ->
  q = key /\ x = v /\ key <> "__proto__".
Proof.
  unfold assigned. destruct (String.eqb_spec key "__proto__") as [->|Hne].
  - rewrite lookup_empty. discriminate.
  - intros Hq. apply lookup_singleton_Some in Hq as [<- <-]. auto.
Qed.

Lemma assigned_lookup (key : string) (v : value) :
  assigned key v !! key
  = if String.eqb key "__proto__" then None else Some v.
Proof.
  unfold assigned. destruct (String.eqb key "__proto__").
  - apply lookup_empty.
  - apply lookup_singleton_eq.
Qed.

(** The turns of a loop, laid over one another. *)
Lemma takeTurns_cons (turn : string -> gmap string value)
    (out : gmap string value) (key : string) (keys : list string) :
  takeTurns turn out (key :: keys) = takeTurns turn (turn key ∪ out) keys.
Proof. reflexivity. Qed.

Lemma takeTurns_ext (turn turn' : string -> gmap string value)
    (keys : list string) :
  (forall key, turn key = turn' key) ->
  forall out, takeTurns turn out keys = takeTurns turn' out keys.
Proof.
  intros Hext. induction keys as [|key keys IH]; intros out; [reflexivity|].
  rewrite !takeTurns_cons, Hext. apply IH.
Qed.

Lemma takeTurns_lookup_Some (turn : string -> gmap string value)
    (keys : list string) (q : string) (x : value) :
  forall out,
    takeTurns turn out keys !! q = Some x ->
    (exists key, key ∈ keys /\ turn key !! q = Some x) \/ out !! q = Some x.
Proof.
  induction keys as [|key keys IH]; intros out Hq; [now right|].
  rewrite takeTurns_cons in Hq.
  destruct (IH _ Hq) as [(key' & Hin & Hturn)|Hout].
  - left. exists key'. split; [now apply list_elem_of_further|exact Hturn].
  - apply lookup_union_Some_raw in Hout as [Hturn|[_ Hout]].
    + left. exists key. split; [apply list_elem_of_here|exact Hturn].
    + now right.
Qed.

Lemma takeTurns_lookup_None (turn : string -> gmap string value)
    (keys : list string) (q : string) :
  (forall key, key ∈ keys -> turn key !! q = None) ->
  forall out, takeTurns turn out keys !! q = out !! q.
Proof.
  induction keys as [|key keys IH]; intros Hnone out; [reflexivity|].
  rewrite takeTurns_cons, IH.
  - apply lookup_union_r. apply Hnone, list_elem_of_here.
  - intros key' Hin. apply Hnone. now apply list_elem_of_further.
Qed.

Lemma takeTurns_lookup_unique (turn : string -> gmap string value)
    (keys : list string) (key q : string) (x : value) :
  key ∈ keys ->
  turn key !! q = Some x ->
  (forall key', key' ∈ keys -> key' <> key -> turn key' !! q = None) ->
  forall out, takeTurns turn out keys !! q = Some x.
Proof.
  induction keys as [|k keys IH]; intros Hin Hturn Hothers out.
  - now apply elem_of_nil in Hin.
  - rewrite takeTurns_cons.
    destruct (decide (key ∈ keys)) as [Hlater|Hlast].
    + apply IH; [exact Hlater|exact Hturn|].
      intros key' Hin' Hne. apply Hothers; [|exact Hne].
      now apply list_elem_of_further.
    + apply elem_of_cons in Hin as [->|Hin]; [|contradiction].
      rewrite takeTurns_lookup_None.
      * apply lookup_union_Some_raw. now left.
      * intros key' Hin'. apply Hothers.
        -- now apply list_elem_of_further.
        -- intros ->. contradiction.
Qed.

(** Turns that each write under a key of their own, [own key], do not
    overwrite one another. *)
Lemma takeTurns_own_keys (own : string -> string)
    (turn : string -> gmap string value) (keys : list string) :
  (forall a b, own a = own b -> a = b) ->
  (forall key q x, turn key !! q = Some x -> q = own key) ->
  (forall j,
      takeTurns turn emptyObj keys !! own j
      = if decide (j ∈ keys) then turn j !! own j else None)
  /\ (forall q x,
        takeTurns turn emptyObj keys !! q = Some x ->
        exists j, j ∈ keys /\ q = own j /\ turn j !! q = Some x).
Proof.
  intros Hinj Hown. split.
  - intros j.
    assert (Hothers : forall key', key' <> j -> turn key' !! own j = None).
    { intros key' Hne. destruct (turn key' !! own j) as [x|] eqn:Hx;
        [|reflexivity].
      apply Hown, Hinj in Hx. congruence. }
    destruct (decide (j ∈ keys)) as [Hin|Hout].
    + destruct (turn j !! own j) as [x|] eqn:Hx.
      * apply (takeTurns_lookup_unique turn keys j); auto.
      * rewrite takeTurns_lookup_None; [apply lookup_empty|].
        intros key' _. destruct (decide (key' = j)) as [->|Hne];
          [exact Hx|now apply Hothers].
    + rewrite takeTurns_lookup_None; [apply lookup_empty|].
      intros key' Hin'. apply Hothers. intros ->. contradiction.
  - intros q x Hq. apply takeTurns_lookup_Some in Hq as [Hq|Hq].
    + destruct Hq as (j & Hin & Hturn). exists j.
      split; [exact Hin|]. split; [now apply (Hown j q x)|exact Hturn].
    + unfold emptyObj in Hq. rewrite lookup_empty in Hq. discriminate.
Qed.

(** The first pass of [flattenFilters]: the turn of every entry, under
    its key. *)
Lemma turns_lookup (turn : string -> value -> gmap string value)
    (input : gmap string value) (key : string) :
  map_fold (fun key raw turns => <[key := turn key raw]> turns)
    (∅ : gmap string (gmap string value)) input !! key
  = turn key <$> input !! key.
Proof.
  apply (map_fold_weak_ind
           (fun (r : gmap string (gmap string value)) m' =>
              r !! key = turn key <$> m' !! key)).
  - now rewrite !lookup_empty.
  - intros i x m' r Hi Hr. destruct (decide (i = key)) as [->|Hne].
    + now rewrite !lookup_insert_eq.
    + now rewrite !lookup_insert_ne.
Qed.

Section FilterFacts.
Context `{Printer} `{KeyOrder}.

(** [Object.keys] lists the keys of the object, each once. *)
Lemma Object_keys_spec (path : list string) (input : gmap string value)
    (key : string) :
  key ∈ Object_keys path input <-> is_Some (input !! key).
Proof.
  unfold Object_keys. rewrite merge_sort_Permutation.
  rewrite list_elem_of_In, in_map_iff. split.
  - intros ([k x] & <- & Hin). apply list_elem_of_In in Hin.
    apply elem_of_map_to_list in Hin. now exists x.
  - intros [x Hx]. exists (key, x). split; [reflexivity|].
    apply list_elem_of_In. now apply elem_of_map_to_list.
Qed.

Lemma Object_keys_singleton (path : list string) (key : string)
    (x : value) :
  Object_keys path {[ key := x ]} = [key].
Proof. unfold Object_keys. now rewrite map_to_list_singleton. Qed.

(** [flattenFilters] of an object: the turns of its entries, in the order
    of [Object.keys]. *)
Lemma flattenFilters_object (path : list string)
    (input : gmap string value) (prefix : string) :
  flattenFilters_at path (VObj input) prefix
  = takeTurns
      (fun key =>
         default ∅ (flattenTurn path prefix key <$> input !! key))
      emptyObj (Object_keys path input).
Proof.
  change (flattenFilters_at path (VObj input) prefix)
    with (takeTurns
            (fun key =>
               default ∅
                 (map_fold
                    (fun key raw turns =>
                       <[key := flattenTurn path prefix key raw]> turns)
                    (∅ : gmap string (gmap string value)) input !! key))
            emptyObj (Object_keys path input)).
  apply takeTurns_ext. intros key. now rewrite turns_lookup.
Qed.

Lemma flattenFilters_other (path : list string) (v : value)
    (prefix : string) :
  (forall input, v <> VObj input) ->
  flattenFilters_at path v prefix = emptyObj.
Proof. destruct v; try reflexivity. intros Hv. now destruct (Hv m). Qed.

(** What the turn of an entry writes. *)
Lemma turn_lookup_Some (path : list string) (prefix : string)
    (input : gmap string value) (key q : string) (x : value) :
  default ∅ (flattenTurn path prefix key <$> input !! key) !! q = Some x ->
  exists raw,
    input !! key = Some raw /\ flattenTurn path prefix key raw !! q = Some x.
Proof.
  destruct (input !! key) as [raw|]; cbn.
  - intros Hq. now exists raw.
  - rewrite lookup_empty. discriminate.
Qed.

Lemma flattenFilters_is_flat_aux (filters : value) :
  forall (path : list string) (prefix : string),
    map_Forall (fun _ x => isScalar x = true)
      (flattenFilters_at path filters prefix).
Proof.
  induction filters as [v IH] using value_nesting_ind.
  intros path prefix. destruct v as [| | | | | |m];
    try (intros k x Hk; simpl in Hk; unfold emptyObj in Hk;
         rewrite lookup_empty in Hk; discriminate).
  rewrite flattenFilters_object. intros q x Hq.
  apply takeTurns_lookup_Some in Hq as [(key & _ & Hq)|Hq].
  2:{ unfold emptyObj in Hq. rewrite lookup_empty in Hq. discriminate. }
  apply turn_lookup_Some in Hq as (raw & Hraw & Hq).
  unfold flattenTurn in Hq. cbv zeta in Hq.
  destruct raw as [| |b|n|s|l|inner];
    try (rewrite lookup_empty in Hq; discriminate);
    try (apply assigned_lookup_Some in Hq as (_ & -> & _); reflexivity).
  exact (IH m key (VObj inner) eq_refl Hraw _ _ q x Hq).
Qed.

(** No entry of the flattened map is called [__proto__]: what
    [Object.assign] copies from a nested object are plain properties. *)
Lemma flattenFilters_no_proto (filters : value) :
  forall (path : list string) (prefix : string),
    flattenFilters_at path filters prefix !! "__proto__" = None.
Proof.
  induction filters as [v IH] using value_nesting_ind.
  intros path prefix. destruct v as [| | | | | |m];
    try (simpl; unfold emptyObj; apply lookup_empty).
  rewrite flattenFilters_object.
  rewrite takeTurns_lookup_None; [unfold emptyObj; apply lookup_empty|].
  intros key _.
  destruct (default ∅ (flattenTurn path prefix key <$> m !! key)
              !! "__proto__") as [x|] eqn:Hq; [|reflexivity].
  apply turn_lookup_Some in Hq as (raw & Hraw & Hq).
  unfold flattenTurn in Hq. cbv zeta in Hq.
  destruct raw as [| |b|n|s|l|inner];
    try (rewrite lookup_empty in Hq; discriminate);
    try (apply assigned_lookup_Some in Hq as (<- & _ & Hne); congruence).
  rewrite (IH m key (VObj inner) eq_refl Hraw) in Hq. discriminate.
Qed.

(** X1.  Whatever the filters and the prefix, every value of the flattened
    map is a boolean, a number or a string: no [undefined], no [null], no
    array and no object is left. *)
Theorem flattenFilters_is_flat (filters : value) (prefix : string) :
  map_Forall (fun _ x => isScalar x = true) (flattenFilters filters prefix).
Proof. apply flattenFilters_is_flat_aux. Qed.

(** The turn of a flat entry writes the entry under its key, unless it is
    [undefined] or [null] or the key is [__proto__]. *)
Lemma flat_turn (path : list string) (prefix key : string) (raw : value) :
  isScalar raw = true \/ nullish raw = true ->
  flattenTurn path prefix key raw
  = if nullish raw then ∅
    else assigned (if String.eqb prefix "" then key
                   else prefix +:+ "." +:+ key) raw.
Proof.
  intros [Hs|Hn]; destruct raw; try discriminate; reflexivity.
Qed.

(** X2.  Filters that are flat already (no array and no object among the
    values) come out as they are, less the entries that are [undefined] or
    [null] and less an entry called [__proto__], which the assignment to
    [out] does not write; dotted keys are kept as written. *)
Theorem flattenFilters_keeps_flat_filters (input : gmap string value) :
  (forall k x, input !! k = Some x ->
     isScalar x = true \/ nullish x = true) ->
  flattenFilters (VObj input) ""
  = filter (fun entry => nullish (snd entry) = false
                         /\ fst entry <> "__proto__") input.
Proof.
  intros Hflat. unfold flattenFilters. rewrite flattenFilters_object.
  set (turn := fun key : string =>
         default ∅ (flattenTurn [] "" key <$> input !! key)).
  assert (Hown : forall key q x, turn key !! q = Some x -> q = id key).
  { intros key q x Hq. apply turn_lookup_Some in Hq as (raw & Hraw & Hq).
    rewrite (flat_turn _ _ _ _ (Hflat key raw Hraw)) in Hq.
    destruct (nullish raw); [rewrite lookup_empty in Hq; discriminate|].
    now apply assigned_lookup_Some in Hq as (-> & _ & _). }
  destruct (takeTurns_own_keys id turn (Object_keys [] input)
              (fun a b Heq => Heq) Hown) as [Hlook _].
  apply map_eq. intros q. change q with (id q) at 1. rewrite Hlook.
  unfold id, turn.
  destruct (input !! q) as [raw|] eqn:Hraw.
  - destruct (decide (q ∈ Object_keys [] input)) as [_|Hout].
    2:{ exfalso. apply Hout. apply Object_keys_spec. now exists raw. }
    cbn. rewrite (flat_turn _ _ _ _ (Hflat q raw Hraw)). cbn.
    destruct (nullish raw) eqn:Hn.
    + rewrite lookup_empty. symmetry. apply map_lookup_filter_None.
      right. intros x Hx [Hnull _]. cbn in Hnull. congruence.
    + rewrite assigned_lookup.
      destruct (String.eqb_spec q "__proto__") as [->|Hne]; symmetry.
      * apply map_lookup_filter_None. right. intros x Hx [_ Hkey].
        now apply Hkey.
      * apply map_lookup_filter_Some. split; [exact Hraw|].
        split; [exact Hn|exact Hne].
  - assert (Hnone : filter (fun entry : string * value =>
                              nullish (snd entry) = false
                              /\ fst entry <> "__proto__") input !! q
                    = None).
    { apply map_lookup_filter_None. now left. }
    rewrite Hnone. destruct (decide (q ∈ Object_keys [] input)); cbn;
      [apply lookup_empty|reflexivity].
Qed.

(** X3.  What the filters contribute to the URL: their flattened entries, less
    the empty strings. *)
Theorem flattenFilters_reach_the_url (filters : value) (k : string)
    (x : value) :
  applyQueryParams (flattenFilters filters "") !! k = Some x
  <-> flattenFilters filters "" !! k = Some x /\ x <> VStr "".
Proof.
  unfold applyQueryParams. rewrite map_lookup_filter_Some. cbn.
  split; intros [Hk Hx]; (split; [exact Hk|]).
  - intros ->. discriminate.
  - pose proof (flattenFilters_is_flat_aux filters [] "" k x Hk) as Hs.
    cbn in Hs. destruct x as [| | | |s| |]; try discriminate; try reflexivity.
    cbn. destruct (String.eqb_spec s ""); [subst; congruence|reflexivity].
Qed.

(** Flat filters under a prefix: each entry moves to its dotted key. *)
Lemma flattenFilters_prefixed_flat (path : list string) (prefix : string)
    (input : gmap string value) :
  prefix <> "" ->
  (forall k x, input !! k = Some x ->
     isScalar x = true \/ nullish x = true) ->
  (forall j,
      flattenFilters_at path (VObj input) prefix !! dotted prefix j
      = match input !! j with
        | Some x => if nullish x then None else Some x
        | None => None
        end)
  /\ (forall key x,
        flattenFilters_at path (VObj input) prefix !! key = Some x ->
        exists j, key = dotted prefix j /\ input !! j = Some x).
Proof.
  intros Hp Hflat. rewrite flattenFilters_object.
  set (turn := fun key : string =>
         default ∅ (flattenTurn path prefix key <$> input !! key)).
  assert (Hturn : forall key raw,
            input !! key = Some raw ->
            turn key = if nullish raw then ∅
                       else {[ dotted prefix key := raw ]}).
  { intros key raw Hraw. unfold turn. rewrite Hraw. cbn.
    rewrite (flat_turn _ _ _ _ (Hflat key raw Hraw)).
    destruct (nullish raw); [reflexivity|].
    destruct (String.eqb_spec prefix ""); [contradiction|].
    fold (dotted prefix key). unfold assigned.
    now rewrite dotted_not_proto. }
  assert (Hown : forall key q x,
            turn key !! q = Some x -> q = dotted prefix key).
  { intros key q x Hq. pose proof Hq as Hq'.
    apply turn_lookup_Some in Hq' as (raw & Hraw & _).
    rewrite (Hturn key raw Hraw) in Hq.
    destruct (nullish raw); [rewrite lookup_empty in Hq; discriminate|].
    now apply lookup_singleton_Some in Hq as [<- _]. }
  destruct (takeTurns_own_keys (dotted prefix) turn (Object_keys path input)
              (dotted_inj prefix) Hown) as [Hlook Hkeys].
  split.
  - intros j. rewrite Hlook. destruct (input !! j) as [raw|] eqn:Hraw.
    + destruct (decide (j ∈ Object_keys path input)) as [_|Hout].
      2:{ exfalso. apply Hout. apply Object_keys_spec. now exists raw. }
      rewrite (Hturn j raw Hraw). destruct (nullish raw).
      * apply lookup_empty.
      * apply lookup_singleton_eq.
    + destruct (decide (j ∈ Object_keys path input)); [|reflexivity].
      unfold turn. rewrite Hraw. apply lookup_empty.
  - intros key x Hq. destruct (Hkeys key x Hq) as (j & _ & -> & Hj).
    exists j. split; [reflexivity|].
    pose proof Hj as Hj'.
    apply turn_lookup_Some in Hj' as (raw & Hraw & _).
    rewrite (Hturn j raw Hraw) in Hj.
    destruct (nullish raw); [rewrite lookup_empty in Hj; discriminate|].
    apply lookup_singleton_Some in Hj as [_ <-]. exact Hraw.
Qed.

(** X4.  A nested object of flat filters is spread under its key: the filter
    [{k: {j: x}}] becomes the entry ["k.j": x], entries that are
    [undefined] or [null] are dropped, and nothing else comes out. *)
Theorem flattenFilters_nests_under_key (k : string)
    (inner : gmap string value) :
  k <> "" ->
  (forall j x, inner !! j = Some x ->
     isScalar x = true \/ nullish x = true) ->
  (forall j,
      flattenFilters (VObj {[ k := VObj inner ]}) "" !! dotted k j
      = match inner !! j with
        | Some x => if nullish x then None else Some x
        | None => None
        end)
  /\ (forall key x,
        flattenFilters (VObj {[ k := VObj inner ]}) "" !! key = Some x ->
        exists j, key = dotted k j /\ inner !! j = Some x).
Proof.
  intros Hk Hflat.
  assert (Hone : flattenFilters (VObj {[ k := VObj inner ]}) ""
                 = flattenFilters_at [k] (VObj inner) k).
  { unfold flattenFilters.
    rewrite (flattenFilters_object [] {[ k := VObj inner ]}).
    rewrite Object_keys_singleton. unfold takeTurns. cbn [foldl].
    rewrite lookup_singleton_eq. cbn.
    unfold emptyObj. apply (right_id_L ∅ (∪)). }
  rewrite Hone. now apply flattenFilters_prefixed_flat.
Qed.
End FilterFacts.

(* ===================================================================== *)
(** * Properties of the scalar inputs *)
(* ===================================================================== *)

(** X5.  [toBooleanInput] accepts exactly the booleans, the numbers 1 and
    0 and the strings "1", "true", "0" and "false".  For these it returns
    [Boolean(value)], except that the strings "0" and "false" read as
    [false]; for every other value it throws the validation error
    "Invalid boolean for <field>.". *)
Theorem toBooleanInput_reads_text (v : value) (fieldName : string) :
  let accepted :=
    (exists b, v = VBool b)
    \/ (exists q, v = VNum (Finite q) /\ (q == 1 \/ q == 0)%Q)
    \/ In v [VStr "1"; VStr "true"; VStr "0"; VStr "false"] in
  (accepted ->
   toBooleanInput v fieldName
   = Ok (if isString v "0" || isString v "false" then false
         else truthy v))
  /\ (~ accepted ->
      toBooleanInput v fieldName
      = Raise (validationError
                 ("Invalid boolean for " +:+ fieldName +:+ "."))).
Proof.
  cbv zeta. unfold toBooleanInput.
  destruct v as [| |c|[| | |q]|s|l|m]; cbn [is_boolean isNumber isString
    truthy number_truthy orb];
    try (split; [intros [[b Hb]|[(q & Hq & _)|Hin]];
                   [discriminate|discriminate|
                    cbn in Hin; intuition discriminate]
                |reflexivity]).
  - split; [reflexivity|]. intros Hno. exfalso. apply Hno. left. now exists c.
  - change (inject_Z 1) with 1%Q. change (inject_Z 0) with 0%Q.
    destruct (Qeq_bool q 1) eqn:H1; cbn [orb].
    + split; [|intros Hno; exfalso; apply Hno; right; left; exists q;
                split; [reflexivity|left; now apply Qeq_bool_iff]].
      intros _. destruct (Qeq_bool q 0) eqn:H0; [|reflexivity].
      apply Qeq_bool_iff in H0, H1. rewrite H0 in H1. discriminate.
    + destruct (Qeq_bool q 0) eqn:H0; cbn [orb negb].
      * split; [reflexivity|]. intros Hno. exfalso. apply Hno. right. left.
        exists q. split; [reflexivity|right; now apply Qeq_bool_iff].
      * split; [|reflexivity].
        intros [[b Hb]|[(q' & [= <-] & [Hq|Hq])|Hin]].
        -- discriminate.
        -- apply Qeq_bool_iff in Hq. congruence.
        -- apply Qeq_bool_iff in Hq. congruence.
        -- cbn in Hin. intuition discriminate.
  - destruct (String.eqb_spec s "1") as [->|N1];
      [split; [reflexivity|intros Hno; exfalso; apply Hno; right; right;
                          cbn; auto]|].
    destruct (String.eqb_spec s "true") as [->|Nt];
      [split; [reflexivity|intros Hno; exfalso; apply Hno; right; right;
                          cbn; auto]|].
    destruct (String.eqb_spec s "0") as [->|N0];
      [split; [reflexivity|intros Hno; exfalso; apply Hno; right; right;
                          cbn; auto]|].
    destruct (String.eqb_spec s "false") as [->|Nf];
      [split; [reflexivity|intros Hno; exfalso; apply Hno; right; right;
                          cbn; auto]|].
    cbn [orb]. split; [|reflexivity].
    intros [[b Hb]|[(q & Hq & _)|Hin]]; [discriminate|discriminate|].
    cbn in Hin. intuition congruence.
Qed.



Section ProgressFacts.
Context `{Engine}.



End ProgressFacts.

(* ===================================================================== *)
(** * Properties of the string lists *)
(* ===================================================================== *)

Lemma nonEmptyStrings_spec (l : list string) :
  Forall (fun s => s <> "") (nonEmptyStrings l).
Proof.
  unfold nonEmptyStrings. apply List.Forall_forall. intros s Hs.
  apply filter_In in Hs as [_ Hs].
  destruct (String.eqb_spec s ""); [discriminate|assumption].
Qed.

Lemma nonEmptyStrings_id (l : list string) :
  Forall (fun s => s <> "") l -> nonEmptyStrings l = l.
Proof.
  unfold nonEmptyStrings. induction 1 as [|s l Hs _ IH]; [reflexivity|].
  cbn. destruct (String.eqb_spec s ""); [contradiction|]. cbn.
  now rewrite IH.
Qed.

Lemma split_comma_not_nil (s : string) : split_comma s <> [].
Proof.
  induction s as [|c s IH]; cbn [split_comma]; [discriminate|].
  destruct (String.eqb (String c "") ","); [discriminate|].
  destruct (split_comma s); [contradiction|discriminate].
Qed.

Lemma commaFree_cons (c : Ascii.ascii) (s : string) :
  commaFree (String c s)
  = negb (String.eqb (String c "") ",") && commaFree s.
Proof. reflexivity. Qed.

(** Splitting a piece without a comma followed by the rest. *)
Lemma split_comma_piece (piece rest : string) :
  commaFree piece = true ->
  split_comma (piece +:+ rest)
  = match split_comma rest with
    | first :: others => (piece +:+ first) :: others
    | [] => [piece]
    end.
Proof.
  induction piece as [|c piece IH]; intros Hfree.
  - change ("" +:+ rest) with rest.
    destruct (split_comma rest) eqn:Hr; [|reflexivity].
    now destruct (split_comma_not_nil rest).
  - rewrite commaFree_cons in Hfree.
    apply andb_true_iff in Hfree as [Hc Hfree].
    apply negb_true_iff in Hc.
    change (String c piece +:+ rest) with (String c (piece +:+ rest)).
    cbn [split_comma]. rewrite Hc, (IH Hfree).
    destruct (split_comma rest); reflexivity.
Qed.

Lemma split_comma_free (piece : string) :
  commaFree piece = true -> split_comma piece = [piece].
Proof.
  induction piece as [|c piece IH]; intros Hfree; [reflexivity|].
  rewrite commaFree_cons in Hfree.
  apply andb_true_iff in Hfree as [Hc Hfree].
  apply negb_true_iff in Hc. cbn [split_comma].
  now rewrite Hc, (IH Hfree).
Qed.

Lemma split_comma_separator (rest : string) :
  split_comma ("," +:+ rest) = "" :: split_comma rest.
Proof. reflexivity. Qed.

(** Splitting at the commas undoes joining with commas. *)
Lemma split_comma_join (l : list string) :
  l <> [] ->
  Forall (fun s => commaFree s = true) l ->
  split_comma (String.concat "," l) = l.
Proof.
  intros Hne Hall. induction Hall as [|s l Hs Hall IH]; [contradiction|].
  destruct l as [|t l].
  - cbn. now apply split_comma_free.
  - change (String.concat "," (s :: t :: l))
      with (s +:+ ("," +:+ String.concat "," (t :: l))).
    rewrite (split_comma_piece s _ Hs), split_comma_separator.
    rewrite IH by discriminate.
    f_equal. clear. induction s as [|c s IHs]; [reflexivity|].
    change (String c s +:+ "") with (String c (s +:+ "")).
    now rewrite IHs.
Qed.

Section StringListFacts.
Context `{Engine} `{Printer}.

(** X7.  [normalizeStringArray] answers for arrays and strings only, and what
    it returns holds no empty string.  It undoes a join with commas:
    joining entries that are trimmed, not empty and free of commas, and
    normalizing the result, gives the entries back in order. *)
Theorem normalizeStringArray_round_trip :
  (forall v l,
      normalizeStringArray v = Some l ->
      Forall (fun s => s <> "") l
      /\ ((exists arr, v = VArr arr /\ (length l <= length arr)%nat)
          \/ (exists s, v = VStr s
                        /\ (length l <= length (split_comma s))%nat)))
  /\ (forall l,
        l <> [] ->
        Forall (fun s => commaFree s = true /\ s <> ""
                         /\ String_trim s = s) l ->
        normalizeStringArray (VStr (String.concat "," l)) = Some l).
Proof.
  split.
  - intros v l Hn. unfold normalizeStringArray in Hn.
    destruct v as [| | | |s|arr|]; try discriminate;
      injection Hn as <-; (split; [apply nonEmptyStrings_spec|]).
    + right. exists s. split; [reflexivity|].
      unfold nonEmptyStrings.
      etransitivity; [apply List.filter_length_le|].
      now rewrite length_map.
    + left. exists arr. split; [reflexivity|].
      unfold nonEmptyStrings.
      etransitivity; [apply List.filter_length_le|].
      now rewrite length_map.
  - intros l Hne Hall. unfold normalizeStringArray.
    rewrite split_comma_join; [|exact Hne|].
    2:{ eapply List.Forall_impl; [|exact Hall]. cbn. tauto. }
    f_equal.
    assert (Htrim : map String_trim l = l).
    { clear Hne. induction Hall as [|s l (_ & _ & Hs) _ IH]; [reflexivity|].
      cbn. now rewrite Hs, IH. }
    rewrite Htrim. apply nonEmptyStrings_id.
    eapply List.Forall_impl; [|exact Hall]. cbn. tauto.
Qed.

End StringListFacts.

(* ===================================================================== *)
(** * Properties of more handlers *)
(* ===================================================================== *)

Lemma fst_issued {A : Type} (r : request) (k : run A) :
  fst (issued r k) = r :: fst k.
Proof. reflexivity. Qed.


(** X8.  [pbFeatureReleaseAssign] issues at most one request, and only with a
    feature id, a release id and an [assigned] that [toBooleanInput]
    accepts: the request is a PUT carrying the two ids in its query and
    exactly [{data: {assigned: b}}], [b] a boolean, in its body. *)
Theorem pbFeatureReleaseAssign_sends_a_boolean (rawArgs : value)
    (replies : list reply) (req : request) :
  let args := toObject rawArgs in
  let featureId :=
    field args "feature_id" ?? prop (field args "feature") "id"
    ?? field args "feature.id" in
  let releaseId :=
    field args "release_id" ?? prop (field args "release") "id"
    ?? field args "release.id" in
  In req (fst (pbFeatureReleaseAssign rawArgs replies)) ->
  exists b : bool,
    toBooleanInput (field args "assigned") "assigned" = Ok b
    /\ truthy featureId = true /\ truthy releaseId = true
    /\ fst (pbFeatureReleaseAssign rawArgs replies) = [req]
    /\ Req.method req = "PUT"
    /\ Req.query req
       = Some (<["release.id" := releaseId]> {[ "feature.id" := featureId ]})
    /\ Req.body req
       = Some (VObj {[ "data" := VObj {[ "assigned" := VBool b ]} ]}).
Proof.
  intros args featureId releaseId. unfold pbFeatureReleaseAssign.
  fold args. fold featureId. fold releaseId.
  destruct (truthy featureId); cbn [negb]; [|intros []].
  destruct (truthy releaseId); cbn [negb]; [|intros []].
  destruct (defined (field args "assigned")); cbn [negb]; [|intros []].
  destruct (toBooleanInput (field args "assigned") "assigned") as [b|e];
    [|intros []].
  rewrite fst_apiRequest. intros [<-|[]].
  exists b. repeat split; reflexivity.
Qed.

(** X9.  [pbUserCurrent] asks for [/user] and falls back to [/users] only when
    that request throws a Productboard error of status 404: it never
    issues more than two requests, every other error of the first request
    is thrown on as it is, and so is any error of the second request, a
    404 included. *)
Theorem pbUserCurrent_falls_back_on_404_only (replies : list reply) :
  let reqs := fst (pbUserCurrent replies) in
  hd_error reqs = Some (bareRequest "GET" "/user")
  /\ (length reqs <= 2)%nat
  /\ (length reqs = 2%nat <->
      exists e rest, replies = Threw e :: rest /\ isNotFound e = true)
  /\ (forall req, nth_error reqs 1 = Some req ->
                  req = bareRequest "GET" "/users")
  /\ (forall e rest,
        replies = Threw e :: rest -> isNotFound e = false ->
        pbUserCurrent replies = ([bareRequest "GET" "/user"], Thrown e))
  /\ (forall e e' rest,
        replies = Threw e :: Threw e' :: rest -> isNotFound e = true ->
        snd (pbUserCurrent replies) = Thrown e').
Proof.
  cbv zeta. unfold pbUserCurrent.
  destruct replies as [|[payload|e] tl].
  - repeat split; cbn; try lia; try discriminate.
    intros (e & rest & Heq & _). discriminate.
  - repeat split; cbn; try lia; try discriminate.
    intros (e & rest & Heq & _). discriminate.
  - destruct (isNotFound e) eqn:Hnf.
    + rewrite fst_issued, fst_apiRequest.
      repeat split; cbn; try lia.
      * intros _. now exists e, tl.
      * intros req [= <-]. reflexivity.
      * intros e0 rest0 [= -> ->] He. congruence.
      * intros e0 e' rest0 [= -> ->] _. reflexivity.
    + repeat split; cbn; try lia; try discriminate.
      * intros (e0 & rest0 & [= -> ->] & He). congruence.
      * intros e0 rest0 [= -> ->] _. reflexivity.
      * intros e0 e' rest0 [= -> ->] He. congruence.
Qed.

Section NoteFacts.
Context `{Engine} `{Printer}.


(** X11.  [pbNoteCreate] issues a request only with a title and a content, and
    then one POST whose body is the note itself (no [data] wrapper): the
    title and the content as given, an array of tags exactly as given
    (nothing is trimmed, dropped or converted), and a string of tags split
    at its commas, trimmed, without the empty pieces. *)
Theorem pbNoteCreate_forwards_tag_arrays (rawArgs : value)
    (replies : list reply) (req : request) :
  let args := toObject rawArgs in
  In req (fst (pbNoteCreate rawArgs replies)) ->
  exists body,
    fst (pbNoteCreate rawArgs replies) = [req]
    /\ Req.method req = "POST"
    /\ requestBody req = Some body
    /\ truthy (field args "title") = true
    /\ truthy (field args "content") = true
    /\ body !! "title" = Some (field args "title")
    /\ body !! "content" = Some (field args "content")
    /\ body !! "data" = None
    /\ body !! "tags"
       = match field args "tags" with
         | VArr l => Some (VArr l)
         | VStr s =>
             Some (VArr (map VStr (nonEmptyStrings
                                     (map String_trim (split_comma s)))))
         | _ => None
         end.
Proof.
  intros args. unfold pbNoteCreate. fold args.
  destruct (truthy (field args "title")); cbn [negb orb]; [|intros []].
  destruct (truthy (field args "content")); cbn [negb orb]; [|intros []].
  cbv zeta. rewrite fst_apiRequest. intros [<-|[]].
  eexists. split; [reflexivity|]. split; [reflexivity|].
  split; [reflexivity|]. split; [reflexivity|]. split; [reflexivity|].
  split; [|split; [|split]].
  - rewrite !lookup_spreadIf_ne by discriminate.
    rewrite lookup_insert_ne by discriminate. apply lookup_singleton_eq.
  - rewrite !lookup_spreadIf_ne by discriminate. apply lookup_insert_eq.
  - rewrite !lookup_spreadIf_ne by discriminate.
    rewrite lookup_insert_ne by discriminate.
    apply lookup_singleton_ne. discriminate.
  - rewrite lookup_spreadIf_ne by discriminate.
    rewrite lookup_spreadIf_eq.
    destruct (field args "tags"); cbn [truthy];
      try (rewrite lookup_insert_ne by discriminate;
           apply lookup_singleton_ne; discriminate);
      reflexivity.
Qed.

End NoteFacts.

(* ===================================================================== *)
(** * Properties of the requests of the link walker *)
(* ===================================================================== *)

Lemma prefix_http_nonempty (s : string) :
  String.prefix "http" s = true -> String.eqb s "" = false.
Proof. destruct s; [discriminate|reflexivity]. Qed.

Section WalkerRequests.
Context `{Engine}.

Lemma listWithLinks_loop_head (path : string) (maxItems : Z)
    (replies : list reply) (items : list value) (nextUrl : option string)
    (firstQuery : gmap string value) (req : request) :
  hd_error (fst (listWithLinks_loop path maxItems replies items nextUrl
                   firstQuery)) = Some req ->
  req = match nextUrl with
        | Some u =>
            if String.eqb u "" then GET_query path firstQuery
            else GET_absolute u
        | None => GET_query path firstQuery
        end.
Proof.
  destruct replies as [|[payload|e] rest]; cbn [listWithLinks_loop];
    destruct (len items <? maxItems); cbn; try discriminate;
    try (intros [= <-]; reflexivity).
  destruct (negb _ || _); [cbn; intros [= <-]; reflexivity|].
  destruct (prop (prop payload "links") "next");
    try (cbn; intros [= <-]; reflexivity).
  destruct (String.prefix "http" s); [cbn; intros [= <-]; reflexivity|].
  destruct (URL_resolve s); cbn; intros [= <-]; reflexivity.
Qed.


Lemma listWithLinks_loop_later (path : string) (maxItems : Z) :
  forall (replies : list reply) (items : list value)
         (nextUrl : option string) (firstQuery : gmap string value)
         (i : nat) (req : request),
    nth_error (fst (listWithLinks_loop path maxItems replies items nextUrl
                      firstQuery)) (S i) = Some req ->
    exists payload s,
      nth_error replies i = Some (Returned payload)
      /\ linksNext payload = VStr s
      /\ ((String.prefix "http" s = true /\ req = GET_absolute s)
          \/ (String.prefix "http" s = false
              /\ exists u,
                   URL_resolve s = Some u
                   /\ (req = GET_absolute u
                       \/ (u = "" /\ req = GET_query path emptyObj)))).
Proof.
  induction replies as [|reply rest IH];
    intros items nextUrl firstQuery i req.
  - cbn [listWithLinks_loop]. destruct (len items <? maxItems); cbn;
      destruct i; discriminate.
  - cbn [listWithLinks_loop]. destruct (len items <? maxItems);
      [|cbn; discriminate].
    destruct reply as [payload|e]; [|cbn; destruct i; discriminate].
    cbv zeta. fold (linksNext payload).
    destruct (negb _ || _); [cbn; destruct i; discriminate|].
    destruct (linksNext payload) as [| | | |s| |] eqn:Hnext;
      try (cbn; destruct i; discriminate).
    destruct (String.prefix "http" s) eqn:Hhttp.
    + rewrite fst_issued. cbn [nth_error]. destruct i as [|i].
      * intros Hhd. apply (listWithLinks_loop_head path maxItems) in Hhd.
        rewrite (prefix_http_nonempty _ Hhttp) in Hhd.
        exists payload, s. split; [reflexivity|]. split; [exact Hnext|].
        left. now split.
      * intros Hnth. destruct (IH _ _ _ _ _ Hnth) as (p & s' & Hr & Hrest).
        exists p, s'. split; [exact Hr|exact Hrest].
    + destruct (URL_resolve s) as [u|] eqn:Hu;
        [|cbn; destruct i; discriminate].
      rewrite fst_issued. cbn [nth_error]. destruct i as [|i].
      * intros Hhd. apply (listWithLinks_loop_head path maxItems) in Hhd.
        exists payload, s. split; [reflexivity|]. split; [exact Hnext|].
        right. split; [exact Hhttp|]. exists u. split; [exact Hu|].
        destruct (String.eqb u "") eqn:Hue.
        -- apply String.eqb_eq in Hue. right. now split.
        -- now left.
      * intros Hnth. destruct (IH _ _ _ _ _ Hnth) as (p & s' & Hr & Hrest).
        exists p, s'. split; [exact Hr|exact Hrest].
Qed.

(** X12.  [listWithLinks] sends the caller's query with its first request only:
    the first request is a GET of the path with the query (and the page
    size under [pageSizeParam], unless the caller set that key), and every
    later one is a GET of the [links.next] of the reply before, taken as it
    is when it starts with "http" and resolved against the base URL
    otherwise.  No later request carries the caller's filters. *)
Theorem listWithLinks_sends_the_query_once (path : string)
    (query : option (gmap string value)) (limit : value)
    (pageSizeParam : option string) (replies : list reply) :
  let reqs := fst (listWithLinks path query limit pageSizeParam replies) in
  let given := default emptyObj query in
  (forall req,
      nth_error reqs 0 = Some req ->
      exists firstQuery,
        req = GET_query path firstQuery
        /\ (forall k, pageSizeParam <> Some k ->
                      firstQuery !! k = given !! k)
        /\ (forall p, pageSizeParam = Some p ->
              firstQuery !! p
              = if negb (String.eqb p "") && nullish (field given p)
                then Some (VInt (Z.min 100 (normalizeLimit limit)))
                else given !! p))
  /\ (forall i req,
        nth_error reqs (S i) = Some req ->
        exists payload s,
          nth_error replies i = Some (Returned payload)
          /\ linksNext payload = VStr s
          /\ ((String.prefix "http" s = true /\ req = GET_absolute s)
              \/ (String.prefix "http" s = false
                  /\ exists u,
                       URL_resolve s = Some u
                       /\ (req = GET_absolute u
                           \/ (u = "" /\ req = GET_query path emptyObj))))).
Proof.
  cbv zeta. unfold listWithLinks. cbv zeta.
  rewrite normalizeLimit_default. split.
  - intros req Hreq.
    assert (Hhd : forall l : list request, nth_error l 0 = hd_error l)
      by (intros []; reflexivity).
    rewrite Hhd in Hreq. apply listWithLinks_loop_head in Hreq.
    eexists. split; [exact Hreq|]. split.
    + intros k Hk. destruct pageSizeParam as [p|]; [|reflexivity].
      destruct (negb (String.eqb p "") && nullish _); [|reflexivity].
      apply lookup_insert_ne. congruence.
    + intros p ->.
      destruct (negb (String.eqb p "") && nullish _); [|reflexivity].
      apply lookup_insert_eq.
  - intros i req Hreq.
    exact (listWithLinks_loop_later _ _ _ _ _ _ _ _ Hreq).
Qed.

End WalkerRequests.

(* ===================================================================== *)
(** * Properties of the list handlers *)
(* ===================================================================== *)

Section ListHandlerFacts.
Context `{Engine} `{Printer} `{KeyOrder}.









End ListHandlerFacts.

(* ===================================================================== *)
(** * Properties of the objective handlers *)
(* ===================================================================== *)

Section ObjectiveFacts.
Context `{Engine}.

(** X17.  Given the id of the objective and a status that resolves,
    [pbObjectiveUpdate] rejects a start date without an end date (or an
    end date without a start date) before any request, whatever else is
    updated.  Every request it issues is one PATCH whose [timeframe] is
    there exactly when a start date, an end date or a granularity is
    present, and holds both dates or neither; an [owner_email] that is
    given but empty or null sends [owner: null]. *)
Theorem pbObjectiveUpdate_timeframe_and_owner (rawArgs : value)
    (replies : list reply) :
  let args := toObject rawArgs in
  let start := startDateOf args in
  let finish := endDateOf args in
  let granularity := granularityOf args in
  let sent (v : value) := if provided v then Some v else None in
  truthy (field args "id") = true ->
  (forall status,
      resolveStatusFromArgs (VObj args) = Ok status ->
      provided start <> provided finish ->
      pbObjectiveUpdate rawArgs replies
      = ([], Thrown (validationError
           "Timeframe requires both startDate and endDate when provided.")))
  /\ (forall req,
        In req (fst (pbObjectiveUpdate rawArgs replies)) ->
        exists data,
          fst (pbObjectiveUpdate rawArgs replies) = [req]
          /\ Req.method req = "PATCH"
          /\ requestData req = Some data
          /\ provided start = provided finish
          /\ (data !! "timeframe" = None <->
              provided start = false /\ provided granularity = false)
          /\ (forall x, data !! "timeframe" = Some x ->
                exists timeframe,
                  x = VObj timeframe
                  /\ timeframe !! "startDate" = sent start
                  /\ timeframe !! "endDate" = sent finish
                  /\ timeframe !! "granularity" = sent granularity)
          /\ data !! "owner"
             = (if defined (field args "owner_email")
                then Some (if truthy (field args "owner_email")
                           then VObj {[ "email" := field args "owner_email" ]}
                           else VNull)
                else None)).
Proof.
  intros args start finish granularity sent Hid.
  unfold pbObjectiveUpdate. fold args. rewrite Hid. cbn [negb].
  rewrite dateTimeframeOfArgs_unfold. cbv zeta.
  fold start. fold finish. fold granularity.
  split.
  - intros status -> Hne.
    destruct (provided start), (provided finish); try congruence;
      reflexivity.
  - intros req.
    destruct (resolveStatusFromArgs (VObj args)) as [status|e];
      [|intros []].
    destruct (provided start) eqn:Hs, (provided finish) eqn:Hf;
      cbn [negb andb Bool.eqb]; try (intros []).
    + match goal with
      | |- context [(size ?d =? 0)%nat] => set (data := d)
      end.
      destruct (size data =? 0)%nat; [intros []|].
      rewrite fst_apiRequest. intros [<-|[]].
      exists data. split; [reflexivity|]. split; [reflexivity|].
      split; [unfold requestData; cbn; now rewrite lookup_singleton_eq|].
      split; [reflexivity|].
      assert (Htf : data !! "timeframe"
                    = Some (VObj (spreadIf (provided granularity)
                                    "granularity" granularity
                                    (<["endDate" := finish]>
                                       (<["startDate" := start]>
                                          emptyObj))))).
      { unfold data. rewrite lookup_spreadIf_ne by discriminate.
        rewrite lookup_spreadIf_eq. reflexivity. }
      split; [|split].
      * rewrite Htf. split; [discriminate|intros [? _]; discriminate].
      * intros x. rewrite Htf. intros [= <-]. eexists.
        split; [reflexivity|]. unfold sent. rewrite Hs, Hf.
        split; [|split].
        -- rewrite lookup_spreadIf_ne by discriminate.
           rewrite lookup_insert_ne by discriminate.
           apply lookup_insert_eq.
        -- rewrite lookup_spreadIf_ne by discriminate.
           apply lookup_insert_eq.
        -- rewrite lookup_spreadIf_eq.
           destruct (provided granularity); [reflexivity|].
           rewrite !lookup_insert_ne by discriminate. apply lookup_empty.
      * unfold data. rewrite !lookup_spreadIf_ne by discriminate.
        rewrite lookup_spreadIf_eq.
        destruct (defined (field args "owner_email")); [reflexivity|].
        rewrite !lookup_spreadIf_ne by discriminate. apply lookup_empty.
    + destruct (provided granularity) eqn:Hg; cbn [negb].
      * match goal with
        | |- context [(size ?d =? 0)%nat] => set (data := d)
        end.
        destruct (size data =? 0)%nat; [intros []|].
        rewrite fst_apiRequest. intros [<-|[]].
        exists data. split; [reflexivity|]. split; [reflexivity|].
        split; [unfold requestData; cbn; now rewrite lookup_singleton_eq|].
        split; [reflexivity|].
        assert (Htf : data !! "timeframe"
                      = Some (VObj (<["granularity" := granularity]>
                                      emptyObj))).
        { unfold data. rewrite lookup_spreadIf_ne by discriminate.
          rewrite lookup_spreadIf_eq. reflexivity. }
        split; [|split].
        -- rewrite Htf. split; [discriminate|intros [_ ?]; discriminate].
        -- intros x. rewrite Htf. intros [= <-]. eexists.
           split; [reflexivity|]. unfold sent. rewrite Hs, Hf, Hg.
           split; [|split].
           ++ rewrite lookup_insert_ne by discriminate. apply lookup_empty.
           ++ rewrite lookup_insert_ne by discriminate. apply lookup_empty.
           ++ apply lookup_insert_eq.
        -- unfold data. rewrite !lookup_spreadIf_ne by discriminate.
           rewrite lookup_spreadIf_eq.
           destruct (defined (field args "owner_email")); [reflexivity|].
           rewrite !lookup_spreadIf_ne by discriminate. apply lookup_empty.
      * match goal with
        | |- context [(size ?d =? 0)%nat] => set (data := d)
        end.
        destruct (size data =? 0)%nat; [intros []|].
        rewrite fst_apiRequest. intros [<-|[]].
        exists data. split; [reflexivity|]. split; [reflexivity|].
        split; [unfold requestData; cbn; now rewrite lookup_singleton_eq|].
        split; [reflexivity|].
        assert (Htf : data !! "timeframe" = None).
        { unfold data. rewrite lookup_spreadIf_ne by discriminate.
          rewrite lookup_spreadIf_eq. cbn [isObj].
          rewrite !lookup_spreadIf_ne by discriminate. apply lookup_empty. }
        split; [|split].
        -- rewrite Htf. split; [now split|reflexivity].
        -- intros x. rewrite Htf. discriminate.
        -- unfold data. rewrite !lookup_spreadIf_ne by discriminate.
           rewrite lookup_spreadIf_eq.
           destruct (defined (field args "owner_email")); [reflexivity|].
           rewrite !lookup_spreadIf_ne by discriminate. apply lookup_empty.
Qed.

End ObjectiveFacts.

(* ===================================================================== *)
(** * Properties of the error envelope of a response *)
(* ===================================================================== *)

Lemma errorBody_status_details (e : ProductboardApiError) :
  errorBody (asErrorResult (ApiError e)) !! "status"
  = match Err.status e with
    | Some z => if z =? 0 then None else Some (VInt z)
    | None => None
    end
  /\ errorBody (asErrorResult (ApiError e)) !! "details"
     = (if truthy (Err.details e) then Some (Err.details e) else None)
  /\ (forall k,
        ~ In k ["message"; "status"; "retry_after_seconds"; "details"] ->
        errorBody (asErrorResult (ApiError e)) !! k = None).
Proof.
  unfold errorBody, asErrorResult. cbv zeta. cbn [payload prop].
  unfold field. rewrite !lookup_singleton_eq.
  cbn [default from_option]. unfold id. cbn [toObject].
  split; [|split].
  - rewrite !lookup_spreadIf_ne by discriminate.
    rewrite lookup_spreadIf_eq.
    rewrite lookup_singleton_ne by discriminate.
    destruct (Err.status e) as [z|]; [|reflexivity].
    destruct (z =? 0); reflexivity.
  - rewrite lookup_spreadIf_eq.
    rewrite !lookup_spreadIf_ne by discriminate.
    rewrite lookup_singleton_ne by discriminate. reflexivity.
  - intros k Hk. cbn in Hk.
    rewrite !lookup_spreadIf_ne by tauto.
    apply lookup_singleton_ne. tauto.
Qed.

Section EnvelopeFacts.
Context `{Engine}.

(** X18.  What a caller is shown of a response that is not [ok]: [apiRequest]
    throws, and the envelope of the error holds the status, and no key
    besides [message], [status], [retry_after_seconds] and [details].  For
    a status other than 401, 403, 404 and 429, a body that is not JSON is
    shown twice, as the message and as the details, and an empty body
    gives the message "Productboard API returned HTTP <status>." without
    details. *)
Theorem error_envelope_of_a_response (response : Resp.response)
    (rawText : string) :
  let status := Resp.status response in
  let fixed := (status =? 401) || (status =? 403) || (status =? 404)
               || (status =? 429) in
  Resp.ok response = false ->
  exists err,
    apiRequest_receive response rawText = Threw (ApiError err)
    /\ Err.status err = Some status
    /\ let body := errorBody (asErrorResult (ApiError err)) in
       body !! "status"
       = (if status =? 0 then None else Some (VInt status))
       /\ (forall k,
             ~ In k ["message"; "status"; "retry_after_seconds"; "details"]
             -> body !! k = None)
       /\ (fixed = false -> rawText <> "" -> JSON_parse rawText = None ->
           body !! "message" = Some (VStr rawText)
           /\ body !! "details" = Some (VStr rawText))
       /\ (fixed = false -> rawText = "" ->
           body !! "message"
           = Some (VStr ("Productboard API returned HTTP "
                         +:+ pretty status +:+ "."))
           /\ body !! "details" = None).
Proof.
  intros status fixed Hok. unfold apiRequest_receive. rewrite Hok.
  cbn [negb]. eexists. split; [reflexivity|]. split; [reflexivity|].
  cbv zeta.
  match goal with
  | |- context [asErrorResult (ApiError ?e)] => set (err := e)
  end.
  destruct (errorBody_status_details err) as (Hstatus & Hdetails & Hkeys).
  destruct (errorBody_asErrorResult err) as (Hmessage & _).
  rewrite Hstatus, Hdetails, Hmessage.
  split; [reflexivity|]. split; [exact Hkeys|].
  assert (Hfixed : fixed = false ->
            forall payload fallbackText,
              Err.message (buildApiError response payload fallbackText)
              = extractErrorMessage payload
                  match fallbackText with
                  | Some t =>
                      if String.eqb t ""
                      then "Productboard API returned HTTP "
                           +:+ pretty status +:+ "."
                      else t
                  | None =>
                      "Productboard API returned HTTP "
                      +:+ pretty status +:+ "."
                  end).
  { unfold fixed. intros Hf payload fallbackText.
    apply orb_false_elim in Hf as [Hf H429].
    apply orb_false_elim in Hf as [Hf H404].
    apply orb_false_elim in Hf as [H401 H403].
    unfold buildApiError. cbv zeta. cbn [Err.message]. fold status.
    now rewrite H401, H403, H404, H429. }
  split.
  - intros Hf Hne Hparse. unfold err.
    destruct (String.eqb_spec rawText ""); [contradiction|].
    rewrite Hparse, (Hfixed Hf). unfold buildApiError. cbn [Err.details].
    destruct (String.eqb_spec rawText ""); [contradiction|].
    cbn. destruct (String.eqb_spec rawText ""); [contradiction|].
    split; reflexivity.
  - intros Hf ->. unfold err. cbn [String.eqb].
    rewrite (Hfixed Hf). split; reflexivity.
Qed.

End EnvelopeFacts.

(* ===================================================================== *)
(** * Properties of a listing that fails or returns *)
(* ===================================================================== *)

Section WalkerOutcomes.
Context `{Engine}.

Lemma listWithLinks_loop_failure (path : string) (maxItems : Z) :
  forall (replies : list reply) (items : list value)
         (nextUrl : option string) (firstQuery : gmap string value)
         (i : nat) (e : exn),
    nth_error replies i = Some (Threw e) ->
    (i < length (fst (listWithLinks_loop path maxItems replies items
                        nextUrl firstQuery)))%nat ->
    listWithLinks_loop path maxItems replies items nextUrl firstQuery
    = (fst (listWithLinks_loop path maxItems replies items nextUrl
              firstQuery), Thrown e)
    /\ length (fst (listWithLinks_loop path maxItems replies items nextUrl
                      firstQuery)) = S i.
Proof.
  induction replies as [|reply rest IH];
    intros items nextUrl firstQuery i e Hnth.
  - destruct i; discriminate.
  - cbn [listWithLinks_loop].
    destruct (len items <? maxItems); [|cbn; lia].
    destruct reply as [payload|e0].
    + destruct i as [|i]; [discriminate|]. cbn [nth_error] in Hnth.
      cbv zeta. destruct (negb _ || _); [cbn; lia|].
      destruct (prop (prop payload "links") "next"); try (cbn; lia).
      destruct (String.prefix "http" s).
      * rewrite fst_issued. cbn [length]. intros Hi.
        destruct (IH (items ++ slice0 (arrayOrEmpty (prop payload "data"))
                                (maxItems - len items))%list
                    (Some s) emptyObj i e Hnth ltac:(lia)) as [Hrun Hlen].
        split; [|now rewrite Hlen].
        unfold issued. cbn [fst snd]. f_equal. now rewrite Hrun.
      * destruct (URL_resolve s) as [u|]; [|cbn; lia].
        rewrite fst_issued. cbn [length]. intros Hi.
        destruct (IH (items ++ slice0 (arrayOrEmpty (prop payload "data"))
                                (maxItems - len items))%list
                    (Some u) emptyObj i e Hnth ltac:(lia)) as [Hrun Hlen].
        split; [|now rewrite Hlen].
        unfold issued. cbn [fst snd]. f_equal. now rewrite Hrun.
    + cbn. intros Hi. destruct i as [|i]; [|lia].
      injection Hnth as ->. now split.
Qed.

Lemma listNotes_loop_failure (query : gmap string value) (maxItems : Z) :
  forall (replies : list reply) (items : list value) (cursor : value)
         (i : nat) (e : exn),
    nth_error replies i = Some (Threw e) ->
    (i < length (fst (listNotes_loop query maxItems replies items cursor)))%nat
    ->
    listNotes_loop query maxItems replies items cursor
    = (fst (listNotes_loop query maxItems replies items cursor), Thrown e)
    /\ length (fst (listNotes_loop query maxItems replies items cursor))
       = S i.
Proof.
  induction replies as [|reply rest IH]; intros items cursor i e Hnth.
  - destruct i; discriminate.
  - cbn [listNotes_loop].
    destruct (len items <? maxItems); [|cbn; lia].
    destruct reply as [payload|e0].
    + destruct i as [|i]; [discriminate|]. cbn [nth_error] in Hnth.
      cbv zeta. destruct (negb _ || _); [cbn; lia|].
      rewrite fst_issued. cbn [length]. intros Hi.
      destruct (IH (items ++ slice0 (arrayOrEmpty (prop payload "data"))
                              (maxItems - len items))%list
                  (prop payload "pageCursor") i e Hnth ltac:(lia))
        as [Hrun Hlen].
      split; [|now rewrite Hlen].
      unfold issued. cbn [fst snd]. f_equal. now rewrite Hrun.
    + cbn. intros Hi. destruct i as [|i]; [|lia].
      injection Hnth as ->. now split.
Qed.

(** X19.  A page that fails makes the whole listing fail: when the reply to a
    request of a walker is an error, the walker throws that very error,
    issues no further request, and hands back none of the items of the
    pages before. *)
Theorem walkers_fail_as_a_whole (replies : list reply) (i : nat) (e : exn) :
  nth_error replies i = Some (Threw e) ->
  (forall path query limit pageSizeParam,
      let run := listWithLinks path query limit pageSizeParam replies in
      (i < length (fst run))%nat ->
      snd run = Thrown e /\ length (fst run) = S i)
  /\ (forall query limit,
        let run := listNotes query limit replies in
        (i < length (fst run))%nat ->
        snd run = Thrown e /\ length (fst run) = S i).
Proof.
  intros Hnth. split.
  - intros path query limit pageSizeParam. cbv zeta. unfold listWithLinks.
    cbv zeta. intros Hi.
    destruct (listWithLinks_loop_failure _ _ _ _ _ _ _ _ Hnth Hi)
      as [Hrun Hlen].
    split; [now rewrite Hrun|exact Hlen].
  - intros query limit. cbv zeta. unfold listNotes. cbv zeta. intros Hi.
    destruct (listNotes_loop_failure _ _ _ _ _ _ _ Hnth Hi) as [Hrun Hlen].
    split; [now rewrite Hrun|exact Hlen].
Qed.

Lemma listNotes_loop_items (query : gmap string value) (maxItems : Z) :
  forall (replies : list reply) (items : list value) (cursor : value)
         (reqs : list request) (r : Notes.result),
    len items <= maxItems ->
    listNotes_loop query maxItems replies items cursor = (reqs, Done r) ->
    Notes.items r
    = firstn (Z.to_nat maxItems) (items ++ received replies (length reqs)).
Proof.
  induction replies as [|reply rest IH];
    intros items cursor reqs r Hle Hrun.
  - cbn in Hrun. destruct (len items <? maxItems) eqn:Hlt; [discriminate|].
    injection Hrun as <- <-. cbn. apply Z.ltb_ge in Hlt.
    rewrite app_nil_r, firstn_all2; [reflexivity|unfold len in *; lia].
  - cbn in Hrun. destruct (len items <? maxItems) eqn:Hlt.
    2:{ injection Hrun as <- <-. cbn. apply Z.ltb_ge in Hlt.
        rewrite app_nil_r, firstn_all2; [reflexivity|unfold len in *; lia]. }
    apply Z.ltb_lt in Hlt.
    destruct reply as [payload|e]; [|discriminate].
    fold (pageCursor payload) in Hrun.
    set (page := arrayOrEmpty (prop payload "data")) in *.
    set (items' := (items ++ slice0 page (maxItems - len items))%list) in *.
    assert (Hlen' : len items' <= maxItems).
    { unfold items'. rewrite len_app, len_slice0 by lia. lia. }
    destruct (negb (truthy (pageCursor payload)) || (maxItems <=? len items'))
      eqn:Hstop.
    { injection Hrun as <- <-. unfold received. cbn. fold page.
      rewrite app_nil_r. symmetry. now apply firstn_quota. }
    apply orb_false_iff in Hstop as [_ Hquota]. apply Z.leb_gt in Hquota.
    assert (Hwhole : items' = (items ++ page)%list).
    { unfold items'. f_equal. apply slice0_all.
      unfold items' in Hquota. rewrite len_app, len_slice0 in Hquota; lia. }
    destruct (listNotes_loop query maxItems rest items'
                (pageCursor payload)) as [reqs' out'] eqn:Hloop.
    unfold issued in Hrun. cbn in Hrun. injection Hrun as <- ->.
    rewrite (IH _ _ _ _ Hlen' Hloop), Hwhole.
    unfold received. cbn. fold page. now rewrite <- app_assoc.
Qed.

Lemma listNotes_loop_quota (query : gmap string value) (maxItems : Z) :
  forall (replies : list reply) (items : list value) (cursor : value)
         (reqs : list request) (out : outcome Notes.result),
    listNotes_loop query maxItems replies items cursor = (reqs, out) ->
    forall i : nat, (i < length reqs)%nat ->
      len items + len (received replies i) < maxItems.
Proof.
  induction replies as [|reply rest IH];
    intros items cursor reqs out Hrun i Hi.
  - cbn in Hrun. destruct (len items <? maxItems) eqn:Hlt;
      injection Hrun as <- <-; cbn in Hi; [|lia].
    apply Z.ltb_lt in Hlt.
    unfold received. rewrite firstn_nil. cbn. change (len []) with 0. lia.
  - cbn in Hrun. destruct (len items <? maxItems) eqn:Hlt.
    2:{ injection Hrun as <- <-. cbn in Hi. lia. }
    apply Z.ltb_lt in Hlt.
    destruct i as [|i].
    { unfold received. cbn. change (len []) with 0. lia. }
    destruct reply as [payload|e].
    2:{ injection Hrun as <- <-. cbn in Hi. lia. }
    fold (pageCursor payload) in Hrun.
    set (page := arrayOrEmpty (prop payload "data")) in *.
    set (items' := (items ++ slice0 page (maxItems - len items))%list) in *.
    destruct (negb (truthy (pageCursor payload)) || (maxItems <=? len items'))
      eqn:Hstop.
    { injection Hrun as <- <-. cbn in Hi. lia. }
    apply orb_false_iff in Hstop as [_ Hquota]. apply Z.leb_gt in Hquota.
    assert (Hwhole : items' = (items ++ page)%list).
    { unfold items'. f_equal. apply slice0_all.
      unfold items' in Hquota. rewrite len_app, len_slice0 in Hquota; lia. }
    destruct (listNotes_loop query maxItems rest items'
                (pageCursor payload)) as [reqs' out'] eqn:Hloop.
    unfold issued in Hrun. cbn in Hrun. injection Hrun as <- ->.
    cbn in Hi. specialize (IH _ _ _ _ Hloop i ltac:(lia)).
    rewrite Hwhole, len_app in IH.
    unfold received in *. cbn. fold page. rewrite len_app. lia.
Qed.

(** X20.  [listNotes] asks for a page only while the pages received hold fewer
    items than the effective maximum, and a listing that returns hands
    back the first items of the pages received, in order, up to that
    maximum: a page longer than the [pageLimit] asked for is cut, not
    kept. *)
Theorem listNotes_returns_the_first_items
    (query : option (gmap string value)) (limit : value)
    (replies : list reply) (reqs : list request)
    (out : outcome Notes.result) :
  listNotes query limit replies = (reqs, out) ->
  (forall i : nat, (i < length reqs)%nat ->
     len (received replies i) < normalizeLimit limit)
  /\ (forall r, out = Done r ->
        Notes.items r
        = firstn (Z.to_nat (normalizeLimit limit))
            (received replies (length reqs))
        /\ Notes.count r = len (Notes.items r)
        /\ len (Notes.items r) <= normalizeLimit limit).
Proof.
  intros Hrun. unfold listNotes in Hrun. cbv zeta in Hrun.
  rewrite normalizeLimit_default in Hrun.
  pose proof (normalizeLimit_nonneg limit) as Hnn.
  assert (Hz : len [] <= normalizeLimit limit)
    by (change (len []) with 0; lia).
  split.
  - intros i Hi.
    pose proof (listNotes_loop_quota _ _ _ _ _ _ _ Hrun i Hi) as Hr.
    change (len []) with 0 in Hr. lia.
  - intros r ->. split; [|split].
    + exact (listNotes_loop_items _ _ _ _ _ _ _ Hz Hrun).
    + exact (proj1 (proj2 (listNotes_loop_done _ _ _ _ _ _ _ Hz Hrun))).
    + exact (proj1 (listNotes_loop_done _ _ _ _ _ _ _ Hz Hrun)).
Qed.

End WalkerOutcomes.

(* ===================================================================== *)
(** * Properties of the notes listing and of the creation of a feature *)
(* ===================================================================== *)

Section NotesListFacts.
Context `{Engine} `{Printer} `{KeyOrder}.



End NotesListFacts.

Section FeatureCreateFacts.

(** X22.  [pbFeatureCreate] issues a request exactly when the name and the
    description are truthy, a status resolves and one parent resolves.
    The request is one POST of [/features] whose [data] holds the name,
    the description, the status and the parent, and a [type] that is the
    argument [type] unless it is nullish, and otherwise "subfeature" under
    a feature and "feature" under a product or a component; an
    [owner_email] is sent only when it is truthy. *)
Theorem pbFeatureCreate_required_fields (rawArgs : value)
    (replies : list reply) :
  let args := toObject rawArgs in
  (forall req,
      In req (fst (pbFeatureCreate rawArgs replies)) ->
      exists status parent data,
        fst (pbFeatureCreate rawArgs replies) = [req]
        /\ Req.method req = "POST"
        /\ Req.path req = Some "/features"
        /\ requestData req = Some data
        /\ truthy (field args "name") = true
        /\ truthy (field args "description") = true
        /\ resolveStatusFromArgs (VObj args) = Ok (Some status)
        /\ normalizeParentInput (VObj args) true = Ok (Some parent)
        /\ data !! "name" = Some (field args "name")
        /\ data !! "description" = Some (field args "description")
        /\ data !! "status" = Some (VObj status)
        /\ data !! "parent" = Some (VObj parent)
        /\ data !! "type"
           = Some (field args "type"
                   ?? (if truthy (field parent "feature")
                       then VStr "subfeature" else VStr "feature"))
        /\ data !! "owner"
           = (if truthy (field args "owner_email")
              then Some (VObj {[ "email" := field args "owner_email" ]})
              else None))
  /\ (forall status parent,
        truthy (field args "name") = true ->
        truthy (field args "description") = true ->
        resolveStatusFromArgs (VObj args) = Ok (Some status) ->
        normalizeParentInput (VObj args) true = Ok (Some parent) ->
        exists req, fst (pbFeatureCreate rawArgs replies) = [req]).
Proof.
  intros args. unfold pbFeatureCreate. fold args. split.
  - intros req.
    destruct (truthy (field args "name")); cbn [negb orb]; [|intros []].
    destruct (truthy (field args "description")); cbn [negb orb];
      [|intros []].
    destruct (resolveStatusFromArgs (VObj args)) as [[status|]|e];
      try (intros []).
    destruct (normalizeParentInput (VObj args) true) as [[parent|]|e];
      try (intros []).
    cbv zeta. rewrite fst_apiRequest. intros [<-|[]].
    exists status, parent. eexists.
    split; [reflexivity|]. split; [reflexivity|]. split; [reflexivity|].
    split; [unfold requestData; cbn; now rewrite lookup_singleton_eq|].
    split; [reflexivity|]. split; [reflexivity|].
    split; [reflexivity|]. split; [reflexivity|].
    repeat split.
    + rewrite !lookup_spreadIf_ne by discriminate.
      rewrite !lookup_insert_ne by discriminate. apply lookup_insert_eq.
    + rewrite !lookup_spreadIf_ne by discriminate.
      rewrite !lookup_insert_ne by discriminate. apply lookup_insert_eq.
    + rewrite !lookup_spreadIf_ne by discriminate.
      rewrite !lookup_insert_ne by discriminate. apply lookup_insert_eq.
    + rewrite !lookup_spreadIf_ne by discriminate. apply lookup_insert_eq.
    + rewrite !lookup_spreadIf_ne by discriminate.
      rewrite !lookup_insert_ne by discriminate. apply lookup_insert_eq.
    + rewrite lookup_spreadIf_ne by discriminate.
      rewrite lookup_spreadIf_eq.
      destruct (truthy (field args "owner_email")); [reflexivity|].
      rewrite lookup_spreadIf_ne by discriminate.
      rewrite !lookup_insert_ne by discriminate. apply lookup_empty.
  - intros status parent -> -> -> ->. cbn [negb orb]. cbv zeta.
    rewrite fst_apiRequest. eexists. reflexivity.
Qed.

End FeatureCreateFacts.

(* ===================================================================== *)
(** * The properties on sample runs *)
(* ===================================================================== *)

Lemma walkers_quota_and_has_more_witness :
  (1 <= 2)%Q /\ (2 <= 1000)%Q
  /\ (exists reqs r,
        @listWithLinks sampleEngine "/features" None (VNum (Finite 2)) None
          sampleLinkScript = (reqs, Done r)
        /\ (inject_Z (len (WithLinks.items r)) <= 2)%Q
        /\ exists payload,
             lastReceived sampleLinkScript reqs = Some (Returned payload)
             /\ (WithLinks.has_more r = true <->
                 len (WithLinks.items r) = Qfloor 2
                 /\ truthy (linksNext payload) = true))
  /\ (exists reqs r,
        @listNotes sampleEngine None (VNum (Finite 2)) sampleNotesScript
          = (reqs, Done r)
        /\ (inject_Z (len (Notes.items r)) <= 2)%Q
        /\ exists payload,
             lastReceived sampleNotesScript reqs = Some (Returned payload)
             /\ (Notes.has_more r = true <->
                 len (Notes.items r) = Qfloor 2
                 /\ truthy (pageCursor payload) = true)).
Proof.
  assert (Hlo : (1 <= 2)%Q) by (vm_compute; discriminate).
  assert (Hhi : (2 <= 1000)%Q) by (vm_compute; discriminate).
  destruct (@walkers_quota_and_has_more sampleEngine 2 Hlo Hhi) as [HL HN].
  split; [exact Hlo|]. split; [exact Hhi|]. split.
  - eexists _, _. split; [vm_compute; reflexivity|].
    apply (HL "/features" None None sampleLinkScript).
    vm_compute. reflexivity.
  - eexists _, _. split; [vm_compute; reflexivity|].
    apply (HN None sampleNotesScript).
    vm_compute. reflexivity.
Defined.

Lemma listWithLinks_requests_only_needed_pages_witness :
  (3 <= length hundredsScript)%nat
  /\ Forall (@fullPageWithNext sampleEngine 100) hundredsScript
  /\ exists reqs r,
       @listWithLinks sampleEngine "/features" None (VInt 250) None
         hundredsScript = (reqs, Done r)
       /\ length reqs = 3%nat
       /\ length (WithLinks.items r) = 250%nat
       /\ WithLinks.has_more r = true
       /\ (forall i : nat, (i < length reqs)%nat ->
             len (received hundredsScript i)
             < @normalizeLimit sampleEngine (VInt 250)).
Proof.
  assert (Hlen : (3 <= length hundredsScript)%nat) by (cbn; lia).
  assert (Hall : Forall (@fullPageWithNext sampleEngine 100) hundredsScript).
  { unfold hundredsScript. cbn [repeat].
    repeat (apply List.Forall_cons;
      [ exists (pageWithNext 100 (VStr "/features?pageOffset=100")),
               "/features?pageOffset=100";
        split; [reflexivity|];
        split; [vm_compute; reflexivity|];
        split; [vm_compute; reflexivity|];
        split; [discriminate|right; eexists; reflexivity]
      | ]).
    apply List.Forall_nil. }
  destruct (@listWithLinks_requests_only_needed_pages sampleEngine)
    as [Hgen Hexample].
  destruct (Hexample "/features" None None hundredsScript Hlen Hall)
    as (reqs & r & Hrun & H3 & H250 & Hmore).
  split; [exact Hlen|]. split; [exact Hall|].
  exists reqs, r. repeat split; try assumption.
  exact (proj1 (Hgen _ _ _ _ _ _ _ Hrun)).
Defined.

Lemma listNotes_page_size_and_cursor_witness :
  nth_error (fst sampleNotesRun) 1 = Some secondNotesRequest
  /\ exists pageQuery : gmap string value,
       secondNotesRequest = GET_query "/notes" pageQuery
       /\ pageQuery !! "pageLimit" = Some (VInt 50)
       /\ pageQuery !! "pageCursor" = Some (VStr "c1").
Proof.
  assert (Hnth : nth_error (fst sampleNotesRun) 1 = Some secondNotesRequest)
    by (vm_compute; reflexivity).
  split; [exact Hnth|].
  assert (Hrun : @listNotes sampleEngine (Some sampleNotesQuery) (VInt 150)
                    twoNotesPages
                  = (fst sampleNotesRun, snd sampleNotesRun))
    by apply surjective_pairing.
  destruct (@listNotes_page_size_and_cursor sampleEngine _ _ _ _ _ Hrun
              1%nat secondNotesRequest Hnth)
    as (pageQuery & Hreq & Hlimit & Hcursor & _).
  exists pageQuery. split; [exact Hreq|]. split.
  - rewrite Hlimit. vm_compute. reflexivity.
  - apply Hcursor. vm_compute. reflexivity.
Defined.

Lemma resolveStatusFromArgs_one_representation_witness :
  isValidationError (resolveStatusFromArgs statusAndStatusId)
  /\ isValidationError (resolveStatusFromArgs bothStatusFields)
  /\ isValidationError (resolveStatusFromArgs statusWithIdAndName)
  /\ resolveStatusFromArgs (VObj {[ "status" := VStr "Done" ]})
     = Ok (Some {[ "name" := VStr "Done" ]})
  /\ resolveStatusFromArgs (VObj {[ "status_id" := VStr "s1" ]})
     = Ok (Some {[ "id" := VStr "s1" ]}).
Proof.
  split; [|split; [|split; [|split]]].
  - apply (proj1 (resolveStatusFromArgs_one_representation
                    statusAndStatusId)); reflexivity.
  - apply (proj1 (proj2 (resolveStatusFromArgs_one_representation
                           bothStatusFields))); reflexivity.
  - apply (proj1 (proj2 (proj2 (resolveStatusFromArgs_one_representation
                                  statusWithIdAndName)))); reflexivity.
  - exact (proj1 (proj2 (proj2 (proj2 (proj2
             (resolveStatusFromArgs_one_representation
                (VObj {[ "status" := VStr "Done" ]}))))))
             eq_refl eq_refl eq_refl).
  - exact (proj1 (proj2 (proj2 (proj2 (proj2 (proj2
             (resolveStatusFromArgs_one_representation
                (VObj {[ "status_id" := VStr "s1" ]})))))))
             eq_refl eq_refl eq_refl).
Defined.

Lemma normalizeParentInput_one_kind_witness :
  normalizeParentInput productAndComponent false
  = Raise (validationError
      "Provide only one parent type: product, component, or feature.")
  /\ normalizeParentInput (VObj emptyObj) true
     = Raise (validationError
         "Missing feature parent. Provide product.id, component.id, or parent_feature_id.")
  /\ normalizeParentInput onlyProduct true
     = Ok (Some {[ "product" := VObj {[ "id" := VStr "p1" ]} ]})
  /\ (Exists (fun v => truthy v = true)
         (parentSpellings productAndComponent Product)
      /\ Exists (fun v => truthy v = true)
           (parentSpellings productAndComponent Component)
      /\ normalizeParentInput productAndComponent true
         = Raise (validationError
             "Provide only one parent type: product, component, or feature.")).
Proof.
  split; [|split; [|split]].
  - apply (proj1 (normalizeParentInput_one_kind productAndComponent false)
             Product Component); [discriminate|reflexivity|reflexivity].
  - apply (proj1 (proj2 (normalizeParentInput_one_kind (VObj emptyObj) true))).
    intros []; reflexivity.
  - apply (proj1 (proj2 (proj2 (normalizeParentInput_one_kind onlyProduct
                                  true))) Product); [reflexivity|].
    intros [] Hne; [congruence|reflexivity|reflexivity].
  - assert (Hp : Exists (fun v => truthy v = true)
                   (parentSpellings productAndComponent Product))
      by (do 3 apply List.Exists_cons_tl; apply List.Exists_cons_hd;
          reflexivity).
    assert (Hc : Exists (fun v => truthy v = true)
                   (parentSpellings productAndComponent Component))
      by (do 3 apply List.Exists_cons_tl; apply List.Exists_cons_hd;
          reflexivity).
    split; [exact Hp|]. split; [exact Hc|].
    apply (proj2 (proj2 (proj2 (proj2
             (normalizeParentInput_one_kind productAndComponent true))))
             Product Component); [discriminate| |exact Hp|exact Hc].
    intros []; repeat apply List.Forall_cons; try apply List.Forall_nil;
      first [left; reflexivity | right; reflexivity].
Defined.

Lemma dateTimeframe_symmetric_dates_witness :
  dateTimeframeOfArgs startWithoutEnd
  = Raise (validationError
      "Timeframe requires both startDate and endDate when provided.")
  /\ dateTimeframeOfArgs onlyGranularity
     = Ok (Some {[ "granularity" := VStr "month" ]})
  /\ dateTimeframeOfArgs emptyObj = Ok None.
Proof.
  split; [|split].
  - apply (proj1 (dateTimeframe_symmetric_dates startWithoutEnd)).
    vm_compute. discriminate.
  - apply (proj1 (proj2 (dateTimeframe_symmetric_dates onlyGranularity)));
      vm_compute; reflexivity.
  - apply (proj1 (proj2 (proj2 (dateTimeframe_symmetric_dates emptyObj))));
      vm_compute; reflexivity.
Defined.



Lemma archived_is_coerced_not_validated_witness :
  fst (@pbFeatureUpdate sampleEngine archivedAsText [])
  = [archivedUpdateRequest]
  /\ (exists data,
        requestData archivedUpdateRequest = Some data
        /\ data !! "archived" = Some (VBool true))
  /\ (exists req data,
        fst (pbFeatureCreate createArchivedAsText []) = [req]
        /\ requestData req = Some data
        /\ data !! "archived" = Some (VBool true)).
Proof.
  assert (Hrun : fst (@pbFeatureUpdate sampleEngine archivedAsText [])
                 = [archivedUpdateRequest]) by (vm_compute; reflexivity).
  split; [exact Hrun|]. split.
  - assert (Hin : In archivedUpdateRequest
                    (fst (@pbFeatureUpdate sampleEngine archivedAsText [])))
      by (rewrite Hrun; left; reflexivity).
    destruct (proj1 (proj2 (@archived_is_coerced_not_validated sampleEngine
                              archivedAsText [])) _ Hin)
      as (data & Hdata & Harch).
    exists data. split; [exact Hdata|].
    rewrite Harch. vm_compute. reflexivity.
  - eexists.
    assert (Hrun' : fst (pbFeatureCreate createArchivedAsText []) = [_])
      by (vm_compute; reflexivity).
    assert (Hin : In _ (fst (pbFeatureCreate createArchivedAsText [])))
      by (rewrite Hrun'; left; reflexivity).
    destruct (proj1 (@archived_is_coerced_not_validated sampleEngine
                       createArchivedAsText []) _ Hin)
      as (data & Hdata & Harch).
    exists data. split; [exact Hrun'|]. split; [exact Hdata|].
    rewrite Harch. vm_compute. reflexivity.
Defined.


(* ===================================================================== *)
(** * More properties on sample runs *)
(* ===================================================================== *)

(** When two entries flatten to the same key, the one written last
    wins. *)
Example flattenFilters_last_write_wins :
  @flattenFilters samplePrinter dottedKeyFirst collidingFilters ""
  = {[ "a.b" := VInt 2 ]}
  /\ @flattenFilters samplePrinter dottedKeyLast collidingFilters ""
     = {[ "a.b" := VInt 1 ]}.
Proof. split; vm_compute; reflexivity. Qed.

Lemma flattenFilters_is_flat_witness :
  map_Forall (fun _ x => isScalar x = true)
    (@flattenFilters samplePrinter sampleOrder sampleMixedFilters "").
Proof.
  exact (@flattenFilters_is_flat samplePrinter sampleOrder
           sampleMixedFilters "").
Defined.

Lemma flattenFilters_keeps_flat_filters_witness :
  @flattenFilters samplePrinter sampleOrder (VObj sampleFlatFilters) ""
  = <["archived" := VBool false]> {[ "owner.email" := VStr "a@b.c" ]}.
Proof.
  rewrite (@flattenFilters_keeps_flat_filters samplePrinter sampleOrder
             sampleFlatFilters).
  - vm_compute. reflexivity.
  - intros k x Hk. unfold sampleFlatFilters in Hk.
    apply lookup_insert_Some in Hk as [[_ <-]|[_ Hk]]; [now left|].
    apply lookup_insert_Some in Hk as [[_ <-]|[_ Hk]]; [now left|].
    apply lookup_insert_Some in Hk as [[_ <-]|[_ Hk]]; [now left|].
    apply lookup_singleton_Some in Hk as [_ <-]. now right.
Defined.

Lemma flattenFilters_reach_the_url_witness :
  applyQueryParams (@flattenFilters samplePrinter sampleOrder sampleMixedFilters "")
    !! "tags" = Some (VStr "a,b").
Proof.
  apply (proj2 (@flattenFilters_reach_the_url samplePrinter sampleOrder
                  sampleMixedFilters "tags" (VStr "a,b"))).
  split; [vm_compute; reflexivity|discriminate].
Defined.

Lemma flattenFilters_nests_under_key_witness :
  @flattenFilters samplePrinter sampleOrder
    (VObj {[ "status" := VObj sampleStatusFilter ]}) ""
    !! dotted "status" "name" = Some (VStr "Done")
  /\ @flattenFilters samplePrinter sampleOrder
       (VObj {[ "status" := VObj sampleStatusFilter ]}) ""
       !! dotted "status" "id" = None.
Proof.
  assert (Hk : "status" <> "") by discriminate.
  assert (Hflat : forall j x, sampleStatusFilter !! j = Some x ->
                    isScalar x = true \/ nullish x = true).
  { intros j x Hj. unfold sampleStatusFilter in Hj.
    apply lookup_insert_Some in Hj as [[_ <-]|[_ Hj]]; [now left|].
    apply lookup_singleton_Some in Hj as [_ <-]. now right. }
  destruct (@flattenFilters_nests_under_key samplePrinter sampleOrder "status"
              sampleStatusFilter Hk Hflat) as [Hin _].
  split.
  - rewrite (Hin "name"). vm_compute. reflexivity.
  - rewrite (Hin "id"). vm_compute. reflexivity.
Defined.

Lemma toBooleanInput_reads_text_witness :
  toBooleanInput (VStr "false") "assigned" = Ok false
  /\ toBooleanInput (VInt 1) "assigned" = Ok true
  /\ toBooleanInput (VStr "no") "assigned"
     = Raise (validationError "Invalid boolean for assigned.").
Proof.
  split; [|split].
  - apply (proj1 (toBooleanInput_reads_text (VStr "false") "assigned")).
    right. right. cbn. auto.
  - apply (proj1 (toBooleanInput_reads_text (VInt 1) "assigned")).
    right. left. exists (inject_Z 1). split; [reflexivity|left; reflexivity].
  - apply (proj2 (toBooleanInput_reads_text (VStr "no") "assigned")).
    intros [[b Hb]|[(q & Hq & _)|Hin]]; [discriminate|discriminate|].
    cbn in Hin. intuition discriminate.
Defined.


Lemma normalizeStringArray_round_trip_witness :
  @normalizeStringArray sampleEngine samplePrinter
    (VStr (String.concat "," ["text"; "number"]))
  = Some ["text"; "number"].
Proof.
  apply (proj2 (@normalizeStringArray_round_trip sampleEngine samplePrinter)).
  - discriminate.
  - repeat constructor; discriminate.
Defined.

Lemma pbFeatureReleaseAssign_sends_a_boolean_witness :
  fst (pbFeatureReleaseAssign sampleAssign []) = [sampleAssignRequest]
  /\ exists b : bool,
       toBooleanInput (VStr "false") "assigned" = Ok b
       /\ Req.body sampleAssignRequest
          = Some (VObj {[ "data" := VObj {[ "assigned" := VBool b ]} ]}).
Proof.
  assert (Hrun : fst (pbFeatureReleaseAssign sampleAssign [])
                 = [sampleAssignRequest]) by (vm_compute; reflexivity).
  split; [exact Hrun|].
  assert (Hin : In sampleAssignRequest
                  (fst (pbFeatureReleaseAssign sampleAssign [])))
    by (rewrite Hrun; left; reflexivity).
  destruct (pbFeatureReleaseAssign_sends_a_boolean sampleAssign []
              sampleAssignRequest Hin)
    as (b & Hb & _ & _ & _ & _ & _ & Hbody).
  exists b. split; [exact Hb|exact Hbody].
Defined.

Lemma pbUserCurrent_falls_back_on_404_only_witness :
  length (fst (pbUserCurrent userFallbackScript)) = 2%nat
  /\ hd_error (fst (pbUserCurrent userFallbackScript))
     = Some (bareRequest "GET" "/user").
Proof.
  destruct (pbUserCurrent_falls_back_on_404_only userFallbackScript)
    as (Hhd & _ & Htwo & _).
  split; [|exact Hhd].
  apply (proj2 Htwo). eexists _, _. split; reflexivity.
Defined.


Lemma pbNoteCreate_forwards_tag_arrays_witness :
  exists req body,
    fst (@pbNoteCreate sampleEngine untrimmedTags []) = [req]
    /\ requestBody req = Some body
    /\ body !! "tags" = Some (VArr [VStr " a "; VStr ""]).
Proof.
  eexists.
  assert (Hrun : fst (@pbNoteCreate sampleEngine untrimmedTags []) = [_])
    by (vm_compute; reflexivity).
  assert (Hin : In _ (fst (@pbNoteCreate sampleEngine untrimmedTags [])))
    by (rewrite Hrun; left; reflexivity).
  destruct (@pbNoteCreate_forwards_tag_arrays sampleEngine untrimmedTags []
              _ Hin)
    as (body & _ & _ & Hbody & _ & _ & _ & _ & _ & Htags).
  exists body. split; [exact Hrun|]. split; [exact Hbody|].
  rewrite Htags. vm_compute. reflexivity.
Defined.

Lemma listWithLinks_sends_the_query_once_witness :
  exists req,
    nth_error (fst sampleFilteredRun) 1 = Some req
    /\ exists payload s,
         nth_error sampleLinkScript 0 = Some (Returned payload)
         /\ linksNext payload = VStr s
         /\ ((String.prefix "http" s = true /\ req = GET_absolute s)
             \/ (String.prefix "http" s = false
                 /\ exists u,
                      @URL_resolve sampleEngine s = Some u
                      /\ (req = GET_absolute u
                          \/ (u = "" /\ req = GET_query "/features"
                                                emptyObj)))).
Proof.
  eexists.
  assert (Hnth : nth_error (fst sampleFilteredRun) 1 = Some _)
    by (vm_compute; reflexivity).
  split; [exact Hnth|].
  exact (proj2 (@listWithLinks_sends_the_query_once sampleEngine
                  "/features" (Some {[ "status.name" := VStr "Done" ]})
                  (VInt 5) None sampleLinkScript) 0%nat _ Hnth).
Defined.





Lemma pbObjectiveUpdate_timeframe_and_owner_witness :
  @pbObjectiveUpdate sampleEngine oneSidedDates []
  = ([], Thrown (validationError
       "Timeframe requires both startDate and endDate when provided.")).
Proof.
  assert (Hid : truthy (field (toObject oneSidedDates) "id") = true)
    by (vm_compute; reflexivity).
  apply (proj1 (@pbObjectiveUpdate_timeframe_and_owner sampleEngine
                  oneSidedDates [] Hid) None).
  - vm_compute. reflexivity.
  - vm_compute. discriminate.
Defined.

Lemma error_envelope_of_a_response_witness :
  exists err,
    @apiRequest_receive sampleEngine badGateway badGatewayText
    = Threw (ApiError err)
    /\ errorBody (asErrorResult (ApiError err)) !! "message"
       = Some (VStr badGatewayText)
    /\ errorBody (asErrorResult (ApiError err)) !! "details"
       = Some (VStr badGatewayText).
Proof.
  assert (Hok : Resp.ok badGateway = false) by reflexivity.
  destruct (@error_envelope_of_a_response sampleEngine badGateway
              badGatewayText Hok) as (err & Hthrown & _ & Hbody).
  cbv zeta in Hbody. destruct Hbody as (_ & _ & Hraw & _).
  exists err. split; [exact Hthrown|].
  apply Hraw; [reflexivity|discriminate|reflexivity].
Defined.

Lemma walkers_fail_as_a_whole_witness :
  snd failingRun = Thrown notFound /\ length (fst failingRun) = 2%nat.
Proof.
  assert (Hnth : nth_error failingScript 1 = Some (Threw notFound))
    by reflexivity.
  apply (proj1 (@walkers_fail_as_a_whole sampleEngine failingScript 1
                  notFound Hnth) "/features" None (VInt 5) None).
  vm_compute. lia.
Defined.

Lemma listNotes_returns_the_first_items_witness :
  exists reqs r,
    sampleNotesRun = (reqs, Done r)
    /\ Notes.items r
       = firstn (Z.to_nat (@normalizeLimit sampleEngine (VInt 150)))
           (received twoNotesPages (length reqs))
    /\ Notes.count r = len (Notes.items r)
    /\ len (Notes.items r) <= @normalizeLimit sampleEngine (VInt 150).
Proof.
  eexists _, _.
  assert (Hrun : sampleNotesRun = (_, Done _)) by (vm_compute; reflexivity).
  split; [exact Hrun|].
  exact (proj2 (@listNotes_returns_the_first_items sampleEngine
                  (Some sampleNotesQuery) (VInt 150) twoNotesPages _ _ Hrun)
           _ eq_refl).
Defined.


Lemma pbFeatureCreate_required_fields_witness :
  exists req data,
    fst (pbFeatureCreate createArchivedAsText []) = [req]
    /\ requestData req = Some data
    /\ data !! "type" = Some (VStr "feature").
Proof.
  eexists.
  assert (Hrun : fst (pbFeatureCreate createArchivedAsText []) = [_])
    by (vm_compute; reflexivity).
  assert (Hin : In _ (fst (pbFeatureCreate createArchivedAsText [])))
    by (rewrite Hrun; left; reflexivity).
  destruct (proj1 (pbFeatureCreate_required_fields createArchivedAsText [])
              _ Hin)
    as (status & parent & data & _ & _ & _ & Hdata & _ & _ & _ & Hparent
        & _ & _ & _ & _ & Htype & _).
  exists data. split; [exact Hrun|]. split; [exact Hdata|].
  rewrite Htype. vm_compute in Hparent. injection Hparent as <-.
  vm_compute. reflexivity.
Defined.
